(** * PromptForm AI: the script document and its three export renderers

    A shallow embedding of
    - [src/types.ts]                  the document model,
    - [src/utils/qsfGenerator.ts]     the delimited (Qualtrics TXT) serializer,
    - [src/components/OutputDisplay.tsx]
                                      the plain-text renderer, the paginated
                                      PDF layout, the text-edit operation and
                                      the controls of the output panel,
    - [src/services/geminiService.ts] the two calls of the model,
    - [src/App.tsx]                   the state of the application and its
                                      handlers,
    - [src/components/Chatbot.tsx]    the chat window,
    followed by the properties of these functions.

    JavaScript closures that mutate local variables ([lines], the two
    counters, [text], [y], the [pdf] object) are written in a small state
    monad; [Array.prototype.forEach] is a monadic iteration over a list. *)

From Stdlib Require Import Ascii String QArith Lqa.
From stdpp Require Import base list strings pretty.

Open Scope string_scope.
Open Scope list_scope.

(** ** A state monad for the mutable locals of a closure *)

Definition State (S A : Type) : Type := S -> A * S.

Definition ret {S A} (a : A) : State S A := fun s => (a, s).

Definition bind {S A B} (c : State S A) (k : A -> State S B) : State S B :=
  fun s => let (a, s') := c s in k a s'.

Definition modify {S} (f : S -> S) : State S unit := fun s => (tt, f s).

Definition gets {S A} (f : S -> A) : State S A := fun s => (f s, s).

Definition exec {S A} (c : State S A) (s : S) : S := snd (c s).

Declare Scope state_scope.
Delimit Scope state_scope with state.
Notation "x <~ c ;; k" := (bind c (fun x => k))
  (at level 100, c at next level, k at level 200, right associativity) : state_scope.
Notation "c ;; k" := (bind c (fun _ => k))
  (at level 100, k at level 200, right associativity) : state_scope.
Open Scope state_scope.

(** [when b c]: the statement [if (b) { c }]. *)
Definition when {S} (b : bool) (c : State S unit) : State S unit :=
  if b then c else ret tt.

(** [arr.forEach(f)] for a callback run for its effects. *)
Fixpoint forEach {S A} (f : A -> State S unit) (arr : list A) : State S unit :=
  match arr with
  | [] => ret tt
  | x :: rest => f x ;; forEach f rest
  end.

(** ** The document model ([src/types.ts]) *)

Inductive QuestionType := FreeText | MultipleChoice | SingleChoice | LikertScale.

(** [type?] and [options?] are optional properties: [None] is an absent
    property. *)
Record Question := {
  id : string;
  text : string;
  type : option QuestionType;
  options : option (list string)
}.

Record CoreQuestionSection := {
  topic : string;
  questions : list Question
}.

Record GeneratedContent := {
  opening : list Question;
  core : list CoreQuestionSection;
  followUps : list Question;
  closing : list Question;
  isQuestionnaire : option bool
}.

(** [q.options?.forEach(f)] and [if (q.options) q.options.forEach(f)]. *)
Definition forEachOption {S} (f : string -> State S unit)
    (opts : option (list string)) : State S unit :=
  match opts with
  | Some os => forEach f os
  | None => ret tt
  end.

(** The option strings a question carries; none when the property is absent. *)
Definition optionList (q : Question) : list string :=
  match options q with Some os => os | None => [] end.

(** Every question of the document, in traversal order. *)
Definition coreQuestions (secs : list CoreQuestionSection) : list Question :=
  flat_map questions secs.

Definition allQuestions (d : GeneratedContent) : list Question :=
  opening d ++ coreQuestions (core d) ++ followUps d ++ closing d.

(** The line feed of ["\n"]. *)
Definition nl : string := String "010"%char "".

(** ** The delimited survey-import serializer ([generateQualtricsTxt]) *)

Module Qualtrics.

(** The locals [mcCounter], [teCounter] and [lines] of one call. *)
Record GenState := {
  mcCounter : N;
  teCounter : N;
  lines : list string
}.

(** [let mcCounter = 1; let teCounter = 1; const lines = [];] *)
Definition initialState : GenState :=
  {| mcCounter := 1; teCounter := 1; lines := [] |}.

(** [lines.push(s)] *)
Definition push (s : string) : State GenState unit :=
  modify (fun st => {| mcCounter := mcCounter st;
                       teCounter := teCounter st;
                       lines := lines st ++ [s] |}).

(** [mcCounter++]: the value before the increment. *)
Definition mcCounterPostIncr : State GenState N :=
  fun st => (mcCounter st,
             {| mcCounter := mcCounter st + 1;
                teCounter := teCounter st;
                lines := lines st |}).

(** [teCounter++] *)
Definition teCounterPostIncr : State GenState N :=
  fun st => (teCounter st,
             {| mcCounter := mcCounter st;
                teCounter := teCounter st + 1;
                lines := lines st |}).

(** The template literals [`MC${n}. ${text}`] and [`TE${n}. ${text}`]. *)
Definition mcLine (n : N) (t : string) : string := "MC" +:+ pretty n +:+ ". " +:+ t.
Definition teLine (n : N) (t : string) : string := "TE" +:+ pretty n +:+ ". " +:+ t.

Definition multipleAnswer : string := "[[MultipleAnswer]]".

(** The callback of [questions.forEach] inside [processQuestions]. *)
Definition processQuestion (question : Question) : State GenState unit :=
  match type question with
  | None => ret tt                               (* if (!question.type) return; *)
  | Some ty =>
      match ty with
      | SingleChoice | LikertScale =>
          n <~ mcCounterPostIncr ;;
          push (mcLine n (text question)) ;;
          push "" ;;
          forEachOption push (options question)
      | MultipleChoice =>
          n <~ mcCounterPostIncr ;;
          push (mcLine n (text question)) ;;
          push multipleAnswer ;;
          push "" ;;
          forEachOption push (options question)
      | FreeText =>
          n <~ teCounterPostIncr ;;
          push (teLine n (text question))
      end ;;
      push ""
  end.

Definition processQuestions (qs : list Question) : State GenState unit :=
  if Nat.eqb (length qs) 0 then ret tt
  else forEach processQuestion qs.

Definition openingMarker : string := "[[Block:Opening / Warm-up Questions]]".
Definition coreMarker (t : string) : string := "[[Block:Core Questions: " +:+ t +:+ "]]".
Definition followUpsMarker : string := "[[Block:Follow-ups / Probes]]".
Definition closingMarker : string := "[[Block:Closing / Wrap-up]]".

(** One guarded block: [if (qs.length > 0) { push(marker); push(''); processQuestions(qs); }] *)
Definition block (marker : string) (qs : list Question) : State GenState unit :=
  when (Nat.ltb 0 (length qs))
    (push marker ;; push "" ;; processQuestions qs).

Definition coreBlock (section : CoreQuestionSection) : State GenState unit :=
  block (coreMarker (topic section)) (questions section).

(** The statements of [generateQualtricsTxt] before the final [join]. *)
Definition generateBody (content : GeneratedContent) : State GenState unit :=
  block openingMarker (opening content) ;;
  forEach coreBlock (core content) ;;
  block followUpsMarker (followUps content) ;;
  block closingMarker (closing content).

(** The array [lines] when the function reaches its [return]. *)
Definition generatedLines (content : GeneratedContent) : list string :=
  lines (exec (generateBody content) initialState).

(** [return lines.join('\n')] *)
Definition generateQualtricsTxt (content : GeneratedContent) : string :=
  String.concat nl (generatedLines content).

End Qualtrics.

(** ** The plain-text renderer ([formatContentAsText]) *)

Module PlainText.

(** [text += s] on the local [let text = ""]. *)
Definition append (s : string) : State string unit :=
  modify (fun acc => acc +:+ s).

(** The callback the source repeats for each of the four groups:
    [text += `- ${q.text}\n`; if (q.options) q.options.forEach(opt => text += `  - ${opt}\n`);] *)
Definition questionLines (q : Question) : State string unit :=
  append ("- " +:+ text q +:+ nl) ;;
  forEachOption (fun opt => append ("  - " +:+ opt +:+ nl)) (options q).

Definition coreSection (section : CoreQuestionSection) : State string unit :=
  append ("## Core Questions: " +:+ topic section +:+ nl) ;;
  forEach questionLines (questions section) ;;
  append nl.

Definition openingHeading : string := "## Opening / Warm-up Questions" +:+ nl.
Definition followUpsHeading : string := "## Follow-ups / Probes" +:+ nl.
Definition closingHeading : string := "## Closing / Wrap-up" +:+ nl.

Definition formatBody (content : GeneratedContent) : State string unit :=
  append openingHeading ;;
  forEach questionLines (opening content) ;;
  append nl ;;
  forEach coreSection (core content) ;;
  append followUpsHeading ;;
  forEach questionLines (followUps content) ;;
  append nl ;;
  append closingHeading ;;
  forEach questionLines (closing content).

(** [content] is [GeneratedContent | null]; [if (!content) return ""]. *)
Definition formatContentAsText (content : option GeneratedContent) : string :=
  match content with
  | None => ""
  | Some c => exec (formatBody c) ""
  end.

End PlainText.

(** ** The paginated layout ([handleExportPDF])

    The jsPDF object is kept as the log of what the handler asks of it: the
    page count, the current font, and every [pdf.text] call with the page it
    lands on.  Lengths are millimetres, as rationals: every height the handler
    adds is a multiple of 1/2. *)

Module Pdf.

Inductive FontStyle := Normal | Bold.
Inductive Align := AlignLeft | AlignCenter.

(** One call [pdf.text(lines, x, y, {align})] under the font current then. *)
Record TextOp := {
  opPage : nat;
  opLines : list string;
  opX : Q;
  opY : Q;
  opAlign : Align;
  opFontSize : Z;
  opFontStyle : FontStyle
}.

(** The [pdf] object and the cursor [y]. *)
Record LayoutState := {
  pageCount : nat;
  fontSize : Z;
  fontStyle : FontStyle;
  drawn : list TextOp;
  y : Q
}.

(** [const margin = 15] *)
Definition margin : Q := 15.

(** [arr.length] as a number. *)
Definition len {A} (arr : list A) : Q := inject_Z (Z.of_nat (length arr)).

(** [pdf.setFontSize(n)] *)
Definition setFontSize (n : Z) : State LayoutState unit :=
  modify (fun st => {| pageCount := pageCount st; fontSize := n;
                       fontStyle := fontStyle st; drawn := drawn st; y := y st |}).

(** [pdf.setFont(undefined, style)] *)
Definition setFont (s : FontStyle) : State LayoutState unit :=
  modify (fun st => {| pageCount := pageCount st; fontSize := fontSize st;
                       fontStyle := s; drawn := drawn st; y := y st |}).

(** [pdf.addPage()]: the new page becomes the current one. *)
Definition addPage : State LayoutState unit :=
  modify (fun st => {| pageCount := S (pageCount st); fontSize := fontSize st;
                       fontStyle := fontStyle st; drawn := drawn st; y := y st |}).

(** [y = v] *)
Definition setY (v : Q) : State LayoutState unit :=
  modify (fun st => {| pageCount := pageCount st; fontSize := fontSize st;
                       fontStyle := fontStyle st; drawn := drawn st; y := v |}).

(** [y += h] *)
Definition advance (h : Q) : State LayoutState unit :=
  modify (fun st => {| pageCount := pageCount st; fontSize := fontSize st;
                       fontStyle := fontStyle st; drawn := drawn st; y := y st + h |}).

(** [pdf.text(ls, x, y, {align})] at the cursor, on the current page. *)
Definition drawText (ls : list string) (x : Q) (al : Align) : State LayoutState unit :=
  modify (fun st =>
    {| pageCount := pageCount st; fontSize := fontSize st;
       fontStyle := fontStyle st;
       drawn := drawn st ++ [ {| opPage := pageCount st; opLines := ls; opX := x;
                                 opY := y st; opAlign := al;
                                 opFontSize := fontSize st;
                                 opFontStyle := fontStyle st |} ];
       y := y st |}).

Section Layout.

(** What jsPDF supplies: the page size of the chosen format and its
    width-aware line splitting, which reads the current font. *)
Variables pageWidth pageHeight : Q.
Variable splitTextToSize : Z -> FontStyle -> string -> Q -> list string.

Definition maxLineWidth : Q := pageWidth - margin * 2.

(** [pdf.splitTextToSize(t, w)] *)
Definition splitText (t : string) (w : Q) : State LayoutState (list string) :=
  gets (fun st => splitTextToSize (fontSize st) (fontStyle st) t w).

(** [if (y + neededHeight > pageHeight - margin) { pdf.addPage(); y = margin; }] *)
Definition checkPageBreak (neededHeight : Q) : State LayoutState unit :=
  fun st =>
    if Qlt_le_dec (pageHeight - margin) (y st + neededHeight)
    then (addPage ;; setY margin) st
    else (tt, st).

(** The callback of [q.options.forEach] inside [addSection]. *)
Definition addOption (opt : string) : State LayoutState unit :=
  let optionText := "    â€¢ " +:+ opt in
  optionLines <~ splitText optionText (maxLineWidth - 10) ;;
  checkPageBreak (len optionLines * (9 # 2)) ;;
  drawText optionLines (margin + 5) AlignLeft ;;
  advance (len optionLines * (9 # 2)).

(** The callback of [questions.forEach] inside [addSection]. *)
Definition addQuestion (q : Question) : State LayoutState unit :=
  setFontSize 11 ;;
  setFont Normal ;;
  let questionText := "- " +:+ text q in
  questionLines <~ splitText questionText (maxLineWidth - 5) ;;
  checkPageBreak (len questionLines * 5 + 2) ;;
  drawText questionLines (margin + 2) AlignLeft ;;
  advance (len questionLines * 5 + 2) ;;
  match options q with
  | Some opts =>
      when (Nat.ltb 0 (length opts))
        (setFontSize 10 ;;
         forEach addOption opts ;;
         advance 2)
  | None => ret tt
  end.

Definition addSection (title : string) (qs : list Question) : State LayoutState unit :=
  if Nat.eqb (length qs) 0 then ret tt
  else
    setFontSize 14 ;;
    setFont Bold ;;
    sectionTitleLines <~ splitText title maxLineWidth ;;
    checkPageBreak (len sectionTitleLines * 7 + 8) ;;
    drawText sectionTitleLines margin AlignLeft ;;
    advance (len sectionTitleLines * 7 + 4) ;;
    forEach addQuestion qs ;;
    advance 5.

Definition documentTitle (content : GeneratedContent) : string :=
  match isQuestionnaire content with
  | Some true => "Generated Questionnaire"
  | _ => "Generated Script"
  end.

Definition addTitle (content : GeneratedContent) : State LayoutState unit :=
  setFontSize 18 ;;
  setFont Bold ;;
  titleLines <~ splitText (documentTitle content) maxLineWidth ;;
  checkPageBreak (len titleLines * 8) ;;
  drawText titleLines (pageWidth / 2) AlignCenter ;;
  advance (len titleLines * 8 + 10).

Definition coreTitle (section : CoreQuestionSection) : string :=
  "Core Questions: " +:+ topic section.

Definition exportBody (content : GeneratedContent) : State LayoutState unit :=
  addTitle content ;;
  addSection "Opening / Warm-up Questions" (opening content) ;;
  forEach (fun section => addSection (coreTitle section) (questions section))
          (core content) ;;
  addSection "Follow-ups / Probes" (followUps content) ;;
  addSection "Closing / Wrap-up" (closing content).

(** [new jsPDF('p', 'mm', 'a4')] with jsPDF's default 16pt normal font, and
    [let y = margin]. *)
Definition newDocument : LayoutState :=
  {| pageCount := 1; fontSize := 16; fontStyle := Normal; drawn := []; y := margin |}.

(** The document handed to [pdf.save]; nothing when [content] is null. *)
Definition handleExportPDF (content : option GeneratedContent) : option LayoutState :=
  match content with
  | None => None
  | Some c => Some (exec (exportBody c) newDocument)
  end.

End Layout.

End Pdf.

(** ** The text edit ([updateQuestionText]) *)

Module Edit.

(** [keyof GeneratedContent] *)
Inductive ContentKey :=
  KeyOpening | KeyCore | KeyFollowUps | KeyClosing | KeyIsQuestionnaire.

(** What a call does: return a value or throw a [TypeError]. *)
Inductive Outcome (A : Type) :=
  | Returned (a : A)
  | TypeError.
Arguments Returned {A} a.
Arguments TypeError {A}.

(** [arr.findIndex(p)]: the first index whose element satisfies [p], or -1. *)
Fixpoint findIndexFrom {A} (p : A -> bool) (i : Z) (arr : list A) : Z :=
  match arr with
  | [] => (-1)%Z
  | x :: rest => if p x then i else findIndexFrom p (i + 1)%Z rest
  end.

Definition findIndex {A} (p : A -> bool) (arr : list A) : Z := findIndexFrom p 0%Z arr.

(** [q.text = newText] *)
Definition setText (newText : string) (q : Question) : Question :=
  {| id := id q; text := newText; type := type q; options := options q |}.

(** [JSON.parse(JSON.stringify(prev))]: a fresh copy with the same strings,
    arrays and present properties. *)
Definition cloneQuestion (q : Question) : Question :=
  {| id := id q; text := text q; type := type q;
     options := match options q with
                | Some os => Some (map (fun o => o) os)
                | None => None
                end |}.

Definition cloneSection (s : CoreQuestionSection) : CoreQuestionSection :=
  {| topic := topic s; questions := map cloneQuestion (questions s) |}.

Definition jsonClone (d : GeneratedContent) : GeneratedContent :=
  {| opening := map cloneQuestion (opening d);
     core := map cloneSection (core d);
     followUps := map cloneQuestion (followUps d);
     closing := map cloneQuestion (closing d);
     isQuestionnaire := isQuestionnaire d |}.

(** [const qIndex = qs.findIndex(q => q.id === id); if (qIndex > -1) qs[qIndex].text = newText;] *)
Definition patchQuestions (target newText : string) (qs : list Question) : list Question :=
  let qIndex := findIndex (fun q => String.eqb (id q) target) qs in
  if (-1 <? qIndex)%Z then alter (setText newText) (Z.to_nat qIndex) qs else qs.

Definition setQuestions (qs : list Question) (s : CoreQuestionSection) : CoreQuestionSection :=
  {| topic := topic s; questions := qs |}.

(** The updater passed to [setContent].  [coreIndex] is an array index when
    given.  Under the key ['core'] without an index the array searched holds
    sections, whose [id] is undefined and never [===] a string; under
    ['isQuestionnaire'] the value is no array and the call of [findIndex]
    throws. *)
Definition updateQuestionText (section : ContentKey) (target newText : string)
    (coreIndex : option nat) (prev : option GeneratedContent)
    : Outcome (option GeneratedContent) :=
  match prev with
  | None => Returned None
  | Some p =>
      let newContent := jsonClone p in
      match section, coreIndex with
      | KeyCore, Some i =>
          match core newContent !! i with
          | None => TypeError
          | Some sec =>
              Returned (Some
                {| opening := opening newContent;
                   core := <[i := setQuestions (patchQuestions target newText (questions sec)) sec]>
                             (core newContent);
                   followUps := followUps newContent;
                   closing := closing newContent;
                   isQuestionnaire := isQuestionnaire newContent |})
          end
      | KeyCore, None => Returned (Some newContent)
      | KeyOpening, _ =>
          Returned (Some
            {| opening := patchQuestions target newText (opening newContent);
               core := core newContent;
               followUps := followUps newContent;
               closing := closing newContent;
               isQuestionnaire := isQuestionnaire newContent |})
      | KeyFollowUps, _ =>
          Returned (Some
            {| opening := opening newContent;
               core := core newContent;
               followUps := patchQuestions target newText (followUps newContent);
               closing := closing newContent;
               isQuestionnaire := isQuestionnaire newContent |})
      | KeyClosing, _ =>
          Returned (Some
            {| opening := opening newContent;
               core := core newContent;
               followUps := followUps newContent;
               closing := patchQuestions target newText (closing newContent);
               isQuestionnaire := isQuestionnaire newContent |})
      | KeyIsQuestionnaire, _ => TypeError
      end
  end.

End Edit.

(** ** The renderers on the document as an object graph

    [content] is a JavaScript object: the renderers are handed a reference,
    and what they read of it they read through references to arrays and
    objects that a handler could write to.  Here the objects live in a
    store, laid out as [src/types.ts] declares them, and the renderers are
    written once more with every property access a read of the store.  The
    locals of each renderer ([text]; the counters and [lines]; [pdf] and
    [y]) are as before. *)

Module Heap.

Definition loc := nat.

(** The objects of [src/types.ts], with references where JavaScript has
    them: an array is an object of its own. *)
Record QuestionObject := {
  id : string;
  text : string;
  type : option QuestionType;
  options : option loc
}.

Record SectionObject := {
  topic : string;
  questions : loc
}.

Record ContentObject := {
  opening : loc;
  core : loc;
  followUps : loc;
  closing : loc;
  isQuestionnaire : option bool
}.

Inductive Object :=
  | Strings (items : list string)
  | References (items : list loc)
  | AQuestion (question : QuestionObject)
  | ASection (section : SectionObject)
  | AContent (content : ContentObject).

(** The object at address [l] of a store is its [l]-th entry. *)
Definition Store := list Object.

Section Programs.

(** The locals of the closure that runs. *)
Context {L : Type}.

(** A computation on the store and the locals that returns or throws. *)
Definition Js (A : Type) : Type := Store * L -> Edit.Outcome A * (Store * L).

Definition jret {A} (a : A) : Js A := fun st => (Edit.Returned a, st).

Definition jbind {A B} (c : Js A) (k : A -> Js B) : Js B :=
  fun st =>
    match c st with
    | (Edit.Returned a, st') => k a st'
    | (Edit.TypeError, st') => (Edit.TypeError, st')
    end.

Definition throw {A} : Js A := fun st => (Edit.TypeError, st).

(** A statement on the locals alone. *)
Definition local {A} (c : State L A) : Js A :=
  fun st => let (a, l') := c (snd st) in (Edit.Returned a, (fst st, l')).

(** [ref.property] for the kinds of object there are.  A reference that
    leads to no object, or to one of another kind, is none that TypeScript
    lets through; the access throws. *)
Definition ofQuestion {A} (property : QuestionObject -> A) (l : loc) : Js A :=
  fun st =>
    match fst st !! l with
    | Some (AQuestion q) => (Edit.Returned (property q), st)
    | _ => (Edit.TypeError, st)
    end.

Definition ofSection {A} (property : SectionObject -> A) (l : loc) : Js A :=
  fun st =>
    match fst st !! l with
    | Some (ASection s) => (Edit.Returned (property s), st)
    | _ => (Edit.TypeError, st)
    end.

Definition ofContent {A} (property : ContentObject -> A) (l : loc) : Js A :=
  fun st =>
    match fst st !! l with
    | Some (AContent c) => (Edit.Returned (property c), st)
    | _ => (Edit.TypeError, st)
    end.

(** The elements of an array of strings, and of an array of references. *)
Definition stringsAt (l : loc) (store : Store) : option (list string) :=
  match store !! l with
  | Some (Strings items) => Some items
  | _ => None
  end.

Definition referencesAt (l : loc) (store : Store) : option (list loc) :=
  match store !! l with
  | Some (References items) => Some items
  | _ => None
  end.

(** [arr.length] *)
Definition lengthOf {X} (elements : Store -> option (list X)) : Js nat :=
  fun st =>
    match elements (fst st) with
    | Some items => (Edit.Returned (length items), st)
    | None => (Edit.TypeError, st)
    end.

(** [arr.forEach(f)]: the length is read once; then, index by index, the
    element is read from the array as it is at that moment, and an index
    that is no longer there is passed over. *)
Fixpoint forEachFrom {X} (elements : Store -> option (list X)) (f : X -> Js unit)
    (remaining k : nat) : Js unit :=
  match remaining with
  | O => jret tt
  | S remaining' =>
      fun st =>
        match elements (fst st) with
        | None => (Edit.TypeError, st)
        | Some items =>
            match items !! k with
            | Some x => jbind (f x) (fun _ => forEachFrom elements f remaining' (S k)) st
            | None => forEachFrom elements f remaining' (S k) st
            end
        end
  end.

Definition forEachOf {X} (elements : Store -> option (list X)) (f : X -> Js unit)
    : Js unit :=
  jbind (lengthOf elements) (fun n => forEachFrom elements f n 0).

End Programs.

Declare Scope js_scope.
Delimit Scope js_scope with js.
Notation "x <~ c ;; k" := (jbind c (fun x => k))
  (at level 100, c at next level, k at level 200, right associativity) : js_scope.
Notation "c ;; k" := (jbind c (fun _ => k))
  (at level 100, k at level 200, right associativity) : js_scope.
Local Open Scope js_scope.

(** *** [formatContentAsText] *)

(** The callback of the four [forEach] over questions. *)
Definition questionLines (q : loc) : @Js string unit :=
  t <~ ofQuestion text q ;;
  local (PlainText.append ("- " +:+ t +:+ nl)) ;;
  opts <~ ofQuestion options q ;;
  match opts with
  | Some _ =>
      arr <~ ofQuestion options q ;;
      match arr with
      | Some arr =>
          forEachOf (stringsAt arr)
            (fun opt => local (PlainText.append ("  - " +:+ opt +:+ nl)))
      | None => throw
      end
  | None => jret tt
  end.

Definition coreSection (section : loc) : @Js string unit :=
  t <~ ofSection topic section ;;
  local (PlainText.append ("## Core Questions: " +:+ t +:+ nl)) ;;
  qs <~ ofSection questions section ;;
  forEachOf (referencesAt qs) questionLines ;;
  local (PlainText.append nl).

Definition formatBody (content : loc) : @Js string string :=
  local (PlainText.append ("## Opening / Warm-up Questions" +:+ nl)) ;;
  qs <~ ofContent opening content ;;
  forEachOf (referencesAt qs) questionLines ;;
  local (PlainText.append nl) ;;
  secs <~ ofContent core content ;;
  forEachOf (referencesAt secs) coreSection ;;
  local (PlainText.append ("## Follow-ups / Probes" +:+ nl)) ;;
  qs <~ ofContent followUps content ;;
  forEachOf (referencesAt qs) questionLines ;;
  local (PlainText.append nl) ;;
  local (PlainText.append ("## Closing / Wrap-up" +:+ nl)) ;;
  qs <~ ofContent closing content ;;
  forEachOf (referencesAt qs) questionLines ;;
  local (gets (fun text => text)).

(** The function on a store: what it returns, and the store it leaves.
    [content] is a reference or null. *)
Definition formatContentAsText (content : option loc) (store : Store)
    : Edit.Outcome string * Store :=
  match content with
  | None => (Edit.Returned "", store)
  | Some c => let (result, st) := formatBody c (store, "") in (result, fst st)
  end.

(** *** [generateQualtricsTxt] *)

Definition pushOption (opt : string) : @Js Qualtrics.GenState unit :=
  local (Qualtrics.push opt).

(** [question.options?.forEach(opt => lines.push(opt))] *)
Definition pushOptions (question : loc) : @Js Qualtrics.GenState unit :=
  opts <~ ofQuestion options question ;;
  match opts with
  | Some arr => forEachOf (stringsAt arr) pushOption
  | None => jret tt
  end.

Definition processQuestion (question : loc) : @Js Qualtrics.GenState unit :=
  ty <~ ofQuestion type question ;;
  match ty with
  | None => jret tt
  | Some _ =>
      ty <~ ofQuestion type question ;;
      match ty with
      | Some SingleChoice | Some LikertScale =>
          n <~ local Qualtrics.mcCounterPostIncr ;;
          t <~ ofQuestion text question ;;
          local (Qualtrics.push (Qualtrics.mcLine n t)) ;;
          local (Qualtrics.push "") ;;
          pushOptions question
      | Some MultipleChoice =>
          n <~ local Qualtrics.mcCounterPostIncr ;;
          t <~ ofQuestion text question ;;
          local (Qualtrics.push (Qualtrics.mcLine n t)) ;;
          local (Qualtrics.push Qualtrics.multipleAnswer) ;;
          local (Qualtrics.push "") ;;
          pushOptions question
      | Some FreeText =>
          n <~ local Qualtrics.teCounterPostIncr ;;
          t <~ ofQuestion text question ;;
          local (Qualtrics.push (Qualtrics.teLine n t))
      | None => jret tt
      end ;;
      local (Qualtrics.push "")
  end.

(** [if (!questions || questions.length === 0) return; questions.forEach(...)] *)
Definition processQuestions (questions : loc) : @Js Qualtrics.GenState unit :=
  n <~ lengthOf (referencesAt questions) ;;
  if Nat.eqb n 0 then jret tt
  else forEachOf (referencesAt questions) processQuestion.

(** [if (content.group.length > 0) { push(marker); push(''); processQuestions(content.group); }] *)
Definition block (marker : string) (group : ContentObject -> loc) (content : loc)
    : @Js Qualtrics.GenState unit :=
  qs <~ ofContent group content ;;
  n <~ lengthOf (referencesAt qs) ;;
  if Nat.ltb 0 n
  then local (Qualtrics.push marker) ;;
       local (Qualtrics.push "") ;;
       qs <~ ofContent group content ;;
       processQuestions qs
  else jret tt.

Definition coreBlock (section : loc) : @Js Qualtrics.GenState unit :=
  qs <~ ofSection questions section ;;
  n <~ lengthOf (referencesAt qs) ;;
  if Nat.ltb 0 n
  then t <~ ofSection topic section ;;
       local (Qualtrics.push (Qualtrics.coreMarker t)) ;;
       local (Qualtrics.push "") ;;
       qs <~ ofSection questions section ;;
       processQuestions qs
  else jret tt.

Definition generateBody (content : loc) : @Js Qualtrics.GenState string :=
  block Qualtrics.openingMarker opening content ;;
  secs <~ ofContent core content ;;
  forEachOf (referencesAt secs) coreBlock ;;
  block Qualtrics.followUpsMarker followUps content ;;
  block Qualtrics.closingMarker closing content ;;
  local (gets (fun st => String.concat nl (Qualtrics.lines st))).

Definition generateQualtricsTxt (content : loc) (store : Store)
    : Edit.Outcome string * Store :=
  let (result, st) := generateBody content (store, Qualtrics.initialState) in
  (result, fst st).

(** *** [handleExportPDF] *)

Section Layout.

Variables pageWidth pageHeight : Q.
Variable splitTextToSize : Z -> Pdf.FontStyle -> string -> Q -> list string.

Definition addOption (opt : string) : @Js Pdf.LayoutState unit :=
  local (Pdf.addOption pageWidth pageHeight splitTextToSize opt).

Definition addQuestion (q : loc) : @Js Pdf.LayoutState unit :=
  local (Pdf.setFontSize 11) ;;
  local (Pdf.setFont Pdf.Normal) ;;
  t <~ ofQuestion text q ;;
  questionLines <~ local (Pdf.splitText splitTextToSize ("- " +:+ t)
                            (Pdf.maxLineWidth pageWidth - 5)) ;;
  local (Pdf.checkPageBreak pageHeight (Pdf.len questionLines * 5 + 2)) ;;
  local (Pdf.drawText questionLines (Pdf.margin + 2) Pdf.AlignLeft) ;;
  local (Pdf.advance (Pdf.len questionLines * 5 + 2)) ;;
  opts <~ ofQuestion options q ;;
  match opts with
  | Some _ =>
      arr <~ ofQuestion options q ;;
      match arr with
      | Some arr =>
          n <~ lengthOf (stringsAt arr) ;;
          if Nat.ltb 0 n
          then local (Pdf.setFontSize 10) ;;
               arr <~ ofQuestion options q ;;
               match arr with
               | Some arr => forEachOf (stringsAt arr) addOption
               | None => throw
               end ;;
               local (Pdf.advance 2)
          else jret tt
      | None => throw
      end
  | None => jret tt
  end.

Definition addSection (title : string) (questions : loc) : @Js Pdf.LayoutState unit :=
  n <~ lengthOf (referencesAt questions) ;;
  if Nat.eqb n 0 then jret tt
  else
    local (Pdf.setFontSize 14) ;;
    local (Pdf.setFont Pdf.Bold) ;;
    sectionTitleLines <~ local (Pdf.splitText splitTextToSize title
                                  (Pdf.maxLineWidth pageWidth)) ;;
    local (Pdf.checkPageBreak pageHeight (Pdf.len sectionTitleLines * 7 + 8)) ;;
    local (Pdf.drawText sectionTitleLines Pdf.margin Pdf.AlignLeft) ;;
    local (Pdf.advance (Pdf.len sectionTitleLines * 7 + 4)) ;;
    forEachOf (referencesAt questions) addQuestion ;;
    local (Pdf.advance 5).

Definition addTitle (content : loc) : @Js Pdf.LayoutState unit :=
  local (Pdf.setFontSize 18) ;;
  local (Pdf.setFont Pdf.Bold) ;;
  flag <~ ofContent isQuestionnaire content ;;
  let title := match flag with
               | Some true => "Generated Questionnaire"
               | _ => "Generated Script"
               end in
  titleLines <~ local (Pdf.splitText splitTextToSize title (Pdf.maxLineWidth pageWidth)) ;;
  local (Pdf.checkPageBreak pageHeight (Pdf.len titleLines * 8)) ;;
  local (Pdf.drawText titleLines (pageWidth / 2) Pdf.AlignCenter) ;;
  local (Pdf.advance (Pdf.len titleLines * 8 + 10)).

Definition coreSectionBlocks (section : loc) : @Js Pdf.LayoutState unit :=
  t <~ ofSection topic section ;;
  qs <~ ofSection questions section ;;
  addSection ("Core Questions: " +:+ t) qs.

Definition exportBody (content : loc) : @Js Pdf.LayoutState Pdf.LayoutState :=
  addTitle content ;;
  qs <~ ofContent opening content ;;
  addSection "Opening / Warm-up Questions" qs ;;
  secs <~ ofContent core content ;;
  forEachOf (referencesAt secs) coreSectionBlocks ;;
  qs <~ ofContent followUps content ;;
  addSection "Follow-ups / Probes" qs ;;
  qs <~ ofContent closing content ;;
  addSection "Closing / Wrap-up" qs ;;
  local (gets (fun pdf => pdf)).

(** The document handed to [pdf.save], if any, and the store the handler
    leaves. *)
Definition handleExportPDF (content : option loc) (store : Store)
    : Edit.Outcome (option Pdf.LayoutState) * Store :=
  match content with
  | None => (Edit.Returned None, store)
  | Some c =>
      match exportBody c (store, Pdf.newDocument) with
      | (Edit.Returned pdf, st) => (Edit.Returned (Some pdf), fst st)
      | (Edit.TypeError, st) => (Edit.TypeError, fst st)
      end
  end.

End Layout.

End Heap.

(** A store holds a document at a reference when the object graph under the
    reference has the strings, the questions and the sections of the
    document, in its order. *)
Module HeapSpec.

Definition holdsOptions (store : Heap.Store) (ref : option Heap.loc)
    (opts : option (list string)) : Prop :=
  match ref, opts with
  | None, None => True
  | Some l, Some os => store !! l = Some (Heap.Strings os)
  | _, _ => False
  end.

Definition holdsQuestion (store : Heap.Store) (l : Heap.loc) (q : Question) : Prop :=
  exists o,
    store !! l = Some (Heap.AQuestion o)
    /\ Heap.id o = id q /\ Heap.text o = text q /\ Heap.type o = type q
    /\ holdsOptions store (Heap.options o) (options q).

Definition holdsQuestions (store : Heap.Store) (l : Heap.loc) (qs : list Question)
    : Prop :=
  exists refs,
    store !! l = Some (Heap.References refs)
    /\ Forall2 (holdsQuestion store) refs qs.

Definition holdsSection (store : Heap.Store) (l : Heap.loc) (s : CoreQuestionSection)
    : Prop :=
  exists o,
    store !! l = Some (Heap.ASection o)
    /\ Heap.topic o = topic s
    /\ holdsQuestions store (Heap.questions o) (questions s).

Definition holdsContent (store : Heap.Store) (l : Heap.loc) (d : GeneratedContent)
    : Prop :=
  exists o secs,
    store !! l = Some (Heap.AContent o)
    /\ holdsQuestions store (Heap.opening o) (opening d)
    /\ store !! Heap.core o = Some (Heap.References secs)
    /\ Forall2 (holdsSection store) secs (core d)
    /\ holdsQuestions store (Heap.followUps o) (followUps d)
    /\ holdsQuestions store (Heap.closing o) (closing d)
    /\ Heap.isQuestionnaire o = isQuestionnaire d.

(** [content] of type [GeneratedContent | null]. *)
Definition holds (store : Heap.Store) (ref : option Heap.loc)
    (content : option GeneratedContent) : Prop :=
  match ref, content with
  | None, None => True
  | Some l, Some d => holdsContent store l d
  | _, _ => False
  end.

(** [p] only reads the store, and does to the locals what [c] does. *)
Definition readsAs {L A} (store : Heap.Store) (p : @Heap.Js L A) (c : State L A)
    : Prop :=
  forall locals : L,
    p (store, locals) = (Edit.Returned (fst (c locals)), (store, snd (c locals))).

End HeapSpec.

(** ** What the outputs are compared with

    The groups of a document in the fixed order of the handlers, each with the
    title the three renderers share. *)

Definition coreGroup (s : CoreQuestionSection) : string * list Question :=
  ("Core Questions: " +:+ topic s, questions s).

Definition groups (d : GeneratedContent) : list (string * list Question) :=
  ("Opening / Warm-up Questions", opening d)
  :: map coreGroup (core d)
  ++ [("Follow-ups / Probes", followUps d); ("Closing / Wrap-up", closing d)].

Definition nonEmpty (g : string * list Question) : bool :=
  match snd g with [] => false | _ => true end.

Definition untyped (q : Question) : Prop := type q = None.

(** The lines of a string, split at its line feeds. *)
Fixpoint linesOf (s : string) : list string :=
  match s with
  | EmptyString => [""]
  | String c rest =>
      if Ascii.eqb c "010"%char then "" :: linesOf rest
      else match linesOf rest with
           | l :: ls => String c l :: ls
           | [] => [String c ""]
           end
  end.

(** The [n] lines just before index [i] of [ls] are all blank. *)
Definition blankLinesBefore (n : nat) (ls : list string) (i : nat) : Prop :=
  forall k, (1 <= k <= n)%nat -> ls !! (i - k)%nat = Some "".

Module QualtricsSpec.
Import Qualtrics.

(** The two numbered categories: [MC] and [TE]. *)
Inductive Category := Choice | Free.

Definition categoryOf (ty : QuestionType) : Category :=
  match ty with
  | FreeText => Free
  | _ => Choice
  end.

Definition inCategory (c : Category) (q : Question) : bool :=
  match type q with
  | Some ty =>
      match categoryOf ty, c with
      | Choice, Choice | Free, Free => true
      | _, _ => false
      end
  | None => false
  end.

(** How many questions of category [c] the list holds. *)
Fixpoint countIn (c : Category) (qs : list Question) : N :=
  match qs with
  | [] => 0
  | q :: rest => ((if inCategory c q then 1 else 0) + countIn c rest)%N
  end.

(** The header line of a numbered question: [MC] or [TE], the number in
    decimal, a full stop, a space, and the text of the question. *)
Definition header (c : Category) (n : N) (t : string) : string :=
  match c with Choice => "MC" | Free => "TE" end +:+ pretty n +:+ ". " +:+ t.

(** The lines of one question of type [ty] that carries the number [n],
    without the blank line that closes it. *)
Definition questionBody (n : N) (ty : QuestionType) (q : Question) : list string :=
  match ty with
  | SingleChoice | LikertScale => header Choice n (text q) :: "" :: optionList q
  | MultipleChoice => header Choice n (text q) :: "[[MultipleAnswer]]" :: "" :: optionList q
  | FreeText => [header Free n (text q)]
  end.

(** A question is numbered one more than the questions of its category that
    come before it in the document; a question without a type has no lines. *)
Definition numberedQuestion (before : list Question) (q : Question) : list string :=
  match type q with
  | None => []
  | Some ty => questionBody (1 + countIn (categoryOf ty) before) ty q ++ [""]
  end.

Fixpoint numberedQuestions (before qs : list Question) : list string :=
  match qs with
  | [] => []
  | q :: rest => numberedQuestion before q ++ numberedQuestions (before ++ [q]) rest
  end.

Definition blockMarker (title : string) : string := "[[Block:" +:+ title +:+ "]]".

Fixpoint numberedGroups (before : list Question) (gs : list (string * list Question))
    : list string :=
  match gs with
  | [] => []
  | (title, qs) :: rest =>
      (blockMarker title :: "" :: numberedQuestions before qs)
      ++ numberedGroups (before ++ qs) rest
  end.

(** The counters stand one past the questions of each category in [before]. *)
Definition agrees (before : list Question) (st : GenState) : Prop :=
  mcCounter st = (1 + countIn Choice before)%N
  /\ teCounter st = (1 + countIn Free before)%N.

(** The counter a question of type [ty] reads. *)
Definition counterFor (ty : QuestionType) (st : GenState) : N :=
  match categoryOf ty with
  | Choice => mcCounter st
  | Free => teCounter st
  end.

(** The serializer's lines, said from the document alone. *)
Definition numberedLines (d : GeneratedContent) : list string :=
  numberedGroups [] (List.filter nonEmpty (groups d)).

(** The lines that stand above a question: those of the groups [g1] before
    its own group, the marker of its group [title] and the blank line after
    it, and the lines of the questions [pre] before it in its group. *)
Definition linesAbove (g1 : list (string * list Question)) (title : string)
    (pre : list Question) : list string :=
  numberedGroups [] (List.filter nonEmpty g1)
  ++ blockMarker title :: "" :: numberedQuestions (flat_map snd g1) pre.

(** The lines that stand below it: those of the questions [post] after it in
    its group and of the groups [g2] after its group, numbered after the
    questions [before]. *)
Definition linesBelow (before post : list Question)
    (g2 : list (string * list Question)) : list string :=
  numberedQuestions before post
  ++ numberedGroups (before ++ post) (List.filter nonEmpty g2).

End QualtricsSpec.

Module PlainTextSpec.

(** The strings of a list, one after the other. *)
Definition flatten (ls : list string) : string := fold_right String.append "" ls.

Definition optionText (opt : string) : string := "  - " +:+ opt +:+ nl.

Definition questionText (q : Question) : string :=
  "- " +:+ text q +:+ nl +:+ flatten (map optionText (optionList q)).

Definition groupText (g : string * list Question) : string :=
  "## " +:+ fst g +:+ nl +:+ flatten (map questionText (snd g)).

(** Every group under its heading, the groups separated by one line feed. *)
Definition outline (d : GeneratedContent) : string :=
  String.concat nl (map groupText (groups d)).

(** The text that stands above a question: the groups [g1] before its own
    group, each followed by a line feed, the heading of its group [title],
    and the questions [pre] before it in its group. *)
Definition textAbove (g1 : list (string * list Question)) (title : string)
    (pre : list Question) : string :=
  flatten (map (fun g => groupText g +:+ nl) g1)
  +:+ "## " +:+ title +:+ nl +:+ flatten (map questionText pre).

(** The text that stands below it: the questions [post] after it in its
    group, and the groups [g2] after its group, each after a line feed. *)
Definition textBelow (post : list Question) (g2 : list (string * list Question))
    : string :=
  flatten (map questionText post) +:+ flatten (map (fun g => nl +:+ groupText g) g2).

End PlainTextSpec.

Module PdfSpec.
Import Pdf.

Section Spec.

Variables pageWidth pageHeight : Q.
Variable splitTextToSize : Z -> FontStyle -> string -> Q -> list string.

(** The lowest cursor position a block may start at. *)
Definition bottom : Q := pageHeight - margin.

(** The height [checkPageBreak] is asked for before a block in the font of
    [op]: 18pt title, 14pt section heading, 11pt question, 10pt option. *)
Definition requiredExtent (op : TextOp) : Q :=
  if Z.eqb (opFontSize op) 18 then len (opLines op) * 8
  else if Z.eqb (opFontSize op) 14 then len (opLines op) * 7 + 8
  else if Z.eqb (opFontSize op) 11 then len (opLines op) * 5 + 2
  else if Z.eqb (opFontSize op) 10 then len (opLines op) * (9 # 2)
  else 0.

(** A block written at a cursor that is not below [bottom], either at the top
    margin or where the whole required extent still fits. *)
Definition writtenInBounds (op : TextOp) : Prop :=
  (opY op <= bottom)%Q /\ (opY op = margin \/ (opY op + requiredExtent op <= bottom)%Q).

(** From [st] to [st'] exactly the blocks [blocks] were drawn, in this order,
    each of them in bounds on a page that is at least two margins high. *)
Definition laidOut (st st' : LayoutState) (blocks : list (list string)) : Prop :=
  exists ops, drawn st' = drawn st ++ ops
              /\ map opLines ops = blocks
              /\ ((margin <= bottom)%Q -> Forall writtenInBounds ops).

(** The wrapped lines of each block, in the order they are to be drawn. *)
Definition optionBlock (opt : string) : list string :=
  splitTextToSize 10 Normal ("    â€¢ " +:+ opt) (maxLineWidth pageWidth - 10).

Definition questionBlocks (q : Question) : list (list string) :=
  splitTextToSize 11 Normal ("- " +:+ text q) (maxLineWidth pageWidth - 5)
  :: map optionBlock (optionList q).

Definition groupBlocks (g : string * list Question) : list (list string) :=
  splitTextToSize 14 Bold (fst g) (maxLineWidth pageWidth)
  :: flat_map questionBlocks (snd g).

Definition documentBlocks (d : GeneratedContent) : list (list string) :=
  splitTextToSize 18 Bold (documentTitle d) (maxLineWidth pageWidth)
  :: flat_map groupBlocks (List.filter nonEmpty (groups d)).

(** The blocks drawn before those of a question: the title of the document,
    the groups [g1] before its own group, the heading of its group [title],
    and the questions [pre] before it in its group. *)
Definition blocksAbove (d : GeneratedContent) (g1 : list (string * list Question))
    (title : string) (pre : list Question) : list (list string) :=
  splitTextToSize 18 Bold (documentTitle d) (maxLineWidth pageWidth)
  :: flat_map groupBlocks (List.filter nonEmpty g1)
  ++ splitTextToSize 14 Bold title (maxLineWidth pageWidth)
     :: flat_map questionBlocks pre.

(** The blocks drawn after them: the questions [post] after it in its group
    and the groups [g2] after its group. *)
Definition blocksBelow (post : list Question) (g2 : list (string * list Question))
    : list (list string) :=
  flat_map questionBlocks post ++ flat_map groupBlocks (List.filter nonEmpty g2).

End Spec.

End PdfSpec.

Module EditSpec.
Import Edit.

(** [qs'] is [qs] with the text of the first question whose id is [target]
    replaced by [newText], or [qs] itself when no question has that id. *)
Definition textPatched (target newText : string) (qs qs' : list Question) : Prop :=
  (Forall (fun q => id q <> target) qs /\ qs' = qs)
  \/ exists pre q post,
       qs = pre ++ q :: post
       /\ Forall (fun p => id p <> target) pre
       /\ id q = target
       /\ qs' = pre ++ setText newText q :: post.

(** [qs'] is [qs] but for the first question whose id is [target]: in its
    place stands a question with [newText] as its text and the same id,
    type and options; or [qs'] is [qs] itself when no question has that
    id. *)
Definition textReplaced (target newText : string) (qs qs' : list Question) : Prop :=
  (Forall (fun q => id q <> target) qs /\ qs' = qs)
  \/ exists pre q q' post,
       qs = pre ++ q :: post
       /\ Forall (fun p => id p <> target) pre
       /\ id q = target
       /\ qs' = pre ++ q' :: post
       /\ text q' = newText
       /\ id q' = id q /\ type q' = type q /\ options q' = options q.

(** An edit the component can raise: a key of a question group, and for a
    core edit the index of a section of the document. *)
Definition validEdit (section : ContentKey) (coreIndex : option nat)
    (d : GeneratedContent) : Prop :=
  section <> KeyIsQuestionnaire
  /\ (section = KeyCore -> forall i, coreIndex = Some i -> (i < length (core d))%nat).

(** What the edit may change, group by group. *)
Definition editFrame (section : ContentKey) (coreIndex : option nat)
    (target newText : string) (d d' : GeneratedContent) : Prop :=
  match section, coreIndex with
  | KeyOpening, _ =>
      textReplaced target newText (opening d) (opening d')
      /\ core d' = core d /\ followUps d' = followUps d /\ closing d' = closing d
  | KeyFollowUps, _ =>
      textReplaced target newText (followUps d) (followUps d')
      /\ opening d' = opening d /\ core d' = core d /\ closing d' = closing d
  | KeyClosing, _ =>
      textReplaced target newText (closing d) (closing d')
      /\ opening d' = opening d /\ core d' = core d /\ followUps d' = followUps d
  | KeyCore, Some i =>
      opening d' = opening d /\ followUps d' = followUps d /\ closing d' = closing d
      /\ exists pre sec post qs',
           core d = pre ++ sec :: post /\ length pre = i
           /\ textReplaced target newText (questions sec) qs'
           /\ core d' = pre ++ {| topic := topic sec; questions := qs' |} :: post
  | _, _ => d' = d
  end.

End EditSpec.

(** ** Sample documents *)

Module Samples.

Definition question (i t : string) (ty : option QuestionType)
    (os : option (list string)) : Question :=
  {| id := i; text := t; type := ty; options := os |}.

(** The interview script of the first end-to-end scenario. *)
Definition interview : GeneratedContent :=
  {| opening := [question "o1" "Tell me about yourself." None None];
     core := [ {| topic := "Pain Points";
                  questions := [question "c1" "What frustrates you?" (Some FreeText) None] |} ];
     followUps := [];
     closing := [question "z1" "Any final thoughts?" None None];
     isQuestionnaire := Some false |}.

Definition likert5 : list string :=
  ["Strongly Disagree"; "Disagree"; "Neutral"; "Agree"; "Strongly Agree"].

(** The questionnaire of the second scenario, with a closing block added. *)
Definition survey : GeneratedContent :=
  {| opening := [];
     core := [ {| topic := "Usability";
                  questions :=
                    [question "q1" "Rate ease of use" (Some LikertScale) (Some likert5);
                     question "q2" "Describe your experience" (Some FreeText) None] |} ];
     followUps := [];
     closing := [question "q3" "Pick all that apply" (Some MultipleChoice) (Some ["A"; "B"; "C"])];
     isQuestionnaire := Some true |}.

(** Its multiple-choice question, and the groups before the closing one. *)
Definition pickAll : Question :=
  question "q3" "Pick all that apply" (Some MultipleChoice) (Some ["A"; "B"; "C"]).

Definition surveyFirstGroups : list (string * list Question) :=
  [("Opening / Warm-up Questions", []);
   ("Core Questions: Usability",
    [question "q1" "Rate ease of use" (Some LikertScale) (Some likert5);
     question "q2" "Describe your experience" (Some FreeText) None]);
   ("Follow-ups / Probes", [])].

(** A free-text question that still carries options. *)
Definition freeTextWithOptions : Question :=
  question "f1" "Why?" (Some FreeText) (Some ["A"; "B"]).

(** A questionnaire whose only question is that one. *)
Definition freeTextSurvey : GeneratedContent :=
  {| opening := []; core := []; followUps := [];
     closing := [freeTextWithOptions]; isQuestionnaire := Some true |}.

(** A store that holds the sample survey at address 11. *)
Definition surveyStore : Heap.Store :=
  [Heap.Strings likert5;
   Heap.AQuestion {| Heap.id := "q1"; Heap.text := "Rate ease of use";
                     Heap.type := Some LikertScale; Heap.options := Some 0%nat |};
   Heap.AQuestion {| Heap.id := "q2"; Heap.text := "Describe your experience";
                     Heap.type := Some FreeText; Heap.options := None |};
   Heap.References [1%nat; 2%nat];
   Heap.ASection {| Heap.topic := "Usability"; Heap.questions := 3%nat |};
   Heap.References [4%nat];
   Heap.References [];
   Heap.References [];
   Heap.Strings ["A"; "B"; "C"];
   Heap.AQuestion {| Heap.id := "q3"; Heap.text := "Pick all that apply";
                     Heap.type := Some MultipleChoice; Heap.options := Some 8%nat |};
   Heap.References [9%nat];
   Heap.AContent {| Heap.opening := 6%nat; Heap.core := 5%nat;
                    Heap.followUps := 7%nat; Heap.closing := 10%nat;
                    Heap.isQuestionnaire := Some true |}].

(** An interview long enough to need a second page: sixty opening questions. *)
Definition longScript : GeneratedContent :=
  {| opening := repeat (question "o" "And then?" None None) 60;
     core := []; followUps := []; closing := []; isQuestionnaire := None |}.

(** The splitting that never wraps: one line per block. *)
Definition noWrap : Z -> Pdf.FontStyle -> string -> Q -> list string :=
  fun _ _ t _ => [t].

End Samples.

(** ** Edits one after the other *)

Module EditLaws.
Import Edit.

(** Two updaters handed to [setContent] in a row: the second is applied to
    what the first returned, and a throw ends the sequence. *)
Definition andThen (first : Outcome (option GeneratedContent))
    (next : option GeneratedContent -> Outcome (option GeneratedContent))
    : Outcome (option GeneratedContent) :=
  match first with
  | Returned c => next c
  | TypeError => TypeError
  end.

(** The question list an edit searches, when it searches one. *)
Definition addressed (section : ContentKey) (coreIndex : option nat)
    (d : GeneratedContent) : option (list Question) :=
  match section, coreIndex with
  | KeyOpening, _ => Some (opening d)
  | KeyFollowUps, _ => Some (followUps d)
  | KeyClosing, _ => Some (closing d)
  | KeyCore, Some i => option_map questions (core d !! i)
  | _, _ => None
  end.

(** The first question of a list with the given id. *)
Definition firstWithId (target : string) (qs : list Question) : option Question :=
  List.find (fun q => String.eqb (id q) target) qs.

End EditLaws.

(** ** The delimited export of an edited document *)

Module EditedExport.
Import Qualtrics.

(** [new] is the header line [old] with the same number and [newText] as
    the question text. *)
Definition headerRewritten (newText old new : string) : Prop :=
  exists (n : N) (t : string),
    (old = mcLine n t /\ new = mcLine n newText)
    \/ (old = teLine n t /\ new = teLine n newText).

(** [ls'] is [ls], but for one header line that has [newText] as its text. *)
Definition oneHeaderRewritten (newText : string) (ls ls' : list string) : Prop :=
  exists above below old new,
    ls = above ++ old :: below
    /\ ls' = above ++ new :: below
    /\ headerRewritten newText old new.

End EditedExport.

(** ** Documents that differ in what no export shows *)

Module Relabel.

(** The question with another id and another type. *)
Definition remarkQuestion (newId : Question -> string)
    (newType : Question -> option QuestionType) (q : Question) : Question :=
  {| id := newId q; text := text q; type := newType q; options := options q |}.

Definition remarkSection (newId : Question -> string)
    (newType : Question -> option QuestionType) (s : CoreQuestionSection)
    : CoreQuestionSection :=
  {| topic := topic s; questions := map (remarkQuestion newId newType) (questions s) |}.

(** The document with every question given another id and another type, and
    with another flag. *)
Definition remark (newId : Question -> string)
    (newType : Question -> option QuestionType) (flag : option bool)
    (d : GeneratedContent) : GeneratedContent :=
  {| opening := map (remarkQuestion newId newType) (opening d);
     core := map (remarkSection newId newType) (core d);
     followUps := map (remarkQuestion newId newType) (followUps d);
     closing := map (remarkQuestion newId newType) (closing d);
     isQuestionnaire := flag |}.

End Relabel.

(** ** The order of what the layout draws *)

Module PdfOrder.
Import Pdf.

(** A place on page [p1] at height [y1] is not after one on page [p2] at
    height [y2]: it is on an earlier page, or on the same page and not
    further down. *)
Definition notAfter (p1 : nat) (y1 : Q) (p2 : nat) (y2 : Q) : Prop :=
  (p1 < p2)%nat \/ (p1 = p2 /\ (y1 <= y2)%Q).

(** The calls of [pdf.text] come in reading order. *)
Definition inReadingOrder (ops : list TextOp) : Prop :=
  forall (i j : nat) (a b : TextOp),
    (i < j)%nat -> ops !! i = Some a -> ops !! j = Some b ->
    notAfter (opPage a) (opY a) (opPage b) (opY b).

(** Every block drawn so far lies on a page of the document, not after the
    cursor. *)
Definition behindCursor (st : LayoutState) : Prop :=
  Forall (fun op => (1 <= opPage op)%nat
                    /\ notAfter (opPage op) (opY op) (pageCount st) (y st))
         (drawn st).

(** Page [p] has a block drawn at the top margin. *)
Definition startsAtTop (ops : list TextOp) (p : nat) : Prop :=
  exists op, In op ops /\ opPage op = p /\ opY op = margin.

(** The state between two blocks: every page after the first has a block
    at its top margin. *)
Definition settled (st : LayoutState) : Prop :=
  (1 <= pageCount st)%nat
  /\ inReadingOrder (drawn st)
  /\ behindCursor st
  /\ (forall p, (2 <= p <= pageCount st)%nat -> startsAtTop (drawn st) p).

(** The state between a page-break check and the block it guards: the
    current page may still be empty, with the cursor at its top margin. *)
Definition pending (st : LayoutState) : Prop :=
  (1 <= pageCount st)%nat
  /\ inReadingOrder (drawn st)
  /\ behindCursor st
  /\ (forall p, (2 <= p <= pageCount st)%nat ->
        startsAtTop (drawn st) p \/ (p = pageCount st /\ y st = margin)).

End PdfOrder.

(** ** The form and its images ([src/types.ts]) *)

Module Form.

(** [data] holds what [split(',')[1]] gave when the image was read:
    [None] is [undefined], for a data URL without a comma. *)
Record ProductImage := {
  data : option string;
  mimeType : string;
  name : string
}.

Record FormData := {
  researchType : string;
  targetAudience : string;
  goalFocus : string;
  productStage : string;
  tone : string;
  productInfo : string;
  productImages : list ProductImage
}.

End Form.

(** ** Values thrown and caught *)

(** What a [catch] clause can tell of the value it caught: an [Error] with
    its message, or something that is no [Error]. *)
Inductive Thrown :=
  | ErrorObject (message : string)
  | NotAnError.

(** [s.includes(needle)] *)
Fixpoint includes (s needle : string) : bool :=
  String.prefix needle s
  || match s with
     | EmptyString => false
     | String _ rest => includes rest needle
     end.

(** [a || b] on strings: the empty string is falsy. *)
Definition orElse (a b : string) : string :=
  match a with
  | EmptyString => b
  | _ => a
  end.

(** The double quote. *)
Definition dq : string := String "034"%char "".

(** ** The generation service ([src/services/geminiService.ts]) *)

Module Gemini.

(** A value as [JSON.parse] returns it.  The numbers stay abstract: all that
    is asked of one is whether it is truthy. *)
#[warnings="-register-all"]
Inductive Json (Num : Type) :=
  | JNull
  | JBool (b : bool)
  | JNumber (n : Num)
  | JString (s : string)
  | JArray (items : list (Json Num))
  | JObject (fields : list (string * Json Num)).
Arguments JNull {Num}.
Arguments JBool {Num} b.
Arguments JNumber {Num} n.
Arguments JString {Num} s.
Arguments JArray {Num} items.
Arguments JObject {Num} fields.

(** The two response schemas, by name. *)
Inductive Schema := interviewResponseSchema | questionnaireResponseSchema.

Inductive Part :=
  | TextPart (text : string)
  | InlineData (mimeType : string) (data : option string).

(** [contents]: the prompt alone, or [{ parts }]. *)
Inductive Contents :=
  | Prompt (text : string)
  | Parts (parts : list Part).

Record Request := {
  model : string;
  contents : Contents;
  responseMimeType : string;
  responseSchema : Schema;
  temperature : Q
}.

(** [response.text] is a string or undefined. *)
Record Response := { responseText : option string }.

(** The messages of the errors the service throws. *)
Definition malformedMessage : string :=
  "Received malformed content from AI. Missing required sections.".
Definition malformedRefinementMessage : string :=
  "Received malformed content from AI during refinement. Missing required sections.".
Definition apiKeyMessage : string :=
  "The API key is invalid or not configured correctly. Please check your environment variables.".
Definition generationFailedMessage : string :=
  "Failed to generate content. The AI model may be temporarily unavailable.".
Definition refinementFailedMessage : string :=
  "Failed to refine content. The AI model may be temporarily unavailable.".

Section Service.

(** What the platform and the SDK supply: the numbers of JSON and their
    truthiness, [trim], [toLowerCase], [JSON.parse] (a value, or the message
    of its [SyntaxError]), [JSON.stringify(content, null, 2)], the request to
    the model (a response, or whatever it throws), and the messages of the
    two [TypeError]s the code can run into. *)
Variable Num : Type.
Variable numberTruthy : Num -> bool.
Variable trim : string -> string.
Variable toLowerCase : string -> string.
Variable jsonParse : string -> string + Json Num.
Variable stringify : GeneratedContent -> string.
Variable generateContent : Request -> Thrown + Response.
Variable undefinedTrimMessage : string.
Variable nullPropertyMessage : string.

(** The own property [key] of a parsed object.  For the keys read here no
    other kind of value, and no prototype, has a property. *)
Fixpoint ownProperty (key : string) (fields : list (string * Json Num))
    : option (Json Num) :=
  match fields with
  | [] => None
  | (k, v) :: rest => if String.eqb k key then Some v else ownProperty key rest
  end.

(** [obj[key] = v] on a parsed object. *)
Fixpoint setProperty (key : string) (v : Json Num) (fields : list (string * Json Num))
    : list (string * Json Num) :=
  match fields with
  | [] => [(key, v)]
  | (k, old) :: rest =>
      if String.eqb k key then (k, v) :: rest
      else (k, old) :: setProperty key v rest
  end.

(** [!!v] for a property that may be undefined. *)
Definition truthy (v : option (Json Num)) : bool :=
  match v with
  | None => false
  | Some JNull => false
  | Some (JBool b) => b
  | Some (JNumber n) => numberTruthy n
  | Some (JString s) => negb (String.eqb s "")
  | Some (JArray _) => true
  | Some (JObject _) => true
  end.

(** [formData.researchType.toLowerCase().includes('questionnaire')] *)
Definition asksForQuestionnaire (formData : Form.FormData) : bool :=
  includes (toLowerCase (Form.researchType formData)) "questionnaire".

(** [const parts = [{ text: promptText }]; if (images.length > 0) images.forEach(image => parts.push({ inlineData }))] *)
Definition pushPart (p : Part) : State (list Part) unit :=
  modify (fun parts => parts ++ [p]).

Definition buildParts (promptText : string) (formData : Form.FormData) : list Part :=
  exec (when (Nat.ltb 0 (length (Form.productImages formData)))
          (forEach (fun image =>
                      pushPart (InlineData (Form.mimeType image) (Form.data image)))
                   (Form.productImages formData)))
       [TextPart promptText].

(** [parts.length > 1 ? { parts } : promptText] *)
Definition requestContents (promptText : string) (formData : Form.FormData) : Contents :=
  let parts := buildParts promptText formData in
  if Nat.ltb 1 (length parts) then Parts parts else Prompt promptText.

Definition request (promptText : string) (schema : Schema) (temp : Q)
    (formData : Form.FormData) : Request :=
  {| model := "gemini-2.5-flash";
     contents := requestContents promptText formData;
     responseMimeType := "application/json";
     responseSchema := schema;
     temperature := temp |}.

(** The statements of the [try] block after the request: trim and parse the
    text, throw on a missing section, set the flag. *)
Definition readResponse (malformed : string) (isQuestionnaire : bool)
    (response : Response) : Thrown + Json Num :=
  match responseText response with
  | None => inl (ErrorObject undefinedTrimMessage)
  | Some t =>
      let jsonText := trim t in
      match jsonParse jsonText with
      | inl syntaxError => inl (ErrorObject syntaxError)
      | inr parsedContent =>
          match parsedContent with
          | JNull => inl (ErrorObject nullPropertyMessage)
          | JObject fields =>
              if negb (truthy (ownProperty "opening" fields))
                 || negb (truthy (ownProperty "core" fields))
                 || negb (truthy (ownProperty "followUps" fields))
                 || negb (truthy (ownProperty "closing" fields))
              then inl (ErrorObject malformed)
              else if isQuestionnaire
                   then inr (JObject (setProperty "isQuestionnaire" (JBool true) fields))
                   else inr parsedContent
          | _ => inl (ErrorObject malformed)
          end
      end
  end.

(** The [catch] block: every failure is thrown again under one of two
    messages. *)
Definition rethrow (failed : string) (error : Thrown) : Thrown :=
  match error with
  | ErrorObject message =>
      if includes message "API_KEY" then ErrorObject apiKeyMessage
      else ErrorObject failed
  | NotAnError => ErrorObject failed
  end.

Definition attempt (malformed failed : string) (isQuestionnaire : bool)
    (req : Request) : Thrown + Json Num :=
  match
    match generateContent req with
    | inl error => inl error
    | inr response => readResponse malformed isQuestionnaire response
    end
  with
  | inl error => inl (rethrow failed error)
  | inr parsedContent => inr parsedContent
  end.

Definition generateQuestionnaire (formData : Form.FormData) : Thrown + Json Num :=
  let isQuestionnaire := asksForQuestionnaire formData in
  let imageInstruction :=
    if Nat.ltb 0 (length (Form.productImages formData))
    then "A set of " +:+ (pretty (length (Form.productImages formData))) +:+ " product images has been provided. Use these images as a primary reference to understand the product's interface and features when generating questions."
    else "" in
  let interviewPrompt :=
    nl
      +:+ "        You are an expert user researcher. Your task is to generate a structured interview script based on the following parameters." +:+ nl
      +:+ "        Provide insightful and unbiased questions. Group core questions into logical topics." +:+ nl
      +:+ "        Tailor questions to the 'Product Details' provided." +:+ nl
      +:+ "        " +:+ imageInstruction +:+ nl
      +:+ "        Ensure every single question has a unique 'id' string field." +:+ nl
      +:+ nl
      +:+ "        Parameters:" +:+ nl
      +:+ "        - Research Type: " +:+ (Form.researchType formData) +:+ nl
      +:+ "        - Target Audience: " +:+ (Form.targetAudience formData) +:+ nl
      +:+ "        - Primary Goal: " +:+ (Form.goalFocus formData) +:+ nl
      +:+ "        - Product Details: " +:+ (orElse (Form.productInfo formData) "Not specified.") +:+ nl
      +:+ "        - Product Stage: " +:+ (Form.productStage formData) +:+ nl
      +:+ "        - Desired Tone: " +:+ (Form.tone formData) +:+ nl
      +:+ nl
      +:+ "        Generate the output in the specified JSON format." +:+ nl
      +:+ "    " in
  let questionnairePrompt :=
    nl
      +:+ "        You are an expert survey designer. Your task is to generate a structured questionnaire based on the following parameters." +:+ nl
      +:+ "        Create a mix of question types: 'FreeText', 'SingleChoice', 'MultipleChoice', and 'LikertScale'." +:+ nl
      +:+ "        For 'SingleChoice', 'MultipleChoice', and 'LikertScale' questions, you MUST provide an 'options' array with the answer choices. For 'LikertScale', use a standard 5-point scale (e.g., 'Strongly Disagree' to 'Strongly Agree')." +:+ nl
      +:+ "        For 'FreeText' questions, the 'options' array should be omitted." +:+ nl
      +:+ "        " +:+ imageInstruction +:+ nl
      +:+ "        Ensure every question has a unique 'id' and is tailored to the 'Product Details'." +:+ nl
      +:+ nl
      +:+ "        Parameters:" +:+ nl
      +:+ "        - Research Type: " +:+ (Form.researchType formData) +:+ nl
      +:+ "        - Target Audience: " +:+ (Form.targetAudience formData) +:+ nl
      +:+ "        - Primary Goal: " +:+ (Form.goalFocus formData) +:+ nl
      +:+ "        - Product Details: " +:+ (orElse (Form.productInfo formData) "Not specified.") +:+ nl
      +:+ "        - Product Stage: " +:+ (Form.productStage formData) +:+ nl
      +:+ "        - Desired Tone: " +:+ (Form.tone formData) +:+ nl
      +:+ "        " +:+ nl
      +:+ "        Generate the output in the specified JSON format." +:+ nl
      +:+ "    " in
  let promptText := if isQuestionnaire then questionnairePrompt else interviewPrompt in
  let schema :=
    if isQuestionnaire then questionnaireResponseSchema else interviewResponseSchema in
  attempt malformedMessage generationFailedMessage isQuestionnaire
    (request promptText schema (7 # 10) formData).

(** [currentContent.isQuestionnaire || ...includes('questionnaire')] *)
Definition refinesQuestionnaire (formData : Form.FormData)
    (currentContent : GeneratedContent) : bool :=
  match isQuestionnaire currentContent with
  | Some true => true
  | _ => asksForQuestionnaire formData
  end.

Definition refineQuestionnaire (formData : Form.FormData)
    (currentContent : GeneratedContent) (refinementPrompt : string)
    : Thrown + Json Num :=
  let isQuestionnaire := refinesQuestionnaire formData currentContent in
  let imageInstruction :=
    if Nat.ltb 0 (length (Form.productImages formData))
    then "A set of " +:+ (pretty (length (Form.productImages formData))) +:+ " product images was provided as a primary reference."
    else "" in
  let promptText :=
    nl
      +:+ "        You are an expert user researcher acting as a script editor. You have already generated a script for a user, and now they have a refinement request." +:+ nl
      +:+ "        Your task is to take the original parameters, the current script, and the user's new request, and generate a completely new, updated script in the specified JSON format. The new script should replace the old one entirely." +:+ nl
      +:+ nl
      +:+ "        ***" +:+ nl
      +:+ nl
      +:+ "        ### Original Generation Parameters:" +:+ nl
      +:+ "        - Research Type: " +:+ (Form.researchType formData) +:+ nl
      +:+ "        - Target Audience: " +:+ (Form.targetAudience formData) +:+ nl
      +:+ "        - Primary Goal: " +:+ (Form.goalFocus formData) +:+ nl
      +:+ "        - Product Details: " +:+ (orElse (Form.productInfo formData) "Not specified.") +:+ nl
      +:+ "        - Product Stage: " +:+ (Form.productStage formData) +:+ nl
      +:+ "        - Original Tone: " +:+ (Form.tone formData) +:+ nl
      +:+ "        " +:+ imageInstruction +:+ nl
      +:+ nl
      +:+ "        ***" +:+ nl
      +:+ nl
      +:+ "        ### Current Script (JSON format):" +:+ nl
      +:+ "        " +:+ (stringify currentContent) +:+ nl
      +:+ nl
      +:+ "        ***" +:+ nl
      +:+ nl
      +:+ "        ### User's Refinement Request:" +:+ nl
      +:+ "        " +:+ dq +:+ refinementPrompt +:+ dq +:+ nl
      +:+ nl
      +:+ "        ***" +:+ nl
      +:+ nl
      +:+ "        Now, please provide the full, updated script in the exact same JSON structure as before, incorporating the user's request." +:+ nl
      +:+ "    " in
  let schema :=
    if isQuestionnaire then questionnaireResponseSchema else interviewResponseSchema in
  attempt malformedRefinementMessage refinementFailedMessage isQuestionnaire
    (request promptText schema (5 # 10) formData).

End Service.

End Gemini.

(** ** The application state and its handlers ([App]) *)

Module App.

Record AppState := {
  formData : Form.FormData;
  generatedContent : option GeneratedContent;
  isLoading : bool;
  isRefining : bool;
  error : option string
}.

Definition setFormData (f : Form.FormData -> Form.FormData) : State AppState unit :=
  modify (fun st => {| formData := f (formData st);
                       generatedContent := generatedContent st;
                       isLoading := isLoading st; isRefining := isRefining st;
                       error := error st |}).

(** [err instanceof Error ? err.message : fallback] *)
Definition messageOf (fallback : string) (err : Thrown) : string :=
  match err with
  | ErrorObject message => message
  | NotAnError => fallback
  end.

(** [{ ...formData, tone: t }] *)
Definition withTone (t : string) (formData : Form.FormData) : Form.FormData :=
  {| Form.researchType := Form.researchType formData;
     Form.targetAudience := Form.targetAudience formData;
     Form.goalFocus := Form.goalFocus formData;
     Form.productStage := Form.productStage formData;
     Form.tone := t;
     Form.productInfo := Form.productInfo formData;
     Form.productImages := Form.productImages formData |}.

(** [{ ...prev, productImages: images }] *)
Definition withImages (images : list Form.ProductImage) (prev : Form.FormData)
    : Form.FormData :=
  {| Form.researchType := Form.researchType prev;
     Form.targetAudience := Form.targetAudience prev;
     Form.goalFocus := Form.goalFocus prev;
     Form.productStage := Form.productStage prev;
     Form.tone := Form.tone prev;
     Form.productInfo := Form.productInfo prev;
     Form.productImages := images |}.

(** A file of a [FileList]: its name and its MIME type. *)
Record File := {
  fileName : string;
  fileType : string
}.

(** [s.split(sep)] for a separator of one character. *)
Fixpoint split (sep : ascii) (s : string) : list string :=
  match s with
  | EmptyString => [""]
  | String c rest =>
      if Ascii.eqb c sep then "" :: split sep rest
      else match split sep rest with
           | piece :: pieces => String c piece :: pieces
           | [] => [String c ""]
           end
  end.

(** The duplicate test of [handleImageAdd]:
    [formData.productImages.some(img => img.name.startsWith(file.name))]. *)
Definition alreadyAdded (images : list Form.ProductImage) (file : File) : bool :=
  existsb (fun img => String.prefix (fileName file) (Form.name img)) images.

(** The files of a drop for which [handleImageAdd] starts a reader, in the
    order of the list; none for a null list.  [images] is the
    [formData.productImages] the handler closes over. *)
Definition handleImageAdd (images : list Form.ProductImage) (files : option (list File))
    : list File :=
  match files with
  | None => []
  | Some fs => List.filter (fun file => negb (alreadyAdded images file)) fs
  end.

(** [reader.onloadend] for [file], run at time [now] with [reader.result]:
    the image is appended under the name [`${file.name}-${Date.now()}`].  A
    null result makes [split] throw. *)
Definition onloadend (file : File) (result : option string) (now : N) (st : AppState)
    : Edit.Outcome AppState :=
  match result with
  | None => Edit.TypeError
  | Some dataUrl =>
      let base64String := split ","%char dataUrl !! 1%nat in
      let newImage :=
        {| Form.data := base64String;
           Form.mimeType := fileType file;
           Form.name := fileName file +:+ "-" +:+ pretty now |} in
      Edit.Returned
        (exec (setFormData (fun prev =>
                 withImages (Form.productImages prev ++ [newImage]) prev)) st)
  end.

(** [productImages: prev.productImages.filter(img => img.name !== imageName)] *)
Definition handleImageRemove (imageName : string) : State AppState unit :=
  setFormData (fun prev =>
    withImages (List.filter (fun img => negb (String.eqb (Form.name img) imageName))
                  (Form.productImages prev)) prev).

End App.

(** ** Generations and refinements in flight ([App], [OutputDisplay])

    [handleGenerate] and [handleRefine] are [async]: the statements before
    the [await] run in the click, the statements after it run when the
    promise of the service settles, and other handlers run in between.  The
    state below is the state of [App], the two pieces of local state of
    [OutputDisplay] that gate its controls, and the calls that have not
    settled yet.  [generatedContent] holds whatever the service returned:
    the cast [as GeneratedContent] checks nothing. *)

Module InFlight.
Import Gemini.

Section Model.

Variable Num : Type.
Variable numberTruthy : Num -> bool.
Variable trim : string -> string.
Variable toLowerCase : string -> string.
Variable jsonParse : string -> string + Json Num.
Variable undefinedTrimMessage : string.
Variable nullPropertyMessage : string.

(** A call of [handleGenerate] that awaits the service: the data it
    submitted, and whether [handleToneAdjust] made the call. *)
Record Generation := {
  submissionData : Form.FormData;
  forTone : bool
}.

(** A call of [handleRefine] that awaits the service. *)
Record Refinement := {
  refinedForm : Form.FormData;
  refinedContent : Json Num;
  refinementPrompt : string
}.

Record AppState := {
  formData : Form.FormData;
  generatedContent : option (Json Num);
  isLoading : bool;
  isRefining : bool;
  error : option string;
  isToneAdjusting : string;
  refinementInput : string;
  generating : list Generation;
  refining : list Refinement
}.

(** [useState] with its initial values. *)
Definition initialState : AppState :=
  {| formData := {| Form.researchType := "Generative Interview";
                    Form.targetAudience := "End Users";
                    Form.goalFocus := "Identify Pain Points";
                    Form.productStage := "Idea";
                    Form.tone := "Formal";
                    Form.productInfo := "";
                    Form.productImages := [] |};
     generatedContent := None;
     isLoading := false; isRefining := false; error := None;
     isToneAdjusting := ""; refinementInput := "";
     generating := []; refining := [] |}.

(** What [OutputDisplay] returns: [if (isLoading) ...; if (error) ...;
    if (!content) ...; return ...]. *)
Inductive Panel :=
  | LoadingSpinner
  | ErrorDisplay (message : string)
  | WelcomePlaceholder
  | Script.

Definition panel (st : AppState) : Panel :=
  if isLoading st then LoadingSpinner
  else match error st with
       | Some (String c rest) => ErrorDisplay (String c rest)
       | _ => if truthy Num numberTruthy (generatedContent st) then Script
              else WelcomePlaceholder
       end.

Definition scriptShown (st : AppState) : bool :=
  match panel st with Script => true | _ => false end.

(** [handleGenerate(newTone)] up to its [await]. *)
Definition handleGenerate (newTone : option string) (tone : bool) (st : AppState)
    : AppState :=
  let submission :=
    App.withTone (match newTone with
                  | Some t => orElse t (Form.tone (formData st))
                  | None => Form.tone (formData st)
                  end) (formData st) in
  {| formData := formData st;
     generatedContent := None;
     isLoading := true;
     isRefining := isRefining st;
     error := None;
     isToneAdjusting := isToneAdjusting st;
     refinementInput := refinementInput st;
     generating := generating st ++ [ {| submissionData := submission; forTone := tone |} ];
     refining := refining st |}.

(** The rest of [handleGenerate], run with what the service returned or
    threw, and after it the rest of [handleToneAdjust] when that made the
    call: [setIsToneAdjusting('')]. *)
Definition generationSettled (k : nat) (g : Generation) (result : Thrown + Json Num)
    (st : AppState) : AppState :=
  {| formData := formData st;
     generatedContent := match result with
                         | inr content => Some content
                         | inl _ => generatedContent st
                         end;
     isLoading := false;
     isRefining := isRefining st;
     error := match result with
              | inr _ => error st
              | inl err => Some (App.messageOf "An unknown error occurred." err)
              end;
     isToneAdjusting := if forTone g then "" else isToneAdjusting st;
     refinementInput := refinementInput st;
     generating := delete k (generating st);
     refining := refining st |}.

(** [handleToneAdjust(tone)] up to its [await]:
    [setIsToneAdjusting(tone); await onRegenerateWithTone(tone)]. *)
Definition handleToneAdjust (tone : string) (st : AppState) : AppState :=
  handleGenerate (Some tone) true
    {| formData := formData st; generatedContent := generatedContent st;
       isLoading := isLoading st; isRefining := isRefining st; error := error st;
       isToneAdjusting := tone; refinementInput := refinementInput st;
       generating := generating st; refining := refining st |}.

(** [handleRefine(refinementPrompt)] up to its [await], after the test
    [if (!generatedContent) return;]. *)
Definition handleRefine (prompt : string) (content : Json Num) (st : AppState)
    : AppState :=
  {| formData := formData st;
     generatedContent := generatedContent st;
     isLoading := isLoading st;
     isRefining := true;
     error := None;
     isToneAdjusting := isToneAdjusting st;
     refinementInput := refinementInput st;
     generating := generating st;
     refining := refining st
                 ++ [ {| refinedForm := formData st; refinedContent := content;
                         refinementPrompt := prompt |} ] |}.

(** [handleSendRefinement()] up to its [await]: nothing for a blank input or
    while [isRefining] or [isToneAdjusting]; and when [handleRefine] returns
    at once, for want of content, the rest follows at once:
    [setRefinementInput('')]. *)
Definition handleSendRefinement (st : AppState) : AppState :=
  if String.eqb (trim (refinementInput st)) "" || isRefining st
     || negb (String.eqb (isToneAdjusting st) "")
  then st
  else match generatedContent st with
       | Some content =>
           if truthy Num numberTruthy (Some content)
           then handleRefine (refinementInput st) content st
           else {| formData := formData st; generatedContent := generatedContent st;
                   isLoading := isLoading st; isRefining := isRefining st;
                   error := error st; isToneAdjusting := isToneAdjusting st;
                   refinementInput := "";
                   generating := generating st; refining := refining st |}
       | None =>
           {| formData := formData st; generatedContent := generatedContent st;
              isLoading := isLoading st; isRefining := isRefining st;
              error := error st; isToneAdjusting := isToneAdjusting st;
              refinementInput := "";
              generating := generating st; refining := refining st |}
       end.

(** The rest of [handleRefine], and after it the rest of
    [handleSendRefinement]: [setRefinementInput('')]. *)
Definition refinementSettled (k : nat) (result : Thrown + Json Num) (st : AppState)
    : AppState :=
  {| formData := formData st;
     generatedContent := match result with
                         | inr refined => Some refined
                         | inl _ => generatedContent st
                         end;
     isLoading := isLoading st;
     isRefining := false;
     error := match result with
              | inr _ => error st
              | inl err =>
                  Some (App.messageOf "An unknown error occurred during refinement." err)
              end;
     isToneAdjusting := isToneAdjusting st;
     refinementInput := "";
     generating := generating st;
     refining := delete k (refining st) |}.

(** What can happen to the application.  A settling call comes with the
    answer of the model.  Of the stored content a refinement reads its
    [isQuestionnaire] property and its JSON text; [current] and [stringify]
    stand for what the service made of the value it was given. *)
Inductive Event :=
  | FormChanged (update : Form.FormData -> Form.FormData)
  | ContentEdited (update : option (Json Num) -> option (Json Num))
  | RefinementTyped (value : string)
  | GenerateClicked
  | ToneClicked (tone : string)
  | RefinementSent
  | GenerationSettled (k : nat) (answer : Thrown + Response)
  | RefinementSettled (k : nat) (answer : Thrown + Response)
      (stringify : GeneratedContent -> string) (current : GeneratedContent).

(** The three tone buttons. *)
Definition toneButtons : list string := ["Formal"; "Conversational"; "Friendly"].

(** Whether the control of an event is there and not disabled, and for a
    settling call whether the call is in flight.  An edit is saved when its
    input loses the focus, which it also does as the panel goes: an edit is
    taken to be possible at any moment. *)
Definition enabled (e : Event) (st : AppState) : bool :=
  match e with
  | FormChanged _ => true
  | ContentEdited _ => true
  | RefinementTyped _ =>
      scriptShown st && negb (isRefining st) && String.eqb (isToneAdjusting st) ""
  | GenerateClicked => negb (isLoading st)
  | ToneClicked tone =>
      scriptShown st && existsb (String.eqb tone) toneButtons
      && String.eqb (isToneAdjusting st) "" && negb (isRefining st)
  | RefinementSent =>
      scriptShown st
      && negb (String.eqb (trim (refinementInput st)) "")
      && negb (isRefining st) && String.eqb (isToneAdjusting st) ""
  | GenerationSettled k _ => bool_decide (k < length (generating st))%nat
  | RefinementSettled k _ _ _ => bool_decide (k < length (refining st))%nat
  end.

Definition step (e : Event) (st : AppState) : AppState :=
  match e with
  | FormChanged update =>
      {| formData := update (formData st); generatedContent := generatedContent st;
         isLoading := isLoading st; isRefining := isRefining st; error := error st;
         isToneAdjusting := isToneAdjusting st; refinementInput := refinementInput st;
         generating := generating st; refining := refining st |}
  | ContentEdited update =>
      {| formData := formData st; generatedContent := update (generatedContent st);
         isLoading := isLoading st; isRefining := isRefining st; error := error st;
         isToneAdjusting := isToneAdjusting st; refinementInput := refinementInput st;
         generating := generating st; refining := refining st |}
  | RefinementTyped value =>
      {| formData := formData st; generatedContent := generatedContent st;
         isLoading := isLoading st; isRefining := isRefining st; error := error st;
         isToneAdjusting := isToneAdjusting st; refinementInput := value;
         generating := generating st; refining := refining st |}
  | GenerateClicked => handleGenerate None false st
  | ToneClicked tone => handleToneAdjust tone st
  | RefinementSent => handleSendRefinement st
  | GenerationSettled k answer =>
      match generating st !! k with
      | None => st
      | Some g =>
          generationSettled k g
            (generateQuestionnaire Num numberTruthy trim toLowerCase jsonParse
               (fun _ => answer) undefinedTrimMessage nullPropertyMessage
               (submissionData g))
            st
      end
  | RefinementSettled k answer stringify current =>
      match refining st !! k with
      | None => st
      | Some r =>
          refinementSettled k
            (refineQuestionnaire Num numberTruthy trim toLowerCase jsonParse stringify
               (fun _ => answer) undefinedTrimMessage nullPropertyMessage
               (refinedForm r) current (refinementPrompt r))
            st
      end
  end.

(** The state after a sequence of events, each of them enabled when it
    happens. *)
Fixpoint run (events : list Event) (st : AppState) : option AppState :=
  match events with
  | [] => Some st
  | e :: rest => if enabled e st then run rest (step e st) else None
  end.

(** At most one generation is in flight; [isLoading] says whether one is,
    and [isToneAdjusting] whether a tone button started it. *)
Definition generationFlags (st : AppState) : Prop :=
  match generating st with
  | [] => isLoading st = false /\ isToneAdjusting st = ""
  | [g] => isLoading st = true
           /\ (if forTone g then isToneAdjusting st <> "" else isToneAdjusting st = "")
  | _ => False
  end.

(** At most one refinement is in flight, and [isRefining] says whether one
    is. *)
Definition refinementFlags (st : AppState) : Prop :=
  match refining st with
  | [] => isRefining st = false
  | [_] => isRefining st = true
  | _ => False
  end.

(** The error is absent or one of the three messages of the service. *)
Definition serviceError (st : AppState) : Prop :=
  error st = None
  \/ error st = Some apiKeyMessage
  \/ error st = Some generationFailedMessage
  \/ error st = Some refinementFailedMessage.

(** What holds of every state the application can be in. *)
Definition invariant (st : AppState) : Prop :=
  generationFlags st /\ refinementFlags st /\ serviceError st.

End Model.

End InFlight.

(** ** The chat window ([Chatbot]) *)

Module Chatbot.

Inductive Role := RoleUser | RoleModel.

(** [text] is undefined when the reply of the model carries no text. *)
Record ChatMessage := {
  role : Role;
  text : option string
}.

Section Chat.

(** The chat session of the SDK, and [String.prototype.trim]. *)
Variable Session : Type.
Variable trim : string -> string.

Record ChatState := {
  isOpen : bool;
  messages : list ChatMessage;
  input : string;
  isLoading : bool;
  chatRef : option Session
}.

Definition greeting : ChatMessage :=
  {| role := RoleModel;
     text := Some "Hello! How can I help you with your user research today?" |}.

Definition unableToConnect : ChatMessage :=
  {| role := RoleModel;
     text := Some "Sorry, I am unable to connect right now. Please check your API key." |}.

Definition somethingWentWrong : ChatMessage :=
  {| role := RoleModel; text := Some "Sorry, something went wrong. Please try again." |}.

(** [initializeChat], where [created] is what [ai.chats.create] gave: a
    session, or a throw. *)
Definition initializeChat (created : Thrown + Session) (st : ChatState) : ChatState :=
  match created with
  | inr session =>
      {| isOpen := isOpen st; messages := [greeting]; input := input st;
         isLoading := isLoading st; chatRef := Some session |}
  | inl _ =>
      {| isOpen := isOpen st; messages := [unableToConnect]; input := input st;
         isLoading := isLoading st; chatRef := chatRef st |}
  end.

(** The click on the round button, [setIsOpen(!isOpen)], and the effect that
    follows it: [if (isOpen && !chatRef.current) initializeChat()]. *)
Definition toggle (created : Thrown + Session) (st : ChatState) : ChatState :=
  let st' := {| isOpen := negb (isOpen st); messages := messages st; input := input st;
                isLoading := isLoading st; chatRef := chatRef st |} in
  match isOpen st', chatRef st' with
  | true, None => initializeChat created st'
  | _, _ => st'
  end.

(** [onChange]: [setInput(e.target.value)] *)
Definition setInput (value : string) (st : ChatState) : ChatState :=
  {| isOpen := isOpen st; messages := messages st; input := value;
     isLoading := isLoading st; chatRef := chatRef st |}.

(** [handleSend], from the click to the end of [finally]; [reply] is what
    [sendMessage] gives for the message: the text of the result, or a
    throw. *)
Definition handleSend (reply : Session -> string -> Thrown + option string)
    (st : ChatState) : ChatState :=
  if String.eqb (trim (input st)) "" || isLoading st then st
  else
    let userMessage := {| role := RoleUser; text := Some (input st) |} in
    let answer :=
      match chatRef st with
      | None => somethingWentWrong
      | Some session =>
          match reply session (input st) with
          | inr resultText => {| role := RoleModel; text := resultText |}
          | inl _ => somethingWentWrong
          end
      end in
    {| isOpen := isOpen st;
       messages := (messages st ++ [userMessage]) ++ [answer];
       input := "";
       isLoading := false;
       chatRef := chatRef st |}.

(** What the user can do: the round button is always there; the input and
    the send button are there while the window is open, the input taking
    text while no reply is awaited. *)
Inductive Event :=
  | Toggle (created : Thrown + Session)
  | Type_ (value : string)
  | Send (reply : Session -> string -> Thrown + option string).

Definition step (e : Event) (st : ChatState) : ChatState :=
  match e with
  | Toggle created => toggle created st
  | Type_ value => if isOpen st && negb (isLoading st) then setInput value st else st
  | Send reply => if isOpen st then handleSend reply st else st
  end.

Definition initialState : ChatState :=
  {| isOpen := false; messages := []; input := ""; isLoading := false; chatRef := None |}.

Definition run (events : list Event) : ChatState :=
  fold_left (fun st e => step e st) events initialState.



End Chat.

End Chatbot.

(** ** Sample surroundings of the service *)

Module ServiceSamples.
Import Gemini.

Definition numberTruthy (n : Z) : bool := negb (Z.eqb n 0).

(** A response with the four groups, and one that lacks three of them. *)
Definition fourGroups : Json Z :=
  JObject [("opening", JArray []); ("core", JArray []);
           ("followUps", JArray []); ("closing", JArray [])].

Definition openingOnly : Json Z := JObject [("opening", JArray [])].

Definition answering (text : string) : Request -> Thrown + Response :=
  fun _ => inr {| responseText := Some text |}.

Definition unreachable : Request -> Thrown + Response :=
  fun _ => inl (ErrorObject "fetch failed").

Definition parsingTo (v : Json Z) : string -> string + Json Z := fun _ => inr v.

Definition sameString (s : string) : string := s.

Definition form : Form.FormData :=
  {| Form.researchType := "questionnaire";
     Form.targetAudience := "End Users";
     Form.goalFocus := "Measure Satisfaction";
     Form.productStage := "MVP";
     Form.tone := "Formal";
     Form.productInfo := "";
     Form.productImages := [] |}.

Definition showing (c : option GeneratedContent) : App.AppState :=
  {| App.formData := form; App.generatedContent := c;
     App.isLoading := false; App.isRefining := false; App.error := None |}.

Definition screenshot : App.File :=
  {| App.fileName := "screen.png"; App.fileType := "image/png" |}.

(** The image [onloadend] makes of the screenshot read at time 1700000000000. *)
Definition screenshotImage : Form.ProductImage :=
  {| Form.data := Some "AAAA"; Form.mimeType := "image/png";
     Form.name := "screen.png-1700000000000" |}.

Definition withScreenshot : App.AppState :=
  {| App.formData := App.withImages [screenshotImage] form;
     App.generatedContent := None;
     App.isLoading := false; App.isRefining := false; App.error := None |}.

(** An open chat window with a session, a greeting and a typed question. *)
Definition chatting : Chatbot.ChatState unit :=
  {| Chatbot.isOpen := true;
     Chatbot.messages := [Chatbot.greeting];
     Chatbot.input := "What is a Likert scale?";
     Chatbot.isLoading := false;
     Chatbot.chatRef := Some tt |}.

Definition replying (answer : string) : unit -> string -> Thrown + option string :=
  fun _ _ => inr (Some answer).

(** The sample survey as the model would send it back, flagged. *)
Definition flaggedFourGroups : Json Z :=
  JObject [("opening", JArray []); ("core", JArray []);
           ("followUps", JArray []); ("closing", JArray []);
           ("isQuestionnaire", JBool true)].

(** A refinement that fails late.  A script is generated and a refinement of
    it is sent; while that is in flight the script is generated anew; the
    refinement fails, and then the new script arrives. *)
Definition lateFailure : list (InFlight.Event Z) :=
  [InFlight.GenerateClicked Z;
   InFlight.GenerationSettled Z 0 (inr {| responseText := Some "{}" |});
   InFlight.RefinementTyped Z "Shorter, please";
   InFlight.RefinementSent Z;
   InFlight.GenerateClicked Z;
   InFlight.RefinementSettled Z 0 (inl (ErrorObject "fetch failed")) (fun _ => "")
     Samples.survey;
   InFlight.GenerationSettled Z 0 (inr {| responseText := Some "{}" |})].

Definition afterLateFailure : InFlight.AppState Z :=
  default (InFlight.initialState Z)
    (InFlight.run Z numberTruthy sameString sameString (parsingTo fourGroups) "" ""
       lateFailure (InFlight.initialState Z)).

End ServiceSamples.

(** * Properties *)

(** ** Running commands *)

Section StateFacts.

Context {St : Type}.

Lemma exec_ret {A} (a : A) (s : St) : exec (ret a) s = s.
Proof. reflexivity. Qed.

Lemma exec_bind {A B} (c : State St A) (k : A -> State St B) (s : St) :
  exec (bind c k) s = exec (k (fst (c s))) (snd (c s)).
Proof. unfold exec, bind. destruct (c s); reflexivity. Qed.

Lemma exec_seq {A} (c : State St unit) (k : State St A) (s : St) :
  exec (c ;; k) s = exec k (exec c s).
Proof. rewrite exec_bind. reflexivity. Qed.

Lemma exec_modify (f : St -> St) (s : St) : exec (modify f) s = f s.
Proof. reflexivity. Qed.

Lemma exec_gets {A B} (f : St -> A) (k : A -> State St B) (s : St) :
  exec (bind (gets f) k) s = exec (k (f s)) s.
Proof. reflexivity. Qed.

Lemma exec_when (b : bool) (c : State St unit) (s : St) :
  exec (when b c) s = if b then exec c s else s.
Proof. destruct b; reflexivity. Qed.

Lemma exec_forEach_cons {A} (f : A -> State St unit) (x : A) (l : list A) (s : St) :
  exec (forEach f (x :: l)) s = exec (forEach f l) (exec (f x) s).
Proof. simpl. apply exec_seq. Qed.

Lemma exec_forEach_app {A} (f : A -> State St unit) (l1 l2 : list A) (s : St) :
  exec (forEach f (l1 ++ l2)) s = exec (forEach f l2) (exec (forEach f l1) s).
Proof.
  revert s. induction l1 as [|x l1 IH]; intros s.
  - reflexivity.
  - rewrite <- app_comm_cons, !exec_forEach_cons. apply IH.
Qed.

Lemma exec_forEach_map {A B} (g : A -> B) (f : B -> State St unit) (l : list A) (s : St) :
  exec (forEach f (map g l)) s = exec (forEach (fun a => f (g a)) l) s.
Proof.
  revert s. induction l as [|x l IH]; intros s.
  - reflexivity.
  - rewrite map_cons, !exec_forEach_cons. apply IH.
Qed.

(** The loop leaves every state alone when each callback does. *)
Lemma exec_forEach_skip {A} (f : A -> State St unit) (l : list A) (s : St) :
  Forall (fun x => forall s', exec (f x) s' = s') l -> exec (forEach f l) s = s.
Proof.
  induction 1 as [|x l Hx _ IH].
  - reflexivity.
  - rewrite exec_forEach_cons, Hx. exact IH.
Qed.

End StateFacts.

(** ** The serializer, line by line *)

Module QualtricsFacts.
Import Qualtrics QualtricsSpec.

Lemma exec_push (s : string) (st : GenState) :
  exec (push s) st =
  {| mcCounter := mcCounter st; teCounter := teCounter st; lines := lines st ++ [s] |}.
Proof. reflexivity. Qed.

Lemma exec_push_all (os : list string) (st : GenState) :
  exec (forEach push os) st =
  {| mcCounter := mcCounter st; teCounter := teCounter st; lines := lines st ++ os |}.
Proof.
  revert st. induction os as [|o os IH]; intros st.
  - simpl. rewrite exec_ret, app_nil_r. destruct st; reflexivity.
  - rewrite exec_forEach_cons, IH, exec_push. simpl.
    rewrite <- app_assoc. reflexivity.
Qed.

Lemma exec_push_options (q : Question) (st : GenState) :
  exec (forEachOption push (options q)) st =
  {| mcCounter := mcCounter st; teCounter := teCounter st;
     lines := lines st ++ optionList q |}.
Proof.
  unfold forEachOption, optionList. destruct (options q) as [os|].
  - apply exec_push_all.
  - rewrite exec_ret, app_nil_r. destruct st; reflexivity.
Qed.

(** What one run of the callback does to the three locals. *)
Lemma exec_processQuestion (q : Question) (st : GenState) :
  exec (processQuestion q) st =
  match type q with
  | None => st
  | Some ty =>
      {| mcCounter := mcCounter st + countIn Choice [q];
         teCounter := teCounter st + countIn Free [q];
         lines := lines st ++ questionBody (counterFor ty st) ty q ++ [""] |}
  end.
Proof.
  unfold processQuestion, countIn, inCategory.
  destruct (type q) as [ty|]; [|reflexivity].
  destruct ty; rewrite exec_seq, exec_push;
    unfold counterFor, questionBody; simpl categoryOf; cbv iota;
    rewrite exec_bind; simpl fst; simpl snd;
    rewrite ?exec_seq, ?exec_push, ?exec_push_options; simpl;
    (f_equal; try lia; rewrite <- ?app_assoc; reflexivity).
Qed.

Lemma countIn_app (c : Category) (l1 l2 : list Question) :
  countIn c (l1 ++ l2) = (countIn c l1 + countIn c l2)%N.
Proof.
  induction l1 as [|q l1 IH]; simpl.
  - reflexivity.
  - rewrite IH. lia.
Qed.

Lemma agrees_initial : agrees [] initialState.
Proof. split; reflexivity. Qed.

(** One question, met in a state that agrees with the questions before it. *)
Lemma processQuestion_numbered (before : list Question) (q : Question) (st : GenState) :
  agrees before st ->
  agrees (before ++ [q]) (exec (processQuestion q) st)
  /\ lines (exec (processQuestion q) st) = lines st ++ numberedQuestion before q.
Proof.
  intros [Hmc Hte]. rewrite exec_processQuestion. unfold numberedQuestion, agrees.
  rewrite !countIn_app.
  destruct (type q) as [ty|] eqn:Hty.
  - cbn [mcCounter teCounter lines]. rewrite Hmc, Hte.
    repeat split; try lia.
    unfold counterFor. destruct (categoryOf ty); rewrite ?Hmc, ?Hte; reflexivity.
  - assert (countIn Choice [q] = 0%N /\ countIn Free [q] = 0%N) as [-> ->].
    { unfold countIn, inCategory. rewrite Hty. split; reflexivity. }
    rewrite app_nil_r. repeat split; lia.
Qed.

Lemma forEach_numbered (qs before : list Question) (st : GenState) :
  agrees before st ->
  agrees (before ++ qs) (exec (forEach processQuestion qs) st)
  /\ lines (exec (forEach processQuestion qs) st) = lines st ++ numberedQuestions before qs.
Proof.
  revert before st. induction qs as [|q qs IH]; intros before st Hst.
  - simpl. rewrite exec_ret, !app_nil_r. auto.
  - rewrite exec_forEach_cons.
    destruct (processQuestion_numbered before q st Hst) as [Hq Hl].
    destruct (IH (before ++ [q]) _ Hq) as [Hqs Hls].
    rewrite <- app_assoc in Hqs. simpl in Hqs. split; [exact Hqs|].
    rewrite Hls, Hl. simpl. rewrite <- app_assoc. reflexivity.
Qed.

Lemma exec_processQuestions (qs : list Question) (st : GenState) :
  exec (processQuestions qs) st = exec (forEach processQuestion qs) st.
Proof. destruct qs; reflexivity. Qed.

(** A guarded block leaves the state alone for an empty list. *)
Lemma exec_block_nil (marker : string) (st : GenState) :
  exec (block marker []) st = st.
Proof. reflexivity. Qed.

Lemma exec_block_cons (marker : string) (q : Question) (qs : list Question) (st : GenState) :
  exec (block marker (q :: qs)) st =
  exec (forEach processQuestion (q :: qs)) (exec (push "") (exec (push marker) st)).
Proof.
  unfold block. rewrite exec_when. simpl Nat.ltb. cbv iota.
  rewrite !exec_seq, exec_processQuestions. reflexivity.
Qed.

Lemma block_numbered (title : string) (qs before : list Question) (st : GenState) :
  agrees before st ->
  agrees (before ++ qs) (exec (block (blockMarker title) qs) st)
  /\ lines (exec (block (blockMarker title) qs) st) =
     lines st ++ numberedGroups before (List.filter nonEmpty [(title, qs)]).
Proof.
  intros Hst. destruct qs as [|q qs].
  - rewrite exec_block_nil, !app_nil_r. auto.
  - rewrite exec_block_cons.
    set (st1 := exec (push "") (exec (push (blockMarker title)) st)).
    assert (agrees before st1) as H1 by exact Hst.
    destruct (forEach_numbered (q :: qs) before st1 H1) as [Ha Hl].
    split; [exact Ha|]. rewrite Hl. subst st1. rewrite !exec_push. simpl.
    rewrite <- !app_assoc, app_nil_r. reflexivity.
Qed.

Lemma numberedGroups_app (gs1 gs2 : list (string * list Question)) (before : list Question) :
  numberedGroups before (gs1 ++ gs2) =
  numberedGroups before gs1 ++ numberedGroups (before ++ flat_map snd gs1) gs2.
Proof.
  revert before. induction gs1 as [|[t qs] gs1 IH]; intros before.
  - simpl. rewrite app_nil_r. reflexivity.
  - simpl. rewrite IH, <- !app_assoc. reflexivity.
Qed.

Lemma flat_map_nonEmpty (gs : list (string * list Question)) :
  flat_map snd (List.filter nonEmpty gs) = flat_map snd gs.
Proof.
  induction gs as [|[t qs] gs IH]; simpl.
  - reflexivity.
  - destruct qs; simpl; rewrite IH; reflexivity.
Qed.

(** The blocks of a list of groups, run one after the other. *)
Lemma blocks_numbered (gs : list (string * list Question)) (before : list Question)
    (st : GenState) :
  agrees before st ->
  let st' := exec (forEach (fun g => block (blockMarker (fst g)) (snd g)) gs) st in
  agrees (before ++ flat_map snd gs) st'
  /\ lines st' = lines st ++ numberedGroups before (List.filter nonEmpty gs).
Proof.
  revert before st. induction gs as [|[t qs] gs IH]; intros before st Hst; cbv zeta.
  - simpl. rewrite exec_ret, !app_nil_r. auto.
  - rewrite exec_forEach_cons. simpl fst; simpl snd.
    destruct (block_numbered t qs before st Hst) as [Ha Hl].
    destruct (IH (before ++ qs) _ Ha) as [Ha' Hl'].
    simpl flat_map. rewrite app_assoc. split; [exact Ha'|].
    rewrite Hl', Hl, <- app_assoc. f_equal.
    change ((t, qs) :: gs) with ([(t, qs)] ++ gs).
    rewrite List.filter_app, numberedGroups_app, flat_map_nonEmpty.
    simpl flat_map. rewrite app_nil_r. reflexivity.
Qed.

(** The four parts of [generateQualtricsTxt] are the blocks of [groups]. *)
Lemma generateBody_groups (d : GeneratedContent) (st : GenState) :
  exec (generateBody d) st =
  exec (forEach (fun g => block (blockMarker (fst g)) (snd g)) (groups d)) st.
Proof.
  unfold generateBody, groups.
  rewrite exec_forEach_cons, exec_forEach_app, exec_forEach_map.
  rewrite !exec_seq. simpl forEach. rewrite !exec_seq, exec_ret. reflexivity.
Qed.

Lemma allQuestions_groups (d : GeneratedContent) :
  flat_map snd (groups d) = allQuestions d.
Proof.
  unfold groups, allQuestions, coreQuestions. simpl.
  rewrite flat_map_app. simpl. rewrite app_nil_r. f_equal. f_equal.
  induction (core d) as [|s l IH]; simpl; [reflexivity|]. rewrite IH. reflexivity.
Qed.

Lemma generateBody_numbered (d : GeneratedContent) :
  agrees (allQuestions d) (exec (generateBody d) initialState)
  /\ generatedLines d = numberedLines d.
Proof.
  unfold generatedLines. rewrite generateBody_groups.
  destruct (blocks_numbered (groups d) [] initialState agrees_initial) as [Ha Hl].
  rewrite allQuestions_groups in Ha. split; [exact Ha|exact Hl].
Qed.

Lemma numberedQuestions_counts (qs b1 b2 : list Question) :
  (forall c, countIn c b1 = countIn c b2) ->
  numberedQuestions b1 qs = numberedQuestions b2 qs.
Proof.
  revert b1 b2. induction qs as [|q qs IH]; intros b1 b2 Hc; simpl; [reflexivity|].
  f_equal.
  - unfold numberedQuestion. destruct (type q) as [ty|]; [|reflexivity].
    rewrite Hc. reflexivity.
  - apply IH. intros c. rewrite !countIn_app, Hc. reflexivity.
Qed.

Lemma numberedGroups_counts (gs : list (string * list Question)) (b1 b2 : list Question) :
  (forall c, countIn c b1 = countIn c b2) ->
  numberedGroups b1 gs = numberedGroups b2 gs.
Proof.
  revert b1 b2. induction gs as [|[t qs] gs IH]; intros b1 b2 Hc; simpl; [reflexivity|].
  f_equal. f_equal. f_equal.
  - apply numberedQuestions_counts. exact Hc.
  - apply IH. intros c. rewrite !countIn_app, Hc. reflexivity.
Qed.

Lemma numberedQuestions_app (l1 l2 b : list Question) :
  numberedQuestions b (l1 ++ l2) =
  numberedQuestions b l1 ++ numberedQuestions (b ++ l1) l2.
Proof.
  revert b. induction l1 as [|q l1 IH]; intros b; simpl.
  - rewrite app_nil_r. reflexivity.
  - rewrite IH, <- !app_assoc. reflexivity.
Qed.

(** A question without a type does not count. *)
Lemma countIn_untyped (c : Category) (before : list Question) (q : Question) :
  type q = None -> countIn c (before ++ [q]) = countIn c before.
Proof.
  intros Hq. rewrite countIn_app. simpl. unfold inCategory. rewrite Hq. lia.
Qed.

Lemma numberedQuestions_untyped (qs before : list Question) :
  Forall untyped qs -> numberedQuestions before qs = [].
Proof.
  intros H. revert before. induction H as [|q qs Hq _ IH]; intros before; simpl.
  - reflexivity.
  - unfold numberedQuestion. rewrite Hq, IH. reflexivity.
Qed.

(** The lines of a document, cut before and after one of its groups. *)
Lemma lines_around_group (d : GeneratedContent) (g1 g2 : list (string * list Question))
    (title : string) (qs : list Question) :
  groups d = g1 ++ (title, qs) :: g2 ->
  generatedLines d
  = numberedGroups [] (List.filter nonEmpty g1)
    ++ numberedGroups (flat_map snd g1) (List.filter nonEmpty [(title, qs)])
    ++ numberedGroups (flat_map snd g1 ++ qs) (List.filter nonEmpty g2).
Proof.
  intros Hg. destruct (generateBody_numbered d) as [_ ->]. unfold numberedLines.
  rewrite Hg. change ((title, qs) :: g2) with ([(title, qs)] ++ g2).
  rewrite !List.filter_app, !numberedGroups_app, !flat_map_nonEmpty.
  simpl flat_map. rewrite app_nil_r. reflexivity.
Qed.

(** The same, cut at a group without questions. *)
Lemma lines_without_group (d : GeneratedContent) (g1 g2 : list (string * list Question))
    (title : string) :
  groups d = g1 ++ (title, []) :: g2 ->
  generatedLines d = numberedGroups [] (List.filter nonEmpty (g1 ++ g2)).
Proof.
  intros Hg. destruct (generateBody_numbered d) as [_ ->]. unfold numberedLines.
  rewrite Hg, !List.filter_app. reflexivity.
Qed.

(** The same, cut before and after one of its questions. *)
Lemma lines_around_question (d : GeneratedContent) (g1 g2 : list (string * list Question))
    (title : string) (pre post : list Question) (q : Question) :
  groups d = g1 ++ (title, pre ++ q :: post) :: g2 ->
  generatedLines d
  = linesAbove g1 title pre
    ++ numberedQuestion (flat_map snd g1 ++ pre) q
    ++ linesBelow ((flat_map snd g1 ++ pre) ++ [q]) post g2.
Proof.
  intros Hg. rewrite (lines_around_group d g1 g2 title _ Hg).
  unfold linesAbove, linesBelow.
  assert (List.filter nonEmpty [(title, pre ++ q :: post)] = [(title, pre ++ q :: post)])
    as -> by (destruct pre; reflexivity).
  cbn [numberedGroups]. rewrite app_nil_r.
  rewrite numberedQuestions_app. cbn [numberedQuestions].
  rewrite <- !app_assoc. simpl. rewrite <- !app_assoc. reflexivity.
Qed.

End QualtricsFacts.

(** ** The outline, group by group *)

Module PlainTextFacts.
Import PlainText PlainTextSpec.

Lemma append_assoc (s1 s2 s3 : string) : (s1 +:+ s2) +:+ s3 = s1 +:+ (s2 +:+ s3).
Proof.
  induction s1 as [|c s1 IH]; [reflexivity|].
  change (String c ((s1 +:+ s2) +:+ s3) = String c (s1 +:+ (s2 +:+ s3))).
  rewrite IH. reflexivity.
Qed.

Lemma append_nil_r (s : string) : s +:+ "" = s.
Proof.
  induction s as [|c s IH]; [reflexivity|].
  change (String c (s +:+ "") = String c s). rewrite IH. reflexivity.
Qed.

Lemma exec_append (s acc : string) : exec (append s) acc = acc +:+ s.
Proof. reflexivity. Qed.

(** A loop of callbacks that each append a string appends them all. *)
Lemma exec_forEach_append {A} (f : A -> State string unit) (g : A -> string) (l : list A) :
  (forall x acc, exec (f x) acc = acc +:+ g x) ->
  forall acc, exec (forEach f l) acc = acc +:+ flatten (map g l).
Proof.
  intros Hf. induction l as [|x l IH]; intros acc.
  - simpl. rewrite exec_ret, append_nil_r. reflexivity.
  - rewrite exec_forEach_cons, IH, Hf, append_assoc. reflexivity.
Qed.

Lemma exec_questionLines (q : Question) (acc : string) :
  exec (questionLines q) acc = acc +:+ questionText q.
Proof.
  unfold questionLines, questionText. rewrite exec_seq, exec_append.
  unfold forEachOption, optionList. destruct (options q) as [os|].
  - rewrite (exec_forEach_append _ optionText) by reflexivity.
    rewrite !append_assoc. reflexivity.
  - rewrite exec_ret. simpl flatten. rewrite append_nil_r. reflexivity.
Qed.

Lemma exec_questions (qs : list Question) (acc : string) :
  exec (forEach questionLines qs) acc = acc +:+ flatten (map questionText qs).
Proof. apply exec_forEach_append. apply exec_questionLines. Qed.

Lemma exec_coreSection (s : CoreQuestionSection) (acc : string) :
  exec (coreSection s) acc = acc +:+ (groupText (coreGroup s) +:+ nl).
Proof.
  unfold coreSection, groupText. rewrite !exec_seq, !exec_append, exec_questions.
  simpl fst; simpl snd. rewrite !append_assoc. reflexivity.
Qed.

Lemma concat_cons_ne (sep x : string) (l : list string) :
  l <> [] -> String.concat sep (x :: l) = x +:+ sep +:+ String.concat sep l.
Proof. destruct l; [congruence|reflexivity]. Qed.

Lemma concat_sections (secs : list CoreQuestionSection) (g1 g2 : string * list Question) :
  String.concat nl (map groupText (map coreGroup secs ++ [g1; g2])) =
  flatten (map (fun s => groupText (coreGroup s) +:+ nl) secs)
  +:+ groupText g1 +:+ nl +:+ groupText g2.
Proof.
  induction secs as [|s secs IH].
  - reflexivity.
  - rewrite !map_cons, <- app_comm_cons, map_cons.
    rewrite concat_cons_ne by (destruct secs; discriminate).
    rewrite IH. simpl flatten. rewrite !append_assoc. reflexivity.
Qed.

(** The renderer's string is the outline of the document. *)
Lemma formatBody_outline (d : GeneratedContent) :
  exec (formatBody d) "" = outline d.
Proof.
  unfold formatBody, outline, groups.
  rewrite !exec_seq, !exec_append, !exec_questions.
  rewrite (exec_forEach_append _ (fun s => groupText (coreGroup s) +:+ nl))
    by apply exec_coreSection.
  rewrite map_cons.
  rewrite concat_cons_ne by (destruct (map coreGroup (core d)); discriminate).
  rewrite concat_sections. unfold groupText at 1 3 4. simpl fst; simpl snd.
  unfold openingHeading, followUpsHeading, closingHeading.
  rewrite !append_assoc. reflexivity.
Qed.

Lemma flatten_app (l1 l2 : list string) :
  flatten (l1 ++ l2) = flatten l1 +:+ flatten l2.
Proof.
  induction l1 as [|x l1 IH]; [reflexivity|].
  change (flatten ((x :: l1) ++ l2)) with (x +:+ flatten (l1 ++ l2)).
  change (flatten (x :: l1)) with (x +:+ flatten l1).
  rewrite IH, append_assoc. reflexivity.
Qed.

(** A list of strings joined with line feeds, cut at one of its members. *)
Lemma concat_around (l1 l2 : list string) (x : string) :
  String.concat nl (l1 ++ x :: l2)
  = flatten (map (fun s => s +:+ nl) l1) +:+ x +:+ flatten (map (fun s => nl +:+ s) l2).
Proof.
  induction l1 as [|y l1 IH].
  - change (flatten (map (fun s => s +:+ nl) [])) with "".
    change ("" +:+ x +:+ flatten (map (fun s => nl +:+ s) l2))
      with (x +:+ flatten (map (fun s => nl +:+ s) l2)).
    change ([] ++ x :: l2) with (x :: l2).
    revert x. induction l2 as [|z l2 IH2]; intros x.
    + change (x +:+ flatten (map (fun s => nl +:+ s) [])) with (x +:+ "").
      rewrite append_nil_r. reflexivity.
    + rewrite concat_cons_ne by discriminate. rewrite IH2.
      change (flatten (map (fun s => nl +:+ s) (z :: l2)))
        with ((nl +:+ z) +:+ flatten (map (fun s => nl +:+ s) l2)).
      rewrite !append_assoc. reflexivity.
  - change ((y :: l1) ++ x :: l2) with (y :: (l1 ++ x :: l2)).
    rewrite concat_cons_ne by (destruct l1; discriminate). rewrite IH.
    change (flatten (map (fun s => s +:+ nl) (y :: l1)))
      with ((y +:+ nl) +:+ flatten (map (fun s => s +:+ nl) l1)).
    rewrite !append_assoc. reflexivity.
Qed.

(** The outline of a document, cut before and after one of its groups. *)
Lemma outline_around_group (d : GeneratedContent) (g1 g2 : list (string * list Question))
    (title : string) (qs : list Question) :
  groups d = g1 ++ (title, qs) :: g2 ->
  formatContentAsText (Some d)
  = flatten (map (fun g => groupText g +:+ nl) g1)
    +:+ groupText (title, qs)
    +:+ flatten (map (fun g => nl +:+ groupText g) g2).
Proof.
  intros Hg. unfold formatContentAsText. rewrite formatBody_outline. unfold outline.
  rewrite Hg, map_app, map_cons, concat_around, !map_map. reflexivity.
Qed.

(** The same, cut before and after one of its questions. *)
Lemma outline_around_question (d : GeneratedContent)
    (g1 g2 : list (string * list Question)) (title : string)
    (pre post : list Question) (q : Question) :
  groups d = g1 ++ (title, pre ++ q :: post) :: g2 ->
  formatContentAsText (Some d)
  = textAbove g1 title pre +:+ questionText q +:+ textBelow post g2.
Proof.
  intros Hg. rewrite (outline_around_group d g1 g2 title _ Hg).
  unfold textAbove, textBelow, groupText. simpl fst; simpl snd.
  rewrite map_app, map_cons, flatten_app.
  change (flatten (questionText q :: map questionText post))
    with (questionText q +:+ flatten (map questionText post)).
  rewrite !append_assoc. reflexivity.
Qed.

End PlainTextFacts.

(** ** The layout, block by block *)

Module PdfFacts.
Import Pdf PdfSpec.

Lemma len_nonneg {A} (l : list A) : (0 <= len l)%Q.
Proof.
  unfold len. change 0%Q with (inject_Z 0). rewrite <- Zle_Qle. lia.
Qed.

Section Facts.

Variables pageWidth pageHeight : Q.
Variable splitTextToSize : Z -> FontStyle -> string -> Q -> list string.

Local Abbreviation bottom := (bottom pageHeight).
Local Abbreviation laidOut := (laidOut pageHeight).
Local Abbreviation writtenInBounds := (writtenInBounds pageHeight).
Local Abbreviation checkPageBreak := (checkPageBreak pageHeight).
Local Abbreviation addOption := (addOption pageWidth pageHeight splitTextToSize).
Local Abbreviation addQuestion := (addQuestion pageWidth pageHeight splitTextToSize).
Local Abbreviation addSection := (addSection pageWidth pageHeight splitTextToSize).
Local Abbreviation addTitle := (addTitle pageWidth pageHeight splitTextToSize).
Local Abbreviation exportBody := (exportBody pageWidth pageHeight splitTextToSize).

Lemma laidOut_same (st st' : LayoutState) :
  drawn st' = drawn st -> laidOut st st' [].
Proof. intros H. exists []. rewrite H, app_nil_r. repeat split. constructor. Qed.

Lemma laidOut_trans (st1 st2 st3 : LayoutState) (b1 b2 : list (list string)) :
  laidOut st1 st2 b1 -> laidOut st2 st3 b2 -> laidOut st1 st3 (b1 ++ b2).
Proof.
  intros (o1 & H1 & M1 & F1) (o2 & H2 & M2 & F2). exists (o1 ++ o2).
  rewrite H2, H1, <- app_assoc, map_app, M1, M2. split; [|split]; try reflexivity.
  intros Hfits. apply Forall_app; auto.
Qed.

(** The two ways through [checkPageBreak]. *)
Lemma exec_checkPageBreak (h : Q) (st : LayoutState) :
  ((y st + h <= bottom)%Q /\ exec (checkPageBreak h) st = st)
  \/ ((bottom < y st + h)%Q
      /\ exec (checkPageBreak h) st =
         {| pageCount := S (pageCount st); fontSize := fontSize st;
            fontStyle := fontStyle st; drawn := drawn st; y := margin |}).
Proof.
  unfold Pdf.checkPageBreak, exec, PdfSpec.bottom.
  destruct (Qlt_le_dec (pageHeight - margin) (y st + h)) as [Hlt|Hle].
  - right. split; [exact Hlt|reflexivity].
  - left. split; [exact Hle|reflexivity].
Qed.

(** A block drawn right after its page-break check is in bounds. *)
Lemma write_block (h : Q) (ls : list string) (x : Q) (al : Align) (st : LayoutState) :
  (0 <= h)%Q ->
  (forall op, opLines op = ls -> opFontSize op = fontSize st -> requiredExtent op = h) ->
  let st' := exec (drawText ls x al) (exec (checkPageBreak h) st) in
  laidOut st st' [ls] /\ fontSize st' = fontSize st /\ fontStyle st' = fontStyle st.
Proof.
  intros Hh Hext st'. subst st'.
  destruct (exec_checkPageBreak h st) as [[Hfit ->]|[Hover ->]].
  - split; [|split; reflexivity].
    eexists [_]. split; [reflexivity|]. split; [reflexivity|]. intros _.
    constructor; [|constructor]. unfold PdfSpec.writtenInBounds. cbn [opY].
    rewrite Hext by reflexivity. split; [lra|right; exact Hfit].
  - split; [|split; reflexivity].
    eexists [_]. split; [reflexivity|]. split; [reflexivity|]. intros page_fits.
    constructor; [|constructor]. unfold PdfSpec.writtenInBounds. cbn [opY y].
    split; [exact page_fits|left; reflexivity].
Qed.

Lemma addOption_laidOut (opt : string) (st : LayoutState) :
  fontSize st = 10%Z -> fontStyle st = Normal ->
  let st' := exec (addOption opt) st in
  laidOut st st' [optionBlock pageWidth splitTextToSize opt]
  /\ fontSize st' = 10%Z /\ fontStyle st' = Normal.
Proof.
  intros Hsize Hstyle st'. subst st'. unfold Pdf.addOption, splitText.
  rewrite exec_gets, !exec_seq, Hsize, Hstyle.
  fold (optionBlock pageWidth splitTextToSize opt).
  set (ls := optionBlock pageWidth splitTextToSize opt).
  destruct (write_block (len ls * (9 # 2)) ls (margin + 5) AlignLeft st) as (Hl & Hs & Ht).
  { pose proof (len_nonneg ls). lra. }
  { intros op Hop Hfs. unfold requiredExtent. rewrite Hfs, Hsize, Hop. reflexivity. }
  split; [|split].
  - rewrite <- (app_nil_r [ls]). eapply laidOut_trans; [exact Hl|].
    apply laidOut_same. reflexivity.
  - rewrite <- Hsize, <- Hs. reflexivity.
  - rewrite <- Hstyle, <- Ht. reflexivity.
Qed.

Lemma addOptions_laidOut (opts : list string) (st : LayoutState) :
  fontSize st = 10%Z -> fontStyle st = Normal ->
  laidOut st (exec (forEach addOption opts) st)
    (map (optionBlock pageWidth splitTextToSize) opts).
Proof.
  revert st. induction opts as [|o opts IH]; intros st Hsize Hstyle.
  - apply laidOut_same. reflexivity.
  - rewrite exec_forEach_cons.
    destruct (addOption_laidOut o st Hsize Hstyle) as (Hl & Hs & Ht).
    change (map (optionBlock pageWidth splitTextToSize) (o :: opts))
      with ([optionBlock pageWidth splitTextToSize o]
            ++ map (optionBlock pageWidth splitTextToSize) opts).
    eapply laidOut_trans; [exact Hl|]. apply IH; assumption.
Qed.

Lemma addQuestion_laidOut (q : Question) (st : LayoutState) :
  laidOut st (exec (addQuestion q) st) (questionBlocks pageWidth splitTextToSize q).
Proof.
  unfold Pdf.addQuestion, splitText. rewrite !exec_seq, exec_gets, !exec_seq.
  set (st0 := exec (setFont Normal) (exec (setFontSize 11) st)).
  change (fontSize st0) with 11%Z. change (fontStyle st0) with Normal.
  set (ls := splitTextToSize 11%Z Normal ("- " +:+ text q) (maxLineWidth pageWidth - 5)).
  destruct (write_block (len ls * 5 + 2) ls (margin + 2) AlignLeft st0) as (Hl & Hs & Ht).
  { pose proof (len_nonneg ls). lra. }
  { intros op Hop Hfs. unfold requiredExtent. rewrite Hfs, Hop. reflexivity. }
  set (st1 := exec (drawText ls (margin + 2) AlignLeft)
                (exec (checkPageBreak (len ls * 5 + 2)) st0)) in *.
  assert (laidOut st st1 [ls]) as Hq.
  { destruct Hl as (ops & Hd & Hm & Hf). exists ops. repeat split; assumption. }
  unfold questionBlocks, optionList. fold ls.
  change (ls :: ?bs) with ([ls] ++ bs).
  eapply laidOut_trans; [exact Hq|].
  set (st2 := exec (advance (len ls * 5 + 2)) st1).
  assert (fontStyle st2 = Normal) as Hstyle by exact Ht.
  destruct (options q) as [opts|].
  - rewrite exec_when. destruct opts as [|o opts].
    + apply laidOut_same. reflexivity.
    + simpl Nat.ltb. cbv iota. rewrite !exec_seq.
      rewrite <- (app_nil_r (map _ (o :: opts))).
      eapply laidOut_trans; [|apply laidOut_same; reflexivity].
      pose proof (addOptions_laidOut (o :: opts) (exec (setFontSize 10) st2)
                    eq_refl Hstyle) as (ops & Hd & Hm & Hf).
      exists ops. repeat split; assumption.
  - apply laidOut_same. reflexivity.
Qed.

Lemma addQuestions_laidOut (qs : list Question) (st : LayoutState) :
  laidOut st (exec (forEach addQuestion qs) st)
    (flat_map (questionBlocks pageWidth splitTextToSize) qs).
Proof.
  revert st. induction qs as [|q qs IH]; intros st.
  - apply laidOut_same. reflexivity.
  - rewrite exec_forEach_cons. cbn [flat_map].
    eapply laidOut_trans; [apply addQuestion_laidOut|apply IH].
Qed.

Lemma addSection_laidOut (title : string) (qs : list Question) (st : LayoutState) :
  laidOut st (exec (addSection title qs) st)
    (flat_map (groupBlocks pageWidth splitTextToSize) (List.filter nonEmpty [(title, qs)])).
Proof.
  destruct qs as [|q qs].
  - apply laidOut_same. reflexivity.
  - unfold Pdf.addSection, splitText. simpl Nat.eqb. cbv iota.
    rewrite !exec_seq, exec_gets, !exec_seq.
    set (st0 := exec (setFont Bold) (exec (setFontSize 14) st)).
    change (fontSize st0) with 14%Z. change (fontStyle st0) with Bold.
    set (ls := splitTextToSize 14%Z Bold title (maxLineWidth pageWidth)).
    destruct (write_block (len ls * 7 + 8) ls margin AlignLeft st0) as (Hl & _ & _).
    { pose proof (len_nonneg ls). lra. }
    { intros op Hop Hfs. unfold requiredExtent. rewrite Hfs, Hop. reflexivity. }
    set (st1 := exec (drawText ls margin AlignLeft)
                  (exec (checkPageBreak (len ls * 7 + 8)) st0)) in *.
    assert (laidOut st st1 [ls]) as Hq.
    { destruct Hl as (ops & Hd & Hm & Hf). exists ops. repeat split; assumption. }
    cbn [List.filter nonEmpty snd flat_map]. rewrite app_nil_r. unfold groupBlocks.
    cbn [fst snd]. fold ls.
    change (ls :: ?bs) with ([ls] ++ bs).
    eapply laidOut_trans; [exact Hq|].
    rewrite <- (app_nil_r (flat_map _ (q :: qs))).
    eapply laidOut_trans; [|apply laidOut_same; reflexivity].
    pose proof (addQuestions_laidOut (q :: qs) (exec (advance (len ls * 7 + 4)) st1))
      as (ops & Hd & Hm & Hf).
    exists ops. repeat split; assumption.
Qed.

Lemma addSections_laidOut (gs : list (string * list Question)) (st : LayoutState) :
  laidOut st (exec (forEach (fun g => addSection (fst g) (snd g)) gs) st)
    (flat_map (groupBlocks pageWidth splitTextToSize) (List.filter nonEmpty gs)).
Proof.
  revert st. induction gs as [|[t qs] gs IH]; intros st.
  - apply laidOut_same. reflexivity.
  - rewrite exec_forEach_cons.
    change ((t, qs) :: gs) with ([(t, qs)] ++ gs).
    rewrite List.filter_app, flat_map_app.
    eapply laidOut_trans; [apply addSection_laidOut|apply IH].
Qed.

Lemma addTitle_laidOut (d : GeneratedContent) (st : LayoutState) :
  laidOut st (exec (addTitle d) st)
    [splitTextToSize 18%Z Bold (documentTitle d) (maxLineWidth pageWidth)].
Proof.
  unfold Pdf.addTitle, splitText. rewrite !exec_seq, exec_gets, !exec_seq.
  set (st0 := exec (setFont Bold) (exec (setFontSize 18) st)).
  change (fontSize st0) with 18%Z. change (fontStyle st0) with Bold.
  set (ls := splitTextToSize 18%Z Bold (documentTitle d) (maxLineWidth pageWidth)).
  destruct (write_block (len ls * 8) ls (pageWidth / 2) AlignCenter st0) as (Hl & _ & _).
  { pose proof (len_nonneg ls). lra. }
  { intros op Hop Hfs. unfold requiredExtent. rewrite Hfs, Hop. reflexivity. }
  destruct Hl as (ops & Hd & Hm & Hf). exists ops. repeat split; assumption.
Qed.

(** The sections of [handleExportPDF] are those of [groups]. *)
Lemma exportBody_groups (d : GeneratedContent) (st : LayoutState) :
  exec (exportBody d) st =
  exec (forEach (fun g => addSection (fst g) (snd g)) (groups d)) (exec (addTitle d) st).
Proof.
  unfold Pdf.exportBody, groups.
  rewrite exec_forEach_cons, exec_forEach_app, exec_forEach_map.
  rewrite !exec_seq. simpl forEach. rewrite !exec_seq, exec_ret. reflexivity.
Qed.

Lemma exportBody_laidOut (d : GeneratedContent) (st : LayoutState) :
  laidOut st (exec (exportBody d) st) (documentBlocks pageWidth splitTextToSize d).
Proof.
  rewrite exportBody_groups. unfold documentBlocks.
  change (?b :: ?bs) with ([b] ++ bs).
  eapply laidOut_trans; [apply addTitle_laidOut|apply addSections_laidOut].
Qed.

(** What the handler draws, block by block. *)
Lemma handleExportPDF_blocks (d : GeneratedContent) :
  exists doc,
    handleExportPDF pageWidth pageHeight splitTextToSize (Some d) = Some doc
    /\ map opLines (drawn doc) = documentBlocks pageWidth splitTextToSize d.
Proof.
  eexists. split; [reflexivity|].
  destruct (exportBody_laidOut d newDocument) as (ops & Hd & Hm & _).
  rewrite Hd. exact Hm.
Qed.

(** The blocks of a document, cut before and after one of its questions. *)
Lemma documentBlocks_around_question (d : GeneratedContent)
    (g1 g2 : list (string * list Question)) (title : string)
    (pre post : list Question) (q : Question) :
  groups d = g1 ++ (title, pre ++ q :: post) :: g2 ->
  documentBlocks pageWidth splitTextToSize d
  = blocksAbove pageWidth splitTextToSize d g1 title pre
    ++ questionBlocks pageWidth splitTextToSize q
    ++ blocksBelow pageWidth splitTextToSize post g2.
Proof.
  intros Hg. unfold documentBlocks, blocksAbove, blocksBelow. rewrite Hg.
  rewrite List.filter_app.
  assert (List.filter nonEmpty ((title, pre ++ q :: post) :: g2)
          = (title, pre ++ q :: post) :: List.filter nonEmpty g2) as ->
    by (destruct pre; reflexivity).
  rewrite flat_map_app. cbn [flat_map].
  unfold groupBlocks at 2. simpl fst; simpl snd.
  rewrite flat_map_app. cbn [flat_map]. unfold questionBlocks at 2.
  repeat first [rewrite <- app_assoc | rewrite <- app_comm_cons]. reflexivity.
Qed.

(** The same, cut at a group without questions. *)
Lemma documentBlocks_without_group (d : GeneratedContent)
    (g1 g2 : list (string * list Question)) (title : string) :
  groups d = g1 ++ (title, []) :: g2 ->
  documentBlocks pageWidth splitTextToSize d
  = splitTextToSize 18 Bold (documentTitle d) (maxLineWidth pageWidth)
    :: flat_map (groupBlocks pageWidth splitTextToSize) (List.filter nonEmpty (g1 ++ g2)).
Proof.
  intros Hg. unfold documentBlocks. rewrite Hg, !List.filter_app. reflexivity.
Qed.

End Facts.

End PdfFacts.

(** ** The text edit on a list of questions *)

Module EditFacts.
Import Edit EditSpec.

Lemma cloneQuestion_id (q : Question) : cloneQuestion q = q.
Proof.
  destruct q as [i t ty [os|]]; unfold cloneQuestion; simpl; [|reflexivity].
  rewrite List.map_id. reflexivity.
Qed.

Lemma cloneQuestions_id (qs : list Question) : map cloneQuestion qs = qs.
Proof.
  induction qs as [|q qs IH]; simpl; [reflexivity|].
  rewrite cloneQuestion_id, IH. reflexivity.
Qed.

(** On the document model the JSON round trip gives back an equal value. *)
Lemma jsonClone_id (d : GeneratedContent) : jsonClone d = d.
Proof.
  destruct d as [o c f cl iq]. unfold jsonClone. simpl.
  rewrite !cloneQuestions_id. f_equal.
  induction c as [|[t qs] c IH]; simpl; [reflexivity|].
  unfold cloneSection at 1. simpl. rewrite cloneQuestions_id, IH. reflexivity.
Qed.

(** [findIndex] answers -1 when nothing matches, and otherwise the length of
    the longest prefix without a match. *)
Lemma findIndexFrom_spec {A} (p : A -> bool) (l : list A) (i : Z) :
  (findIndexFrom p i l = (-1)%Z /\ Forall (fun x => p x = false) l)
  \/ exists pre x post,
       l = pre ++ x :: post
       /\ Forall (fun x => p x = false) pre
       /\ p x = true
       /\ findIndexFrom p i l = (i + Z.of_nat (length pre))%Z.
Proof.
  revert i. induction l as [|a l IH]; intros i.
  - left. split; [reflexivity|constructor].
  - simpl. destruct (p a) eqn:Hpa.
    + right. exists [], a, l. repeat split; [constructor|assumption|simpl; lia].
    + destruct (IH (i + 1)%Z) as [[Hn Hall]|(pre & x & post & -> & Hpre & Hx & Hi)].
      * left. split; [exact Hn|constructor; assumption].
      * right. exists (a :: pre), x, post.
        repeat split; [constructor; assumption|assumption|].
        rewrite Hi. simpl length. lia.
Qed.

Lemma patchQuestions_spec (target newText : string) (qs : list Question) :
  textPatched target newText qs (patchQuestions target newText qs).
Proof.
  unfold patchQuestions, findIndex, textPatched.
  destruct (findIndexFrom_spec (fun q => String.eqb (id q) target) qs 0)
    as [[-> Hall]|(pre & q & post & -> & Hpre & Hq & ->)].
  - left. split; [|reflexivity].
    eapply Forall_impl; [exact Hall|]. intros q Hq. simpl in Hq.
    apply String.eqb_neq. exact Hq.
  - right. exists pre, q, post.
    assert ((-1 <? 0 + Z.of_nat (length pre))%Z = true) as -> by (apply Z.ltb_lt; lia).
    replace (Z.to_nat (0 + Z.of_nat (length pre))) with (length pre + 0)%nat by lia.
    rewrite alter_app_r. simpl.
    repeat split.
    + eapply Forall_impl; [exact Hpre|]. intros p Hp. simpl in Hp.
      apply String.eqb_neq. exact Hp.
    + apply String.eqb_eq. exact Hq.
Qed.

(** The patched list, field by field. *)
Lemma patchQuestions_replaced (target newText : string) (qs : list Question) :
  textReplaced target newText qs (patchQuestions target newText qs).
Proof.
  destruct (patchQuestions_spec target newText qs)
    as [[Hnone Hsame]|(pre & q & post & Hqs & Hpre & Hq & Hpatched)].
  - left. split; assumption.
  - right. exists pre, q, (setText newText q), post.
    repeat split; try assumption; reflexivity.
Qed.

End EditFacts.

(** ** The renderers on the object graph *)

Module HeapFacts.
Import HeapSpec.

Section Reads.

Context {L : Type}.
Variable store : Heap.Store.

(** A bind of the state monad, by projections. *)
Lemma bind_projections {A B} (c : State L A) (k : A -> State L B) (locals : L) :
  bind c k locals = k (fst (c locals)) (snd (c locals)).
Proof. unfold bind. destruct (c locals). reflexivity. Qed.

Lemma readsAs_local {A} (c : State L A) : readsAs store (Heap.local c) c.
Proof. intros locals. unfold Heap.local. simpl. destruct (c locals). reflexivity. Qed.

Lemma readsAs_ofQuestion {A} (property : Heap.QuestionObject -> A) (l : Heap.loc)
    (o : Heap.QuestionObject) :
  store !! l = Some (Heap.AQuestion o) ->
  readsAs store (@Heap.ofQuestion L A property l) (ret (property o)).
Proof. intros Hl locals. unfold Heap.ofQuestion. simpl. rewrite Hl. reflexivity. Qed.

Lemma readsAs_ofSection {A} (property : Heap.SectionObject -> A) (l : Heap.loc)
    (o : Heap.SectionObject) :
  store !! l = Some (Heap.ASection o) ->
  readsAs store (@Heap.ofSection L A property l) (ret (property o)).
Proof. intros Hl locals. unfold Heap.ofSection. simpl. rewrite Hl. reflexivity. Qed.

Lemma readsAs_ofContent {A} (property : Heap.ContentObject -> A) (l : Heap.loc)
    (o : Heap.ContentObject) :
  store !! l = Some (Heap.AContent o) ->
  readsAs store (@Heap.ofContent L A property l) (ret (property o)).
Proof. intros Hl locals. unfold Heap.ofContent. simpl. rewrite Hl. reflexivity. Qed.

Lemma readsAs_lengthOf {X} (elements : Heap.Store -> option (list X)) (items : list X) :
  elements store = Some items ->
  readsAs store (@Heap.lengthOf L X elements) (ret (length items)).
Proof. intros He locals. unfold Heap.lengthOf. simpl. rewrite He. reflexivity. Qed.

(** A loop over an array whose callback only reads the store is the loop
    over the elements the array has. *)
Lemma readsAs_forEachFrom {X Y} (elements : Heap.Store -> option (list X))
    (f : X -> @Heap.Js L unit) (g : Y -> State L unit) (rest : list X) (ys : list Y) :
  Forall2 (fun x y => readsAs store (f x) (g y)) rest ys ->
  forall pre : list X,
    elements store = Some (pre ++ rest) ->
    readsAs store (Heap.forEachFrom elements f (length rest) (length pre)) (forEach g ys).
Proof.
  induction 1 as [|x y rest ys Hxy _ IH]; intros pre He locals.
  - reflexivity.
  - cbn [length Heap.forEachFrom]. cbn [fst]. rewrite He.
    rewrite lookup_app_r by lia. rewrite Nat.sub_diag. cbn [lookup list_lookup].
    unfold Heap.jbind. rewrite Hxy. cbn [forEach]. rewrite bind_projections.
    replace (S (length pre)) with (length (pre ++ [x])) by (rewrite length_app; simpl; lia).
    apply IH. rewrite <- app_assoc. exact He.
Qed.

Lemma readsAs_forEachOf {X Y} (elements : Heap.Store -> option (list X))
    (f : X -> @Heap.Js L unit) (g : Y -> State L unit) (items : list X) (ys : list Y) :
  elements store = Some items ->
  Forall2 (fun x y => readsAs store (f x) (g y)) items ys ->
  readsAs store (Heap.forEachOf elements f) (forEach g ys).
Proof.
  intros He Hall locals. unfold Heap.forEachOf, Heap.jbind, Heap.lengthOf. cbn [fst]. rewrite He.
  apply (readsAs_forEachFrom elements f g items ys Hall [] He).
Qed.

(** What a program that only reads hands to the statements after it. *)
Lemma jbind_readsAs {A B} (p : @Heap.Js L A) (c : State L A) (k : A -> @Heap.Js L B)
    (locals : L) :
  readsAs store p c ->
  Heap.jbind p k (store, locals) = k (fst (c locals)) (store, snd (c locals)).
Proof. intros Hp. unfold Heap.jbind. rewrite Hp. reflexivity. Qed.

Lemma jbind_assoc {A B C} (p : @Heap.Js L A) (k1 : A -> @Heap.Js L B)
    (k2 : B -> @Heap.Js L C) (st : Heap.Store * L) :
  Heap.jbind (Heap.jbind p k1) k2 st = Heap.jbind p (fun a => Heap.jbind (k1 a) k2) st.
Proof.
  unfold Heap.jbind. destruct (p st) as [[a|] st']; reflexivity.
Qed.

Lemma Forall2_same {X} (R : X -> X -> Prop) (xs : list X) :
  (forall x, R x x) -> Forall2 R xs xs.
Proof. intros HR. induction xs; constructor; auto. Qed.

End Reads.

(** *** The plain-text renderer *)

Lemma questionLines_reads (store : Heap.Store) (l : Heap.loc) (q : Question) :
  holdsQuestion store l q ->
  readsAs store (Heap.questionLines l) (PlainText.questionLines q).
Proof.
  intros (o & Hl & _ & Ht & _ & Ho) locals. unfold Heap.questionLines.
  rewrite (jbind_readsAs store _ _ _ _ (readsAs_ofQuestion store Heap.text l o Hl)).
  cbn [ret fst snd].
  rewrite (jbind_readsAs store _ _ _ _ (readsAs_local store _)).
  rewrite (jbind_readsAs store _ _ _ _ (readsAs_ofQuestion store Heap.options l o Hl)).
  cbn [ret fst snd]. unfold PlainText.questionLines. rewrite bind_projections, Ht.
  unfold holdsOptions in Ho.
  destruct (Heap.options o) as [arr|] eqn:Harr, (options q) as [os|] eqn:Hos;
    try contradiction; cbn [forEachOption].
  - rewrite (jbind_readsAs store _ _ _ _ (readsAs_ofQuestion store Heap.options l o Hl)).
    cbn [ret fst snd]. rewrite Harr.
    apply (readsAs_forEachOf store (Heap.stringsAt arr) _
             (fun opt => PlainText.append ("  - " +:+ opt +:+ nl)) os os).
    + unfold Heap.stringsAt. rewrite Ho. reflexivity.
    + apply Forall2_same. intros opt. apply readsAs_local.
  - reflexivity.
Qed.

Lemma questions_read {L} (store : Heap.Store) (l : Heap.loc) (qs : list Question)
    (f : Heap.loc -> @Heap.Js L unit) (g : Question -> State L unit) :
  holdsQuestions store l qs ->
  (forall r q, holdsQuestion store r q -> readsAs store (f r) (g q)) ->
  readsAs store (Heap.forEachOf (Heap.referencesAt l) f) (forEach g qs).
Proof.
  intros (refs & Hl & Hall) Hf.
  apply (readsAs_forEachOf store (Heap.referencesAt l) f g refs qs).
  - unfold Heap.referencesAt. rewrite Hl. reflexivity.
  - eapply Forall2_impl; [exact Hall|]. exact Hf.
Qed.

Lemma coreSection_reads (store : Heap.Store) (l : Heap.loc) (s : CoreQuestionSection) :
  holdsSection store l s ->
  readsAs store (Heap.coreSection l) (PlainText.coreSection s).
Proof.
  intros (o & Hl & Ht & Hqs) locals. unfold Heap.coreSection.
  rewrite (jbind_readsAs store _ _ _ _ (readsAs_ofSection store Heap.topic l o Hl)).
  cbn [ret fst snd].
  rewrite (jbind_readsAs store _ _ _ _ (readsAs_local store _)).
  rewrite (jbind_readsAs store _ _ _ _ (readsAs_ofSection store Heap.questions l o Hl)).
  cbn [ret fst snd].
  rewrite (jbind_readsAs store _ _ _ _
             (questions_read store _ _ _ _ Hqs (questionLines_reads store))).
  rewrite Ht. unfold PlainText.coreSection. rewrite !bind_projections.
  apply readsAs_local.
Qed.

Lemma formatBody_reads (store : Heap.Store) (l : Heap.loc) (d : GeneratedContent) :
  holdsContent store l d ->
  readsAs store (Heap.formatBody l)
    (PlainText.formatBody d ;; gets (fun text => text)).
Proof.
  intros (o & secs & Hl & Hopening & Hcore & Hsecs & HfollowUps & Hclosing & _) locals.
  unfold Heap.formatBody.
  repeat first
    [ rewrite (jbind_readsAs store _ _ _ _ (readsAs_local store _))
    | rewrite (jbind_readsAs store _ _ _ _ (readsAs_ofContent store Heap.opening l o Hl))
    | rewrite (jbind_readsAs store _ _ _ _ (readsAs_ofContent store Heap.core l o Hl))
    | rewrite (jbind_readsAs store _ _ _ _ (readsAs_ofContent store Heap.followUps l o Hl))
    | rewrite (jbind_readsAs store _ _ _ _ (readsAs_ofContent store Heap.closing l o Hl))
    | rewrite (jbind_readsAs store _ _ _ _
                 (questions_read store _ _ _ _ Hopening (questionLines_reads store)))
    | rewrite (jbind_readsAs store _ _ _ _
                 (questions_read store _ _ _ _ HfollowUps (questionLines_reads store)))
    | rewrite (jbind_readsAs store _ _ _ _
                 (questions_read store _ _ _ _ Hclosing (questionLines_reads store)))
    | rewrite (jbind_readsAs store _ _ _ _
                 (readsAs_forEachOf store (Heap.referencesAt (Heap.core o)) _
                    PlainText.coreSection secs (core d)
                    ltac:(unfold Heap.referencesAt; rewrite Hcore; reflexivity)
                    ltac:(eapply Forall2_impl; [exact Hsecs|apply coreSection_reads])))
    | progress cbn [ret fst snd] ].
  unfold PlainText.formatBody. rewrite !bind_projections.
  apply readsAs_local.
Qed.

(** *** The delimited serializer *)

Lemma holdsQuestions_length (store : Heap.Store) (l : Heap.loc) (qs : list Question) :
  holdsQuestions store l qs ->
  exists refs, Heap.referencesAt l store = Some refs /\ length refs = length qs.
Proof.
  intros (refs & Hl & Hall). exists refs. split.
  - unfold Heap.referencesAt. rewrite Hl. reflexivity.
  - eapply Forall2_length. exact Hall.
Qed.

Lemma pushOptions_reads (store : Heap.Store) (l : Heap.loc) (q : Question) :
  holdsQuestion store l q ->
  readsAs store (Heap.pushOptions l) (forEachOption Qualtrics.push (options q)).
Proof.
  intros (o & Hl & _ & _ & _ & Ho) locals. unfold Heap.pushOptions.
  rewrite (jbind_readsAs store _ _ _ _ (readsAs_ofQuestion store Heap.options l o Hl)).
  cbn [ret fst snd]. unfold holdsOptions in Ho.
  destruct (Heap.options o) as [arr|], (options q) as [os|];
    try contradiction; cbn [forEachOption].
  - apply (readsAs_forEachOf store (Heap.stringsAt arr) _ Qualtrics.push os os).
    + unfold Heap.stringsAt. rewrite Ho. reflexivity.
    + apply Forall2_same. intros opt. apply readsAs_local.
  - reflexivity.
Qed.

Lemma processQuestion_reads (store : Heap.Store) (l : Heap.loc) (q : Question) :
  holdsQuestion store l q ->
  readsAs store (Heap.processQuestion l) (Qualtrics.processQuestion q).
Proof.
  intros Hq. pose proof Hq as (o & Hl & _ & Ht & Hty & _). intros locals.
  unfold Heap.processQuestion, Qualtrics.processQuestion.
  rewrite (jbind_readsAs store _ _ _ _ (readsAs_ofQuestion store Heap.type l o Hl)).
  cbn [ret fst snd]. rewrite Hty. destruct (type q) as [ty|]; [|reflexivity].
  rewrite (jbind_readsAs store _ _ _ _ (readsAs_ofQuestion store Heap.type l o Hl)).
  cbn [ret fst snd]. rewrite Hty. rewrite bind_projections.
  destruct ty;
    repeat first
      [ rewrite jbind_assoc
      | rewrite (jbind_readsAs store _ _ _ _ (readsAs_local store _))
      | rewrite (jbind_readsAs store _ _ _ _
                   (readsAs_ofQuestion store Heap.text l o Hl))
      | rewrite (jbind_readsAs store _ _ _ _ (pushOptions_reads store l q Hq))
      | rewrite bind_projections
      | rewrite Ht
      | progress cbn [ret fst snd] ];
    apply readsAs_local.
Qed.

Lemma processQuestions_reads (store : Heap.Store) (l : Heap.loc) (qs : list Question) :
  holdsQuestions store l qs ->
  readsAs store (Heap.processQuestions l) (Qualtrics.processQuestions qs).
Proof.
  intros Hqs locals. destruct (holdsQuestions_length store l qs Hqs) as (refs & Hat & Hlen).
  unfold Heap.processQuestions, Qualtrics.processQuestions.
  rewrite (jbind_readsAs store _ _ _ _ (readsAs_lengthOf store _ _ Hat)).
  cbn [ret fst snd]. rewrite Hlen. destruct (Nat.eqb (length qs) 0); [reflexivity|].
  apply (questions_read store l qs _ _ Hqs (processQuestion_reads store)).
Qed.

Lemma block_reads (store : Heap.Store) (marker : string)
    (group : Heap.ContentObject -> Heap.loc) (l : Heap.loc) (o : Heap.ContentObject)
    (qs : list Question) :
  store !! l = Some (Heap.AContent o) ->
  holdsQuestions store (group o) qs ->
  readsAs store (Heap.block marker group l) (Qualtrics.block marker qs).
Proof.
  intros Hl Hqs locals.
  destruct (holdsQuestions_length store _ qs Hqs) as (refs & Hat & Hlen).
  unfold Heap.block, Qualtrics.block, when.
  rewrite (jbind_readsAs store _ _ _ _ (readsAs_ofContent store group l o Hl)).
  cbn [ret fst snd].
  rewrite (jbind_readsAs store _ _ _ _ (readsAs_lengthOf store _ _ Hat)).
  cbn [ret fst snd]. rewrite Hlen. destruct (Nat.ltb 0 (length qs)); [|reflexivity].
  rewrite !(jbind_readsAs store _ _ _ _ (readsAs_local store _)).
  rewrite (jbind_readsAs store _ _ _ _ (readsAs_ofContent store group l o Hl)).
  cbn [ret fst snd]. rewrite !bind_projections.
  apply (processQuestions_reads store _ qs Hqs).
Qed.

Lemma coreBlock_reads (store : Heap.Store) (l : Heap.loc) (s : CoreQuestionSection) :
  holdsSection store l s ->
  readsAs store (Heap.coreBlock l) (Qualtrics.coreBlock s).
Proof.
  intros (o & Hl & Ht & Hqs) locals.
  destruct (holdsQuestions_length store _ _ Hqs) as (refs & Hat & Hlen).
  unfold Heap.coreBlock, Qualtrics.coreBlock, Qualtrics.block, when.
  rewrite (jbind_readsAs store _ _ _ _ (readsAs_ofSection store Heap.questions l o Hl)).
  cbn [ret fst snd].
  rewrite (jbind_readsAs store _ _ _ _ (readsAs_lengthOf store _ _ Hat)).
  cbn [ret fst snd]. rewrite Hlen.
  destruct (Nat.ltb 0 (length (questions s))); [|reflexivity].
  rewrite (jbind_readsAs store _ _ _ _ (readsAs_ofSection store Heap.topic l o Hl)).
  cbn [ret fst snd].
  rewrite !(jbind_readsAs store _ _ _ _ (readsAs_local store _)).
  rewrite (jbind_readsAs store _ _ _ _ (readsAs_ofSection store Heap.questions l o Hl)).
  cbn [ret fst snd]. rewrite Ht, !bind_projections.
  apply (processQuestions_reads store _ _ Hqs).
Qed.

Lemma generateBody_reads (store : Heap.Store) (l : Heap.loc) (d : GeneratedContent) :
  holdsContent store l d ->
  readsAs store (Heap.generateBody l)
    (Qualtrics.generateBody d ;;
     gets (fun st => String.concat nl (Qualtrics.lines st))).
Proof.
  intros (o & secs & Hl & Hopening & Hcore & Hsecs & HfollowUps & Hclosing & _) locals.
  unfold Heap.generateBody.
  rewrite (jbind_readsAs store _ _ _ _
             (block_reads store _ Heap.opening l o _ Hl Hopening)).
  rewrite (jbind_readsAs store _ _ _ _ (readsAs_ofContent store Heap.core l o Hl)).
  cbn [ret fst snd].
  rewrite (jbind_readsAs store _ _ _ _
             (readsAs_forEachOf store (Heap.referencesAt (Heap.core o)) _
                Qualtrics.coreBlock secs (core d)
                ltac:(unfold Heap.referencesAt; rewrite Hcore; reflexivity)
                ltac:(eapply Forall2_impl; [exact Hsecs|apply coreBlock_reads]))).
  rewrite (jbind_readsAs store _ _ _ _
             (block_reads store _ Heap.followUps l o _ Hl HfollowUps)).
  rewrite (jbind_readsAs store _ _ _ _
             (block_reads store _ Heap.closing l o _ Hl Hclosing)).
  unfold Qualtrics.generateBody. rewrite !bind_projections.
  apply readsAs_local.
Qed.

(** *** The paginated layout *)

Section Layout.

Variables pageWidth pageHeight : Q.
Variable splitTextToSize : Z -> Pdf.FontStyle -> string -> Q -> list string.

Lemma addQuestion_reads (store : Heap.Store) (l : Heap.loc) (q : Question) :
  holdsQuestion store l q ->
  readsAs store (Heap.addQuestion pageWidth pageHeight splitTextToSize l)
    (Pdf.addQuestion pageWidth pageHeight splitTextToSize q).
Proof.
  intros (o & Hl & _ & Ht & _ & Ho) locals.
  unfold Heap.addQuestion, Pdf.addQuestion.
  repeat first
    [ rewrite (jbind_readsAs store _ _ _ _ (readsAs_local store _))
    | rewrite (jbind_readsAs store _ _ _ _ (readsAs_ofQuestion store Heap.text l o Hl))
    | rewrite bind_projections
    | rewrite Ht
    | progress cbn [ret fst snd] ].
  rewrite (jbind_readsAs store _ _ _ _ (readsAs_ofQuestion store Heap.options l o Hl)).
  cbn [ret fst snd]. unfold holdsOptions in Ho.
  destruct (Heap.options o) as [arr|] eqn:Harr, (options q) as [os|];
    try contradiction; [|reflexivity].
  rewrite (jbind_readsAs store _ _ _ _ (readsAs_ofQuestion store Heap.options l o Hl)).
  cbn [ret fst snd]. rewrite Harr.
  assert (Heap.stringsAt arr store = Some os) as Hat
    by (unfold Heap.stringsAt; rewrite Ho; reflexivity).
  rewrite (jbind_readsAs store _ _ _ _ (readsAs_lengthOf store _ _ Hat)).
  cbn [ret fst snd]. unfold when. destruct (Nat.ltb 0 (length os)); [|reflexivity].
  rewrite (jbind_readsAs store _ _ _ _ (readsAs_local store _)).
  rewrite (jbind_readsAs store _ _ _ _ (readsAs_ofQuestion store Heap.options l o Hl)).
  cbn [ret fst snd]. rewrite Harr.
  rewrite (jbind_readsAs store _ _ _ _
             (readsAs_forEachOf store (Heap.stringsAt arr) _
                (Pdf.addOption pageWidth pageHeight splitTextToSize) os os Hat
                ltac:(apply Forall2_same; intros opt; apply readsAs_local))).
  rewrite !bind_projections. apply readsAs_local.
Qed.

Lemma addSection_reads (store : Heap.Store) (title : string) (l : Heap.loc)
    (qs : list Question) :
  holdsQuestions store l qs ->
  readsAs store (Heap.addSection pageWidth pageHeight splitTextToSize title l)
    (Pdf.addSection pageWidth pageHeight splitTextToSize title qs).
Proof.
  intros Hqs locals.
  destruct (holdsQuestions_length store _ _ Hqs) as (refs & Hat & Hlen).
  unfold Heap.addSection, Pdf.addSection.
  rewrite (jbind_readsAs store _ _ _ _ (readsAs_lengthOf store _ _ Hat)).
  cbn [ret fst snd]. rewrite Hlen. destruct (Nat.eqb (length qs) 0); [reflexivity|].
  repeat first
    [ rewrite (jbind_readsAs store _ _ _ _ (readsAs_local store _))
    | rewrite (jbind_readsAs store _ _ _ _
                 (questions_read store l qs _ _ Hqs (addQuestion_reads store)))
    | rewrite bind_projections
    | progress cbn [ret fst snd] ].
  apply readsAs_local.
Qed.

Lemma addTitle_reads (store : Heap.Store) (l : Heap.loc) (o : Heap.ContentObject)
    (d : GeneratedContent) :
  store !! l = Some (Heap.AContent o) ->
  Heap.isQuestionnaire o = isQuestionnaire d ->
  readsAs store (Heap.addTitle pageWidth pageHeight splitTextToSize l)
    (Pdf.addTitle pageWidth pageHeight splitTextToSize d).
Proof.
  intros Hl Hflag locals. unfold Heap.addTitle, Pdf.addTitle, Pdf.documentTitle.
  repeat first
    [ rewrite (jbind_readsAs store _ _ _ _ (readsAs_local store _))
    | rewrite (jbind_readsAs store _ _ _ _
                 (readsAs_ofContent store Heap.isQuestionnaire l o Hl))
    | rewrite bind_projections
    | rewrite Hflag
    | progress cbn [ret fst snd] ].
  apply readsAs_local.
Qed.

Lemma coreSectionBlocks_reads (store : Heap.Store) (l : Heap.loc)
    (s : CoreQuestionSection) :
  holdsSection store l s ->
  readsAs store (Heap.coreSectionBlocks pageWidth pageHeight splitTextToSize l)
    (Pdf.addSection pageWidth pageHeight splitTextToSize (Pdf.coreTitle s)
       (questions s)).
Proof.
  intros (o & Hl & Ht & Hqs) locals. unfold Heap.coreSectionBlocks, Pdf.coreTitle.
  rewrite (jbind_readsAs store _ _ _ _ (readsAs_ofSection store Heap.topic l o Hl)).
  cbn [ret fst snd].
  rewrite (jbind_readsAs store _ _ _ _ (readsAs_ofSection store Heap.questions l o Hl)).
  cbn [ret fst snd]. rewrite Ht.
  apply (addSection_reads store _ _ _ Hqs).
Qed.

Lemma exportBody_reads (store : Heap.Store) (l : Heap.loc) (d : GeneratedContent) :
  holdsContent store l d ->
  readsAs store (Heap.exportBody pageWidth pageHeight splitTextToSize l)
    (Pdf.exportBody pageWidth pageHeight splitTextToSize d ;; gets (fun pdf => pdf)).
Proof.
  intros (o & secs & Hl & Hopening & Hcore & Hsecs & HfollowUps & Hclosing & Hflag)
    locals.
  unfold Heap.exportBody.
  rewrite (jbind_readsAs store _ _ _ _ (addTitle_reads store l o d Hl Hflag)).
  rewrite (jbind_readsAs store _ _ _ _ (readsAs_ofContent store Heap.opening l o Hl)).
  cbn [ret fst snd].
  rewrite (jbind_readsAs store _ _ _ _ (addSection_reads store _ _ _ Hopening)).
  rewrite (jbind_readsAs store _ _ _ _ (readsAs_ofContent store Heap.core l o Hl)).
  cbn [ret fst snd].
  rewrite (jbind_readsAs store _ _ _ _
             (readsAs_forEachOf store (Heap.referencesAt (Heap.core o)) _
                (fun section =>
                   Pdf.addSection pageWidth pageHeight splitTextToSize
                     (Pdf.coreTitle section) (questions section))
                secs (core d)
                ltac:(unfold Heap.referencesAt; rewrite Hcore; reflexivity)
                ltac:(eapply Forall2_impl; [exact Hsecs|apply coreSectionBlocks_reads]))).
  rewrite (jbind_readsAs store _ _ _ _ (readsAs_ofContent store Heap.followUps l o Hl)).
  cbn [ret fst snd].
  rewrite (jbind_readsAs store _ _ _ _ (addSection_reads store _ _ _ HfollowUps)).
  rewrite (jbind_readsAs store _ _ _ _ (readsAs_ofContent store Heap.closing l o Hl)).
  cbn [ret fst snd].
  rewrite (jbind_readsAs store _ _ _ _ (addSection_reads store _ _ _ Hclosing)).
  unfold Pdf.exportBody. rewrite !bind_projections.
  apply readsAs_local.
Qed.

End Layout.

End HeapFacts.

(** * The properties of the three renderers and of the text edit *)

Section Specification.

Import Qualtrics QualtricsSpec QualtricsFacts.

(** ** The delimited serializer *)

(** The second end-to-end scenario, with a multiple-choice closing block. *)
Example survey_lines :
  generatedLines Samples.survey =
  ["[[Block:Core Questions: Usability]]"; "";
   "MC1. Rate ease of use"; "";
   "Strongly Disagree"; "Disagree"; "Neutral"; "Agree"; "Strongly Agree"; "";
   "TE1. Describe your experience"; "";
   "[[Block:Closing / Wrap-up]]"; "";
   "MC2. Pick all that apply"; "[[MultipleAnswer]]"; ""; "A"; "B"; "C"; ""].
Proof. vm_compute. reflexivity. Qed.

(** C3.  The serializer's output is the numbered rendering of the document.
    Cut at any question that has a type, the lines are those above it, then
    its header line, which reads [MC] (single-choice, Likert and
    multiple-choice) or [TE] (free text), one more than the number of
    questions of that category before it in the document, a full stop, a
    space and its text, then the rest of its lines, the blank line, and the
    lines below it: the numbers of a category start at 1 and go up by
    exactly 1 in emission order.  Cut at a question without a type, the
    lines are those above it and those below it, numbered as if it were not
    there.  The two counters end one past the totals of their categories. *)
Theorem counters_number_emitted_questions :
  forall d : GeneratedContent,
    generatedLines d = numberedLines d
    /\ mcCounter (exec (generateBody d) initialState)
       = (1 + countIn Choice (allQuestions d))%N
    /\ teCounter (exec (generateBody d) initialState)
       = (1 + countIn Free (allQuestions d))%N
    /\ (forall (g1 g2 : list (string * list Question)) (title : string)
               (pre post : list Question) (q : Question),
          groups d = g1 ++ (title, pre ++ q :: post) :: g2 ->
          (forall ty : QuestionType,
             type q = Some ty ->
             exists body,
               generatedLines d
               = linesAbove g1 title pre
                 ++ header (categoryOf ty)
                      (1 + countIn (categoryOf ty) (flat_map snd g1 ++ pre)) (text q)
                    :: body ++ "" :: linesBelow ((flat_map snd g1 ++ pre) ++ [q]) post g2)
          /\ (type q = None ->
                generatedLines d
                = linesAbove g1 title pre ++ linesBelow (flat_map snd g1 ++ pre) post g2)).
Proof.
  intros d. destruct (generateBody_numbered d) as [[Hmc Hte] Hlines].
  split; [exact Hlines|]. split; [exact Hmc|]. split; [exact Hte|].
  intros g1 g2 title pre post q Hg.
  rewrite (lines_around_question d g1 g2 title pre post q Hg).
  unfold numberedQuestion. split.
  - intros ty Hty. rewrite Hty.
    exists (tl (questionBody (1 + countIn (categoryOf ty) (flat_map snd g1 ++ pre)) ty q)).
    f_equal. rewrite <- app_assoc. destruct ty; reflexivity.
  - intros Hty. rewrite Hty. cbn [app]. f_equal. unfold linesBelow.
    rewrite (numberedQuestions_counts post _ (flat_map snd g1 ++ pre))
      by (intros c; apply countIn_untyped; exact Hty).
    rewrite (numberedGroups_counts _ (((flat_map snd g1 ++ pre) ++ [q]) ++ post)
               ((flat_map snd g1 ++ pre) ++ post))
      by (intros c; rewrite (countIn_app c ((flat_map snd g1 ++ pre) ++ [q]) post),
            (countIn_untyped c _ q Hty), <- countIn_app; reflexivity).
    reflexivity.
Qed.

Lemma counters_number_emitted_questions_witness :
  exists body,
    generatedLines Samples.survey
    = ["[[Block:Core Questions: Usability]]"; "";
       "MC1. Rate ease of use"; "";
       "Strongly Disagree"; "Disagree"; "Neutral"; "Agree"; "Strongly Agree"; "";
       "TE1. Describe your experience"; "";
       "[[Block:Closing / Wrap-up]]"; ""]
      ++ "MC2. Pick all that apply" :: body ++ [""].
Proof.
  destruct (counters_number_emitted_questions Samples.survey) as (_ & _ & _ & Hat).
  exact (proj1 (Hat Samples.surveyFirstGroups [] "Closing / Wrap-up" [] []
                  Samples.pickAll eq_refl) MultipleChoice eq_refl).
Defined.

(** C10.  Cut at any of its groups, the lines of a document are those of the
    groups before it, the segment of the group, and the lines of the groups
    after it.  The segment is empty exactly when the question list is
    empty; otherwise it begins with the group's block marker and a blank
    line, and when all the questions of the group lack a type it is these
    two lines and nothing else. *)
Theorem untyped_group_keeps_marker :
  forall (d : GeneratedContent) (g1 g2 : list (string * list Question))
         (title : string) (qs : list Question),
    groups d = g1 ++ (title, qs) :: g2 ->
    exists segment,
      generatedLines d
      = numberedGroups [] (List.filter nonEmpty g1)
        ++ segment
        ++ numberedGroups (flat_map snd g1 ++ qs) (List.filter nonEmpty g2)
      /\ (segment = [] <-> qs = [])
      /\ (qs <> [] ->
            exists body, segment = ("[[Block:" +:+ title +:+ "]]") :: "" :: body)
      /\ (qs <> [] -> Forall untyped qs ->
            segment = [("[[Block:" +:+ title +:+ "]]"); ""]).
Proof.
  intros d g1 g2 title qs Hg.
  exists (numberedGroups (flat_map snd g1) (List.filter nonEmpty [(title, qs)])).
  split; [apply (lines_around_group d g1 g2 title qs Hg)|].
  destruct qs as [|q qs].
  - split; [split; reflexivity|]. split; intros H; contradiction H; reflexivity.
  - change (List.filter nonEmpty [(title, q :: qs)]) with [(title, q :: qs)].
    cbn [numberedGroups]. rewrite app_nil_r. split; [split; discriminate|].
    split; [intros _; eexists; reflexivity|].
    intros _ Hun. rewrite (numberedQuestions_untyped (q :: qs) _ Hun). reflexivity.
Qed.

Lemma untyped_group_keeps_marker_witness :
  generatedLines Samples.interview
  = ["[[Block:Opening / Warm-up Questions]]"; "";
     "[[Block:Core Questions: Pain Points]]"; ""; "TE1. What frustrates you?"; "";
     "[[Block:Closing / Wrap-up]]"; ""].
Proof.
  destruct (untyped_group_keeps_marker Samples.interview []
              [("Core Questions: Pain Points",
                [Samples.question "c1" "What frustrates you?" (Some FreeText) None]);
               ("Follow-ups / Probes", []);
               ("Closing / Wrap-up",
                [Samples.question "z1" "Any final thoughts?" None None])]
              "Opening / Warm-up Questions"
              [Samples.question "o1" "Tell me about yourself." None None] eq_refl)
    as (segment & Hlines & _ & _ & Huntyped).
  rewrite Hlines, Huntyped.
  - reflexivity.
  - discriminate.
  - constructor; [reflexivity|constructor].
Defined.

(** C2, as the code has it.  Cut at any question that has a type, the lines
    of a document are: the lines above the question, the question's own
    lines, exactly one blank line, and the lines below.  Nothing is added
    after the question list of a block: when no question with a type comes
    after it in its group, the line after that blank line is the marker of
    the next group that has questions, or the output ends there. *)
Theorem question_then_one_blank_line :
  forall (d : GeneratedContent) (g1 g2 : list (string * list Question))
         (title : string) (pre post : list Question) (q : Question)
         (ty : QuestionType),
    groups d = g1 ++ (title, pre ++ q :: post) :: g2 ->
    type q = Some ty ->
    let own := questionBody (1 + countIn (categoryOf ty) (flat_map snd g1 ++ pre)) ty q in
    generatedLines d
    = linesAbove g1 title pre ++ own
      ++ "" :: linesBelow ((flat_map snd g1 ++ pre) ++ [q]) post g2
    /\ (Forall untyped post ->
          (List.filter nonEmpty g2 = [] ->
             generatedLines d = linesAbove g1 title pre ++ own ++ [""])
          /\ (forall (title2 : string) (qs2 : list Question)
                     (g3 : list (string * list Question)),
                List.filter nonEmpty g2 = (title2, qs2) :: g3 ->
                exists rest,
                  generatedLines d
                  = linesAbove g1 title pre ++ own
                    ++ "" :: ("[[Block:" +:+ title2 +:+ "]]") :: "" :: rest)).
Proof.
  intros d g1 g2 title pre post q ty Hg Hty. cbv zeta.
  rewrite (lines_around_question d g1 g2 title pre post q Hg).
  unfold numberedQuestion. rewrite Hty. split.
  - rewrite <- !app_assoc. reflexivity.
  - intros Hpost. unfold linesBelow.
    rewrite (numberedQuestions_untyped post _ Hpost). split.
    + intros ->. rewrite <- !app_assoc. reflexivity.
    + intros title2 qs2 g3 ->.
      exists (numberedQuestions (((flat_map snd g1 ++ pre) ++ [q]) ++ post) qs2
              ++ numberedGroups ((((flat_map snd g1 ++ pre) ++ [q]) ++ post) ++ qs2) g3).
      f_equal. rewrite <- app_assoc. reflexivity.
Qed.

Lemma question_then_one_blank_line_witness :
  exists rest,
    generatedLines Samples.survey
    = ["[[Block:Core Questions: Usability]]"; "";
       "MC1. Rate ease of use"; "";
       "Strongly Disagree"; "Disagree"; "Neutral"; "Agree"; "Strongly Agree"; ""]
      ++ ["TE1. Describe your experience"]
      ++ "" :: "[[Block:Closing / Wrap-up]]" :: "" :: rest.
Proof.
  destruct (question_then_one_blank_line Samples.survey
              [("Opening / Warm-up Questions", [])]
              [("Follow-ups / Probes", []);
               ("Closing / Wrap-up", [Samples.pickAll])]
              "Core Questions: Usability"
              [Samples.question "q1" "Rate ease of use" (Some LikertScale)
                 (Some Samples.likert5)]
              []
              (Samples.question "q2" "Describe your experience" (Some FreeText) None)
              FreeText eq_refl eq_refl) as [_ Hnext].
  destruct (Hnext ltac:(constructor)) as [_ Hmarker].
  exact (Hmarker "Closing / Wrap-up" [Samples.pickAll] [] eq_refl).
Defined.

(** C2, as stated, fails: in the sample survey the closing marker is line 12,
    the free-text question before it is line 10, and the single line between
    them is the only blank one. *)
Lemma one_blank_line_before_next_block :
  generatedLines Samples.survey !! 12%nat = Some closingMarker
  /\ generatedLines Samples.survey !! 10%nat = Some "TE1. Describe your experience"
  /\ blankLinesBefore 1 (generatedLines Samples.survey) 12
  /\ ~ blankLinesBefore 2 (generatedLines Samples.survey) 12.
Proof.
  rewrite survey_lines. repeat split.
  - intros k Hk. assert (k = 1%nat) as -> by lia. reflexivity.
  - intros H. specialize (H 2%nat ltac:(lia)). discriminate H.
Qed.

(** C4.  Cut at a multiple-choice question, the lines of a document are the
    lines above it, its [MC] line, the marker line, a blank line, its
    options, the closing blank line and the lines below.  Cut at a
    single-choice or Likert question they are the lines above it, its [MC]
    line, a blank line, its options, the closing blank line and the lines
    below: the line after its [MC] line is the blank one, and the serializer
    puts no marker among its lines. *)
Theorem multipleAnswer_marker_placement :
  forall (d : GeneratedContent) (g1 g2 : list (string * list Question))
         (title : string) (pre post : list Question) (q : Question),
    groups d = g1 ++ (title, pre ++ q :: post) :: g2 ->
    let n := (1 + countIn Choice (flat_map snd g1 ++ pre))%N in
    (type q = Some MultipleChoice ->
       generatedLines d
       = linesAbove g1 title pre
         ++ ("MC" +:+ pretty n +:+ ". " +:+ text q) :: "[[MultipleAnswer]]" :: ""
            :: optionList q
         ++ "" :: linesBelow ((flat_map snd g1 ++ pre) ++ [q]) post g2)
    /\ (type q = Some SingleChoice \/ type q = Some LikertScale ->
          generatedLines d
          = linesAbove g1 title pre
            ++ ("MC" +:+ pretty n +:+ ". " +:+ text q) :: ""
               :: optionList q
            ++ "" :: linesBelow ((flat_map snd g1 ++ pre) ++ [q]) post g2).
Proof.
  intros d g1 g2 title pre post q Hg. cbv zeta.
  rewrite (lines_around_question d g1 g2 title pre post q Hg).
  unfold numberedQuestion. split.
  - intros Hty. rewrite Hty. f_equal. rewrite <- app_assoc. reflexivity.
  - intros [Hty|Hty]; rewrite Hty; f_equal; rewrite <- app_assoc; reflexivity.
Qed.

Lemma multipleAnswer_marker_placement_witness :
  generatedLines Samples.survey
  = ["[[Block:Core Questions: Usability]]"; "";
     "MC1. Rate ease of use"; "";
     "Strongly Disagree"; "Disagree"; "Neutral"; "Agree"; "Strongly Agree"; "";
     "TE1. Describe your experience"; "";
     "[[Block:Closing / Wrap-up]]"; ""]
    ++ "MC2. Pick all that apply" :: "[[MultipleAnswer]]" :: "" :: ["A"; "B"; "C"]
    ++ [""]
  /\ generatedLines Samples.survey
     = ["[[Block:Core Questions: Usability]]"; ""]
       ++ "MC1. Rate ease of use" :: "" :: Samples.likert5
       ++ "" :: ["TE1. Describe your experience"; "";
                 "[[Block:Closing / Wrap-up]]"; "";
                 "MC2. Pick all that apply"; "[[MultipleAnswer]]"; ""; "A"; "B"; "C"; ""].
Proof.
  split.
  - exact (proj1 (multipleAnswer_marker_placement Samples.survey
                    Samples.surveyFirstGroups [] "Closing / Wrap-up" [] []
                    Samples.pickAll eq_refl) eq_refl).
  - exact (proj2 (multipleAnswer_marker_placement Samples.survey
                    [("Opening / Warm-up Questions", [])]
                    [("Follow-ups / Probes", []);
                     ("Closing / Wrap-up", [Samples.pickAll])]
                    "Core Questions: Usability" []
                    [Samples.question "q2" "Describe your experience" (Some FreeText) None]
                    (Samples.question "q1" "Rate ease of use" (Some LikertScale)
                       (Some Samples.likert5))
                    eq_refl) (or_intror eq_refl)).
Defined.

(** ** The three renderers side by side *)

Variables pageWidth pageHeight : Q.
Variable splitTextToSize : Z -> Pdf.FontStyle -> string -> Q -> list string.

(** The first end-to-end scenario: with no follow-ups the outline still has
    the follow-ups heading, over an empty group. *)
Example interview_outline :
  linesOf (PlainText.formatContentAsText (Some Samples.interview)) =
  ["## Opening / Warm-up Questions"; "- Tell me about yourself."; "";
   "## Core Questions: Pain Points"; "- What frustrates you?"; "";
   "## Follow-ups / Probes"; "";
   "## Closing / Wrap-up"; "- Any final thoughts?"; ""].
Proof. vm_compute. reflexivity. Qed.

(** C1, as the code has it.  For a document one of whose groups is empty,
    the delimited lines and the blocks of the PDF are those of the other
    groups: the empty group adds no marker, no heading, nothing.  The
    plain-text renderer has no such test: the heading line of the empty
    group stands in its output between the groups before it and the groups
    after it.  Its output is the outline of all groups, where an empty group
    is its heading line alone, and the follow-ups heading is there whatever
    the follow-ups are. *)
Theorem empty_group_rendering :
  (forall (d : GeneratedContent) (g1 g2 : list (string * list Question))
          (title : string),
      groups d = g1 ++ (title, []) :: g2 ->
      generatedLines d = numberedGroups [] (List.filter nonEmpty (g1 ++ g2))
      /\ (exists doc,
            Pdf.handleExportPDF pageWidth pageHeight splitTextToSize (Some d) = Some doc
            /\ map Pdf.opLines (Pdf.drawn doc)
               = splitTextToSize 18%Z Pdf.Bold (Pdf.documentTitle d)
                   (Pdf.maxLineWidth pageWidth)
                 :: flat_map (PdfSpec.groupBlocks pageWidth splitTextToSize)
                      (List.filter nonEmpty (g1 ++ g2)))
      /\ PlainText.formatContentAsText (Some d)
         = PlainTextSpec.flatten (map (fun g => PlainTextSpec.groupText g +:+ nl) g1)
           +:+ ("## " +:+ title +:+ nl)
           +:+ PlainTextSpec.flatten (map (fun g => nl +:+ PlainTextSpec.groupText g) g2))
  /\ (forall d : GeneratedContent,
        PlainText.formatContentAsText (Some d) = PlainTextSpec.outline d)
  /\ (forall title : string,
        PlainTextSpec.groupText (title, []) = "## " +:+ title +:+ nl)
  /\ (forall d : GeneratedContent,
        exists pre,
          PlainText.formatContentAsText (Some d)
          = pre +:+ PlainText.followUpsHeading
                +:+ PlainTextSpec.flatten (map PlainTextSpec.questionText (followUps d))
                +:+ nl +:+ PlainText.closingHeading
                +:+ PlainTextSpec.flatten (map PlainTextSpec.questionText (closing d))).
Proof.
  split; [|split; [|split]].
  - intros d g1 g2 title Hg. split; [|split].
    + apply (lines_without_group d g1 g2 title Hg).
    + destruct (PdfFacts.handleExportPDF_blocks pageWidth pageHeight splitTextToSize d)
        as (doc & Hdoc & Hblocks).
      exists doc. split; [exact Hdoc|]. rewrite Hblocks.
      apply (PdfFacts.documentBlocks_without_group pageWidth splitTextToSize d g1 g2
               title Hg).
    + apply (PlainTextFacts.outline_around_group d g1 g2 title [] Hg).
  - intros d. apply PlainTextFacts.formatBody_outline.
  - intros title. reflexivity.
  - intros d. unfold PlainText.formatContentAsText, PlainText.formatBody.
    rewrite !exec_seq, !PlainTextFacts.exec_append, !PlainTextFacts.exec_questions.
    exists (exec (forEach PlainText.coreSection (core d))
              ((("" +:+ PlainText.openingHeading)
                +:+ PlainTextSpec.flatten (map PlainTextSpec.questionText (opening d)))
               +:+ nl)).
    rewrite !PlainTextFacts.append_assoc. reflexivity.
Qed.

(** C1, as stated, fails: the interview script has no follow-ups, and its
    outline has the line of the follow-ups heading. *)
Lemma empty_followUps_heading_in_outline :
  followUps Samples.interview = []
  /\ In "## Follow-ups / Probes"
        (linesOf (PlainText.formatContentAsText (Some Samples.interview))).
Proof.
  split; [reflexivity|]. rewrite interview_outline. simpl. tauto.
Qed.

(** C5, as the code has it.  Cut at a free-text question, the delimited
    lines of a document are the lines above it, its [TE] line, the blank
    line, and the lines below, whatever options it carries.  The plain-text
    renderer and the PDF layout do not look at the type: cut at any
    question, the outline is the text above it, its line, one line for each
    of its options, and the text below; the blocks of the PDF are the blocks
    above it, its block, one block for each of its options, and the blocks
    below.  So a free-text question has no option lines there exactly when
    it carries no options. *)
Theorem free_text_rendering :
  forall (d : GeneratedContent) (g1 g2 : list (string * list Question))
         (title : string) (pre post : list Question) (q : Question),
    groups d = g1 ++ (title, pre ++ q :: post) :: g2 ->
    (type q = Some FreeText ->
       generatedLines d
       = linesAbove g1 title pre
         ++ ("TE" +:+ pretty (1 + countIn Free (flat_map snd g1 ++ pre))%N
                  +:+ ". " +:+ text q)
            :: "" :: linesBelow ((flat_map snd g1 ++ pre) ++ [q]) post g2)
    /\ PlainText.formatContentAsText (Some d)
       = PlainTextSpec.textAbove g1 title pre
         +:+ ("- " +:+ text q +:+ nl)
         +:+ PlainTextSpec.flatten
               (map (fun opt => "  - " +:+ opt +:+ nl) (optionList q))
         +:+ PlainTextSpec.textBelow post g2
    /\ (exists doc,
          Pdf.handleExportPDF pageWidth pageHeight splitTextToSize (Some d) = Some doc
          /\ map Pdf.opLines (Pdf.drawn doc)
             = PdfSpec.blocksAbove pageWidth splitTextToSize d g1 title pre
               ++ splitTextToSize 11%Z Pdf.Normal ("- " +:+ text q)
                    (Pdf.maxLineWidth pageWidth - 5)
                  :: map (PdfSpec.optionBlock pageWidth splitTextToSize) (optionList q)
               ++ PdfSpec.blocksBelow pageWidth splitTextToSize post g2).
Proof.
  intros d g1 g2 title pre post q Hg. split; [|split].
  - intros Hty. rewrite (lines_around_question d g1 g2 title pre post q Hg).
    unfold numberedQuestion. rewrite Hty. reflexivity.
  - rewrite (PlainTextFacts.outline_around_question d g1 g2 title pre post q Hg).
    unfold PlainTextSpec.questionText. rewrite !PlainTextFacts.append_assoc. reflexivity.
  - destruct (PdfFacts.handleExportPDF_blocks pageWidth pageHeight splitTextToSize d)
      as (doc & Hdoc & Hblocks).
    exists doc. split; [exact Hdoc|]. rewrite Hblocks.
    rewrite (PdfFacts.documentBlocks_around_question pageWidth splitTextToSize d g1 g2
               title pre post q Hg).
    unfold PdfSpec.questionBlocks. rewrite <- app_comm_cons. reflexivity.
Qed.

(** ** Order *)

(** C6.  Each renderer's output is put together from [groups]: opening, the
    core sections as they come, follow-ups, closing.  The outline is every
    group under its heading, each question followed by its options; the
    delimited lines are the numbered rendering of the non-empty groups, each
    typed question followed by its options; the PDF draws the title and then,
    for each non-empty group, its heading and each question followed by its
    options.  All of these are maps and concatenations over the document's
    lists, so nothing is reordered, repeated or left out. *)
Theorem renderers_preserve_order :
  forall d : GeneratedContent,
    PlainText.formatContentAsText (Some d)
    = String.concat nl (map PlainTextSpec.groupText (groups d))
    /\ generatedLines d = numberedGroups [] (List.filter nonEmpty (groups d))
    /\ generateQualtricsTxt d
       = String.concat nl (numberedGroups [] (List.filter nonEmpty (groups d)))
    /\ exists doc,
         Pdf.handleExportPDF pageWidth pageHeight splitTextToSize (Some d) = Some doc
         /\ map Pdf.opLines (Pdf.drawn doc)
            = splitTextToSize 18%Z Pdf.Bold (Pdf.documentTitle d) (Pdf.maxLineWidth pageWidth)
              :: flat_map (PdfSpec.groupBlocks pageWidth splitTextToSize)
                   (List.filter nonEmpty (groups d)).
Proof.
  intros d. destruct (generateBody_numbered d) as [_ Hlines].
  split; [apply PlainTextFacts.formatBody_outline|].
  split; [exact Hlines|].
  split; [unfold generateQualtricsTxt; rewrite Hlines; reflexivity|].
  eexists. split; [reflexivity|].
  destruct (PdfFacts.exportBody_laidOut pageWidth pageHeight splitTextToSize d
              (Pdf.newDocument)) as (ops & Hd & Hm & _).
  rewrite Hd. exact Hm.
Qed.

(** ** Pagination *)

(** C7.  On a page at least two margins high: [checkPageBreak] either finds
    that the required extent fits and changes nothing, or starts a new page
    and puts the cursor at the top margin; and every block the handler draws
    (title, section heading, question, option) is drawn right after such a
    check for its own extent, so its cursor is never below the bottom margin:
    it is the top margin, or a position where the whole extent fits. *)
Theorem writes_stay_above_bottom_margin :
  (Pdf.margin <= pageHeight - Pdf.margin)%Q ->
  (forall (h : Q) (st : Pdf.LayoutState),
      ((Pdf.y st + h <= PdfSpec.bottom pageHeight)%Q
       /\ exec (Pdf.checkPageBreak pageHeight h) st = st)
      \/ ((PdfSpec.bottom pageHeight < Pdf.y st + h)%Q
          /\ exec (Pdf.checkPageBreak pageHeight h) st
             = {| Pdf.pageCount := S (Pdf.pageCount st);
                  Pdf.fontSize := Pdf.fontSize st;
                  Pdf.fontStyle := Pdf.fontStyle st;
                  Pdf.drawn := Pdf.drawn st;
                  Pdf.y := Pdf.margin |}))
  /\ (forall d : GeneratedContent,
        exists doc,
          Pdf.handleExportPDF pageWidth pageHeight splitTextToSize (Some d) = Some doc
          /\ Forall (PdfSpec.writtenInBounds pageHeight) (Pdf.drawn doc)
          /\ Forall (fun op => (Pdf.opY op <= pageHeight - Pdf.margin)%Q) (Pdf.drawn doc)).
Proof.
  intros Hpage. split.
  - intros h st. apply PdfFacts.exec_checkPageBreak.
  - intros d. eexists. split; [reflexivity|].
    destruct (PdfFacts.exportBody_laidOut pageWidth pageHeight splitTextToSize d
                (Pdf.newDocument)) as (ops & Hd & _ & Hb).
    rewrite Hd. simpl. specialize (Hb Hpage). split; [exact Hb|].
    eapply Forall_impl; [exact Hb|]. intros op [Hy _]. exact Hy.
Qed.

(** ** The text edit *)

(** C8.  For an edit the component can raise, the operation returns a
    document.  In it the group edited is the group of before but for the
    first question of the given id: in its place stands a question with the
    new text and the same id, type and options (or the group is as before
    when no question has the id); every other group is as before; under the
    key of the core sections the section edited keeps its topic and the
    other sections are as before; and the flag is as before. *)
Theorem updateQuestionText_frame :
  forall (section : Edit.ContentKey) (target newText : string)
         (coreIndex : option nat) (d : GeneratedContent),
    EditSpec.validEdit section coreIndex d ->
    exists d',
      Edit.updateQuestionText section target newText coreIndex (Some d)
      = Edit.Returned (Some d')
      /\ EditSpec.editFrame section coreIndex target newText d d'
      /\ isQuestionnaire d' = isQuestionnaire d.
Proof.
  intros section target newText coreIndex d [Hkey Hidx].
  unfold Edit.updateQuestionText. rewrite EditFacts.jsonClone_id.
  pose proof (EditFacts.patchQuestions_replaced target newText) as Hpatch.
  destruct section; try congruence.
  - eexists. split; [destruct coreIndex; reflexivity|]. split; [|reflexivity].
    destruct coreIndex; simpl; repeat split; apply Hpatch.
  - destruct coreIndex as [i|].
    + specialize (Hidx eq_refl i eq_refl).
      destruct (lookup_lt_is_Some_2 _ _ Hidx) as [sec Hsec]. rewrite Hsec.
      destruct (list_elem_of_split_length _ _ _ Hsec) as (pre & post & Hcore & Hi).
      eexists. split; [reflexivity|].
      assert (<[i := Edit.setQuestions
                        (Edit.patchQuestions target newText (questions sec)) sec]> (core d)
              = pre ++ {| topic := topic sec;
                          questions := Edit.patchQuestions target newText (questions sec) |}
                    :: post) as Hins.
      { rewrite Hcore, Hi. replace (length pre) with (length pre + 0)%nat by lia.
        rewrite insert_app_r. reflexivity. }
      split; [|reflexivity].
      simpl. repeat split.
      exists pre, sec, post, (Edit.patchQuestions target newText (questions sec)).
      repeat split; [exact Hcore|symmetry; exact Hi|apply Hpatch|exact Hins].
    + exists d. repeat split; reflexivity.
  - eexists. split; [destruct coreIndex; reflexivity|]. split; [|reflexivity].
    destruct coreIndex; simpl; repeat split; apply Hpatch.
  - eexists. split; [destruct coreIndex; reflexivity|]. split; [|reflexivity].
    destruct coreIndex; simpl; repeat split; apply Hpatch.
Qed.

(** ** Repeated exports *)

(** C9.  Whatever store the document lives in, and wherever in it: each of
    the three renderers returns what it returns for the document as a
    value, and leaves the store exactly as it found it.  So what a renderer
    produces is decided by the document alone (two runs on stores that hold
    equal documents produce the same string, the same lines and the same
    laid-out pages) and no renderer writes to the document it is given. *)
Theorem exports_deterministic_and_read_only :
  forall (store : Heap.Store) (content : option Heap.loc)
         (document : option GeneratedContent),
    HeapSpec.holds store content document ->
    Heap.formatContentAsText content store
    = (Edit.Returned (PlainText.formatContentAsText document), store)
    /\ Heap.handleExportPDF pageWidth pageHeight splitTextToSize content store
       = (Edit.Returned
            (Pdf.handleExportPDF pageWidth pageHeight splitTextToSize document),
          store)
    /\ (forall (l : Heap.loc) (d : GeneratedContent),
          content = Some l -> document = Some d ->
          Heap.generateQualtricsTxt l store
          = (Edit.Returned (generateQualtricsTxt d), store))
    /\ (forall (store' : Heap.Store) (content' : option Heap.loc),
          HeapSpec.holds store' content' document ->
          fst (Heap.formatContentAsText content' store')
          = fst (Heap.formatContentAsText content store)
          /\ fst (Heap.handleExportPDF pageWidth pageHeight splitTextToSize
                    content' store')
             = fst (Heap.handleExportPDF pageWidth pageHeight splitTextToSize
                      content store)
          /\ (forall l l' : Heap.loc,
                content = Some l -> content' = Some l' ->
                fst (Heap.generateQualtricsTxt l' store')
                = fst (Heap.generateQualtricsTxt l store))).
Proof.
  assert (forall store content document,
             HeapSpec.holds store content document ->
             Heap.formatContentAsText content store
             = (Edit.Returned (PlainText.formatContentAsText document), store)) as Htext.
  { intros store [l|] [d|] Hholds; try contradiction; [|reflexivity].
    unfold Heap.formatContentAsText, PlainText.formatContentAsText.
    rewrite (HeapFacts.formatBody_reads store l d Hholds ""), HeapFacts.bind_projections.
    reflexivity. }
  assert (forall store content document,
             HeapSpec.holds store content document ->
             Heap.handleExportPDF pageWidth pageHeight splitTextToSize content store
             = (Edit.Returned
                  (Pdf.handleExportPDF pageWidth pageHeight splitTextToSize document),
                store)) as Hpdf.
  { intros store [l|] [d|] Hholds; try contradiction; [|reflexivity].
    unfold Heap.handleExportPDF, Pdf.handleExportPDF.
    rewrite (HeapFacts.exportBody_reads pageWidth pageHeight splitTextToSize
               store l d Hholds Pdf.newDocument), HeapFacts.bind_projections.
    reflexivity. }
  assert (forall store l d,
             HeapSpec.holdsContent store l d ->
             Heap.generateQualtricsTxt l store
             = (Edit.Returned (generateQualtricsTxt d), store)) as Htxt.
  { intros store l d Hholds.
    unfold Heap.generateQualtricsTxt, generateQualtricsTxt, generatedLines.
    rewrite (HeapFacts.generateBody_reads store l d Hholds initialState),
      HeapFacts.bind_projections.
    reflexivity. }
  intros store content document Hholds.
  split; [apply Htext; exact Hholds|]. split; [apply Hpdf; exact Hholds|].
  split.
  - intros l d -> ->. apply Htxt. exact Hholds.
  - intros store' content' Hholds'.
    rewrite (Htext _ _ _ Hholds), (Htext _ _ _ Hholds').
    rewrite (Hpdf _ _ _ Hholds), (Hpdf _ _ _ Hholds').
    split; [reflexivity|]. split; [reflexivity|].
    intros l l' -> ->. destruct document as [d|]; [|contradiction].
    rewrite (Htxt _ _ _ Hholds), (Htxt _ _ _ Hholds'). reflexivity.
Qed.

End Specification.

(** ** The properties at the sample documents *)

(** The long interview needs a second page: the thirty-fifth question no
    longer fits on the first one and is drawn at the top margin of page 2. *)
Example long_script_breaks_page :
  option_map Pdf.pageCount
    (Pdf.handleExportPDF 210 297 Samples.noWrap (Some Samples.longScript)) = Some 2%nat
  /\ option_map (fun doc => map (fun op => (Pdf.opPage op, Pdf.opY op))
                              (take 2 (drop 35 (Pdf.drawn doc))))
       (Pdf.handleExportPDF 210 297 Samples.noWrap (Some Samples.longScript))
     = Some [(1%nat, 275%Q); (2%nat, Pdf.margin)].
Proof. vm_compute. split; reflexivity. Qed.

Lemma empty_group_rendering_witness :
  Qualtrics.generatedLines Samples.interview
  = ["[[Block:Opening / Warm-up Questions]]"; "";
     "[[Block:Core Questions: Pain Points]]"; ""; "TE1. What frustrates you?"; "";
     "[[Block:Closing / Wrap-up]]"; ""]
  /\ (exists doc,
        Pdf.handleExportPDF 210 297 Samples.noWrap (Some Samples.interview) = Some doc
        /\ map Pdf.opLines (Pdf.drawn doc)
           = [["Generated Script"];
              ["Opening / Warm-up Questions"]; ["- Tell me about yourself."];
              ["Core Questions: Pain Points"]; ["- What frustrates you?"];
              ["Closing / Wrap-up"]; ["- Any final thoughts?"]])
  /\ PlainText.formatContentAsText (Some Samples.interview)
     = ("## Opening / Warm-up Questions" +:+ nl +:+ "- Tell me about yourself." +:+ nl
        +:+ nl
        +:+ "## Core Questions: Pain Points" +:+ nl +:+ "- What frustrates you?" +:+ nl
        +:+ nl)
       +:+ ("## " +:+ "Follow-ups / Probes" +:+ nl)
       +:+ (nl +:+ "## Closing / Wrap-up" +:+ nl +:+ "- Any final thoughts?" +:+ nl).
Proof.
  apply (proj1 (empty_group_rendering 210 297 Samples.noWrap) Samples.interview
           [("Opening / Warm-up Questions",
             [Samples.question "o1" "Tell me about yourself." None None]);
            ("Core Questions: Pain Points",
             [Samples.question "c1" "What frustrates you?" (Some FreeText) None])]
           [("Closing / Wrap-up",
             [Samples.question "z1" "Any final thoughts?" None None])]
           "Follow-ups / Probes").
  reflexivity.
Defined.

Lemma free_text_rendering_witness :
  Qualtrics.generatedLines Samples.freeTextSurvey
  = ["[[Block:Closing / Wrap-up]]"; ""] ++ "TE1. Why?" :: "" :: []
  /\ PlainText.formatContentAsText (Some Samples.freeTextSurvey)
     = ("## Opening / Warm-up Questions" +:+ nl +:+ nl
        +:+ "## Follow-ups / Probes" +:+ nl +:+ nl
        +:+ "## Closing / Wrap-up" +:+ nl)
       +:+ ("- " +:+ "Why?" +:+ nl)
       +:+ ("  - A" +:+ nl +:+ "  - B" +:+ nl)
       +:+ ""
  /\ (exists doc,
        Pdf.handleExportPDF 210 297 Samples.noWrap (Some Samples.freeTextSurvey)
        = Some doc
        /\ map Pdf.opLines (Pdf.drawn doc)
           = [["Generated Questionnaire"]; ["Closing / Wrap-up"]]
             ++ ["- Why?"] :: [["    â€¢ A"]; ["    â€¢ B"]] ++ []).
Proof.
  destruct (free_text_rendering 210 297 Samples.noWrap Samples.freeTextSurvey
              [("Opening / Warm-up Questions", []); ("Follow-ups / Probes", [])] []
              "Closing / Wrap-up" [] [] Samples.freeTextWithOptions eq_refl)
    as (Hlines & Houtline & Hpdf).
  split; [exact (Hlines eq_refl)|]. split; [exact Houtline|exact Hpdf].
Defined.

(** C5, as stated, fails: the free-text question of this questionnaire
    carries two options, and both the outline and the PDF show them under
    the question. *)
Lemma free_text_options_are_rendered :
  type Samples.freeTextWithOptions = Some FreeText
  /\ linesOf (PlainText.formatContentAsText (Some Samples.freeTextSurvey))
     = ["## Opening / Warm-up Questions"; "";
        "## Follow-ups / Probes"; "";
        "## Closing / Wrap-up"; "- Why?"; "  - A"; "  - B"; ""]
  /\ option_map (fun doc => map Pdf.opLines (Pdf.drawn doc))
       (Pdf.handleExportPDF 210 297 Samples.noWrap (Some Samples.freeTextSurvey))
     = Some [["Generated Questionnaire"]; ["Closing / Wrap-up"]; ["- Why?"];
             ["    â€¢ A"]; ["    â€¢ B"]].
Proof. split; [reflexivity|]. vm_compute. split; reflexivity. Qed.

Lemma writes_stay_above_bottom_margin_witness :
  exists doc,
    Pdf.handleExportPDF 210 297 Samples.noWrap (Some Samples.longScript) = Some doc
    /\ Forall (PdfSpec.writtenInBounds 297) (Pdf.drawn doc)
    /\ Forall (fun op => (Pdf.opY op <= 297 - Pdf.margin)%Q) (Pdf.drawn doc).
Proof.
  assert (Pdf.margin <= 297 - Pdf.margin)%Q as Hpage.
  { unfold Qle. simpl. lia. }
  apply (proj2 (writes_stay_above_bottom_margin 210 297 Samples.noWrap Hpage)).
Defined.

Lemma exports_deterministic_and_read_only_witness :
  Heap.formatContentAsText (Some 11%nat) Samples.surveyStore
  = (Edit.Returned (PlainText.formatContentAsText (Some Samples.survey)),
     Samples.surveyStore)
  /\ Heap.handleExportPDF 210 297 Samples.noWrap (Some 11%nat) Samples.surveyStore
     = (Edit.Returned (Pdf.handleExportPDF 210 297 Samples.noWrap (Some Samples.survey)),
        Samples.surveyStore)
  /\ Heap.generateQualtricsTxt 11%nat Samples.surveyStore
     = (Edit.Returned (Qualtrics.generateQualtricsTxt Samples.survey),
        Samples.surveyStore).
Proof.
  assert (HeapSpec.holds Samples.surveyStore (Some 11%nat) (Some Samples.survey))
    as Hholds.
  { eexists. exists [4%nat]. split; [reflexivity|].
    split; [exists []; split; [reflexivity|constructor]|].
    split; [reflexivity|]. split.
    - constructor; [|constructor]. eexists. split; [reflexivity|].
      split; [reflexivity|]. exists [1%nat; 2%nat]. split; [reflexivity|].
      constructor; [|constructor; [|constructor]];
        (eexists; split; [reflexivity|]; repeat split; reflexivity).
    - split; [exists []; split; [reflexivity|constructor]|].
      split; [|reflexivity]. exists [9%nat]. split; [reflexivity|].
      constructor; [|constructor].
      eexists. split; [reflexivity|]. repeat split; reflexivity. }
  destruct (exports_deterministic_and_read_only 210 297 Samples.noWrap
              Samples.surveyStore (Some 11%nat) (Some Samples.survey) Hholds)
    as (Htext & Hpdf & Htxt & _).
  split; [exact Htext|]. split; [exact Hpdf|]. exact (Htxt 11%nat Samples.survey eq_refl eq_refl).
Defined.

Lemma updateQuestionText_frame_witness :
  exists d',
    Edit.updateQuestionText Edit.KeyCore "q2" "Tell us more" (Some 0%nat)
      (Some Samples.survey)
    = Edit.Returned (Some d')
    /\ EditSpec.editFrame Edit.KeyCore (Some 0%nat) "q2" "Tell us more" Samples.survey d'
    /\ isQuestionnaire d' = isQuestionnaire Samples.survey.
Proof.
  apply (updateQuestionText_frame Edit.KeyCore "q2" "Tell us more" (Some 0%nat)
           Samples.survey).
  split.
  - discriminate.
  - intros _ i Hi. injection Hi as <-. simpl. lia.
Defined.

(** The edit of the witness, run. *)
Example edit_second_core_question :
  Edit.updateQuestionText Edit.KeyCore "q2" "Tell us more" (Some 0%nat)
    (Some Samples.survey)
  = Edit.Returned (Some
      {| opening := [];
         core := [ {| topic := "Usability";
                      questions :=
                        [Samples.question "q1" "Rate ease of use" (Some LikertScale)
                           (Some Samples.likert5);
                         Samples.question "q2" "Tell us more" (Some FreeText) None] |} ];
         followUps := [];
         closing := closing Samples.survey;
         isQuestionnaire := Some true |}).
Proof. reflexivity. Qed.

(** * Further properties of the code *)

(** ** The text edit: throws, repeated edits, edits that change nothing *)

Module EditLawsFacts.
Import Edit EditSpec EditLaws EditFacts.

(** Replacing a text leaves the ids alone, so the search finds the same
    index afterwards. *)
Lemma findIndexFrom_alter_setText (target newText : string) (qs : list Question)
    (k : nat) (i : Z) :
  findIndexFrom (fun q => String.eqb (id q) target) i (alter (setText newText) k qs)
  = findIndexFrom (fun q => String.eqb (id q) target) i qs.
Proof.
  revert k i. induction qs as [|q qs IH]; intros k i.
  - reflexivity.
  - destruct k as [|k]; simpl.
    + reflexivity.
    + destruct (String.eqb (id q) target); [reflexivity|]. apply IH.
Qed.

Lemma findIndex_patchQuestions (target other newText : string) (qs : list Question) :
  findIndex (fun q => String.eqb (id q) target) (patchQuestions other newText qs)
  = findIndex (fun q => String.eqb (id q) target) qs.
Proof.
  unfold patchQuestions, findIndex.
  destruct (-1 <? findIndexFrom _ 0 qs)%Z; [|reflexivity].
  apply findIndexFrom_alter_setText.
Qed.

Lemma patchQuestions_twice (target t1 t2 : string) (qs : list Question) :
  patchQuestions target t2 (patchQuestions target t1 qs) = patchQuestions target t2 qs.
Proof.
  unfold patchQuestions at 1. rewrite findIndex_patchQuestions.
  unfold patchQuestions.
  destruct (-1 <? findIndex _ qs)%Z; [|reflexivity].
  rewrite list_alter_alter_eq. reflexivity.
Qed.

(** The index found for an id holds a question of that id. *)
Lemma findIndex_lookup (target : string) (qs : list Question) :
  (-1 < findIndex (fun q => String.eqb (id q) target) qs)%Z ->
  exists q, qs !! Z.to_nat (findIndex (fun q => String.eqb (id q) target) qs) = Some q
            /\ id q = target.
Proof.
  unfold findIndex. intros Hfound.
  destruct (findIndexFrom_spec (fun q => String.eqb (id q) target) qs 0)
    as [[Hnone _]|(pre & q & post & -> & _ & Hq & Hi)].
  - rewrite Hnone in Hfound. lia.
  - exists q. rewrite Hi. split; [|apply String.eqb_eq; exact Hq].
    replace (Z.to_nat (0 + Z.of_nat (length pre))) with (length pre + 0)%nat by lia.
    rewrite lookup_app_r by lia.
    replace (length pre + 0 - length pre)%nat with 0%nat by lia. reflexivity.
Qed.

Lemma patchQuestions_comm (a b ta tb : string) (qs : list Question) :
  a <> b ->
  patchQuestions a ta (patchQuestions b tb qs) = patchQuestions b tb (patchQuestions a ta qs).
Proof.
  intros Hab. unfold patchQuestions at 1 3. rewrite !findIndex_patchQuestions.
  unfold patchQuestions.
  destruct (-1 <? findIndex (fun q => String.eqb (id q) a) qs)%Z eqn:Ha;
    destruct (-1 <? findIndex (fun q => String.eqb (id q) b) qs)%Z eqn:Hb;
    try reflexivity.
  apply Z.ltb_lt in Ha, Hb.
  destruct (findIndex_lookup a qs Ha) as (qa & Hqa & Hida).
  destruct (findIndex_lookup b qs Hb) as (qb & Hqb & Hidb).
  apply list_alter_alter_ne. intros Heq. rewrite Heq in Hqa.
  rewrite Hqa in Hqb. injection Hqb as ->. congruence.
Qed.

Lemma firstWithId_app (target : string) (pre post : list Question) (q : Question) :
  Forall (fun p => String.eqb (id p) target = false) pre ->
  String.eqb (id q) target = true ->
  firstWithId target (pre ++ q :: post) = Some q.
Proof.
  unfold firstWithId. induction 1 as [|p pre Hp _ IH]; intros Hq; simpl.
  - rewrite Hq. reflexivity.
  - rewrite Hp. apply IH. exact Hq.
Qed.

Lemma patchQuestions_same_text (target newText : string) (qs : list Question) :
  (forall q, firstWithId target qs = Some q -> text q = newText) ->
  patchQuestions target newText qs = qs.
Proof.
  intros Hsame. unfold patchQuestions, findIndex.
  destruct (findIndexFrom_spec (fun q => String.eqb (id q) target) qs 0)
    as [[-> _]|(pre & q & post & -> & Hpre & Hq & ->)].
  - reflexivity.
  - assert ((-1 <? 0 + Z.of_nat (length pre))%Z = true) as -> by (apply Z.ltb_lt; lia).
    replace (Z.to_nat (0 + Z.of_nat (length pre))) with (length pre + 0)%nat by lia.
    rewrite alter_app_r. simpl. f_equal. f_equal.
    specialize (Hsame q (firstWithId_app target pre post q Hpre Hq)).
    destruct q as [i t ty os]. simpl in Hsame. subst t. reflexivity.
Qed.

(** The updater on a document, without the copy. *)
Lemma updateQuestionText_Some (section : ContentKey) (target newText : string)
    (coreIndex : option nat) (d : GeneratedContent) :
  updateQuestionText section target newText coreIndex (Some d) =
  match section, coreIndex with
  | KeyCore, Some i =>
      match core d !! i with
      | None => TypeError
      | Some sec =>
          Returned (Some
            {| opening := opening d;
               core := <[i := setQuestions (patchQuestions target newText (questions sec)) sec]>
                         (core d);
               followUps := followUps d;
               closing := closing d;
               isQuestionnaire := isQuestionnaire d |})
      end
  | KeyCore, None => Returned (Some d)
  | KeyOpening, _ =>
      Returned (Some
        {| opening := patchQuestions target newText (opening d);
           core := core d; followUps := followUps d; closing := closing d;
           isQuestionnaire := isQuestionnaire d |})
  | KeyFollowUps, _ =>
      Returned (Some
        {| opening := opening d; core := core d;
           followUps := patchQuestions target newText (followUps d);
           closing := closing d; isQuestionnaire := isQuestionnaire d |})
  | KeyClosing, _ =>
      Returned (Some
        {| opening := opening d; core := core d; followUps := followUps d;
           closing := patchQuestions target newText (closing d);
           isQuestionnaire := isQuestionnaire d |})
  | KeyIsQuestionnaire, _ => TypeError
  end.
Proof. unfold updateQuestionText. rewrite jsonClone_id. reflexivity. Qed.

End EditLawsFacts.

Section EditLawsTheorems.

Import Edit EditSpec EditLaws EditFacts EditLawsFacts.

(** The updater gives back null for null, and on a document it throws exactly
    under the key ['isQuestionnaire'] and under ['core'] with an index that
    is not the index of a section; in every other case it returns a
    document. *)
Theorem updateQuestionText_throws_exactly :
  forall (section : ContentKey) (target newText : string) (coreIndex : option nat)
         (d : GeneratedContent),
    updateQuestionText section target newText coreIndex None = Returned None
    /\ (updateQuestionText section target newText coreIndex (Some d) = TypeError
        <-> section = KeyIsQuestionnaire
            \/ (section = KeyCore
                /\ exists i, coreIndex = Some i /\ (length (core d) <= i)%nat))
    /\ (updateQuestionText section target newText coreIndex (Some d) = TypeError
        \/ exists d', updateQuestionText section target newText coreIndex (Some d)
                      = Returned (Some d')).
Proof.
  intros section target newText coreIndex d. split; [reflexivity|].
  rewrite updateQuestionText_Some.
  destruct section, coreIndex as [i|];
    try (split; [split; [discriminate|intros [H|(H & _)]; discriminate H]
                |right; eexists; reflexivity]).
  - destruct (core d !! i) as [sec|] eqn:Hsec.
    + split; [|right; eexists; reflexivity]. split; [discriminate|].
      intros [H|(_ & j & Hj & Hlen)]; [discriminate H|].
      injection Hj as <-. apply lookup_lt_Some in Hsec. lia.
    + split; [|left; reflexivity]. split; [|reflexivity].
      intros _. right. split; [reflexivity|]. exists i. split; [reflexivity|].
      apply lookup_ge_None. exact Hsec.
  - split; [|right; eexists; reflexivity]. split; [discriminate|].
    intros [H|(_ & j & Hj & _)]; [discriminate H|discriminate Hj].
  - split; [|left; reflexivity]. split; [intros _; left; reflexivity|reflexivity].
  - split; [|left; reflexivity]. split; [intros _; left; reflexivity|reflexivity].
Qed.

(** Of two edits of the same question the later one decides: applying an
    edit and then another with the same key, index and id gives what the
    second alone gives; in particular an edit applied twice is the edit
    applied once. *)
Theorem updateQuestionText_last_write_wins :
  forall (section : ContentKey) (target t1 t2 : string) (coreIndex : option nat)
         (prev : option GeneratedContent),
    andThen (updateQuestionText section target t1 coreIndex prev)
            (updateQuestionText section target t2 coreIndex)
    = updateQuestionText section target t2 coreIndex prev.
Proof.
  intros section target t1 t2 coreIndex [d|]; [|reflexivity].
  rewrite (updateQuestionText_Some section target t1).
  destruct section, coreIndex as [i|]; unfold andThen; cbv beta iota;
    rewrite ?updateQuestionText_Some; simpl;
    rewrite ?patchQuestions_twice; try reflexivity.
  destruct (core d !! i) as [sec|] eqn:Hsec; [|reflexivity].
  rewrite !updateQuestionText_Some. simpl.
  rewrite list_lookup_insert_eq by (eapply lookup_lt_Some; exact Hsec).
  rewrite list_insert_insert_eq. unfold setQuestions. simpl.
  rewrite patchQuestions_twice. reflexivity.
Qed.

(** An edit that has nothing to change returns an equal document: that is so
    when no question of the list searched has the id, and when the first
    one that has it already reads [newText]. *)
Theorem updateQuestionText_nothing_to_change :
  forall (section : ContentKey) (target newText : string) (coreIndex : option nat)
         (d : GeneratedContent) (qs : list Question),
    addressed section coreIndex d = Some qs ->
    (forall q, firstWithId target qs = Some q -> text q = newText) ->
    updateQuestionText section target newText coreIndex (Some d) = Returned (Some d).
Proof.
  intros section target newText coreIndex d qs Haddr Hsame.
  rewrite updateQuestionText_Some.
  destruct section, coreIndex as [i|]; simpl in Haddr; try discriminate Haddr;
    try (injection Haddr as <-; rewrite (patchQuestions_same_text _ _ _ Hsame);
         destruct d; reflexivity).
  destruct (core d !! i) as [sec|] eqn:Hsec; [|discriminate Haddr].
  simpl in Haddr. injection Haddr as <-.
  rewrite (patchQuestions_same_text _ _ _ Hsame).
  assert (setQuestions (questions sec) sec = sec) as -> by (destruct sec; reflexivity).
  rewrite list_insert_id by exact Hsec. destruct d; reflexivity.
Qed.

(** Edits of questions with different ids can be applied in either order,
    whatever groups they address: the two orders return the same document,
    or both throw. *)
Theorem updateQuestionText_distinct_ids_commute :
  forall (s1 s2 : ContentKey) (a b ta tb : string) (c1 c2 : option nat)
         (prev : option GeneratedContent),
    a <> b ->
    andThen (updateQuestionText s1 a ta c1 prev) (updateQuestionText s2 b tb c2)
    = andThen (updateQuestionText s2 b tb c2 prev) (updateQuestionText s1 a ta c1).
Proof.
  intros s1 s2 a b ta tb c1 c2 [d|] Hab.
  - rewrite (updateQuestionText_Some s1), (updateQuestionText_Some s2).
    destruct s1, s2, c1 as [i|], c2 as [j|]; unfold andThen; cbv beta iota;
      repeat match goal with
             | |- context [core d !! ?k] => destruct (core d !! k) eqn:?
             end;
      rewrite ?updateQuestionText_Some; simpl;
      repeat match goal with
             | H : core d !! ?k = _ |- _ => rewrite ?H
             end;
      try reflexivity;
      try (rewrite (patchQuestions_comm a b) by exact Hab; reflexivity).
    all: try (match goal with
              | H : ?l !! ?k = None |- context [<[?n := ?x]> ?l !! ?k] =>
                  rewrite (proj2 (list_lookup_insert_None l n x k) H)
              end; reflexivity).
    match goal with
    | Hi : ?l !! ?n = Some ?ci, Hj : ?l !! ?k = Some ?cj
      |- context [<[?n := _]> ?l !! ?k] =>
        destruct (decide (i = j)) as [<-|Hne];
          [ rewrite Hi in Hj; injection Hj as <-;
            rewrite !list_lookup_insert_eq by (eapply lookup_lt_Some; exact Hi);
            rewrite !list_insert_insert_eq; unfold setQuestions; simpl;
            rewrite (patchQuestions_comm a b) by exact Hab; reflexivity
          | rewrite (list_lookup_insert_ne (core d) i j) by exact Hne;
            rewrite (list_lookup_insert_ne (core d) j i) by (intros E; apply Hne; symmetry; exact E);
            rewrite Hi, Hj;
            rewrite (list_insert_insert_ne (core d) j i)
              by (intros E; apply Hne; symmetry; exact E);
            reflexivity ]
    end.
  - destruct s1, s2, c1, c2; reflexivity.
Qed.

End EditLawsTheorems.

(** ** The delimited output from end to end *)

Section QualtricsShape.

Import Qualtrics QualtricsSpec QualtricsFacts.





End QualtricsShape.

(** ** What no export depends on *)

Section RelabelFacts.

Import Relabel.

Variables pageWidth pageHeight : Q.
Variable splitTextToSize : Z -> Pdf.FontStyle -> string -> Q -> list string.

Lemma forEach_map_same {St A} (f : A -> State St unit) (g : A -> A) (l : list A) :
  (forall x, f (g x) = f x) -> forEach f (map g l) = forEach f l.
Proof.
  intros H. induction l as [|x l IH]; simpl; [reflexivity|].
  rewrite H, IH. reflexivity.
Qed.

(** No export shows the ids, and none depends on them.  The outline and the
    PDF do not depend on the types either, the outline and the delimited
    text not on the questionnaire flag; the PDF reads the flag for its
    title only. *)
Theorem exports_ignore_ids :
  forall (newId : Question -> string) (newType : Question -> option QuestionType)
         (flag : option bool) (d : GeneratedContent),
    PlainText.formatContentAsText (Some (remark newId newType flag d))
    = PlainText.formatContentAsText (Some d)
    /\ Qualtrics.generateQualtricsTxt (remark newId type flag d)
       = Qualtrics.generateQualtricsTxt d
    /\ Pdf.handleExportPDF pageWidth pageHeight splitTextToSize
         (Some (remark newId newType (isQuestionnaire d) d))
       = Pdf.handleExportPDF pageWidth pageHeight splitTextToSize (Some d).
Proof.
  intros newId newType flag d. split; [|split].
  - unfold PlainText.formatContentAsText, PlainText.formatBody, remark. simpl.
    rewrite !(forEach_map_same PlainText.questionLines) by reflexivity.
    rewrite (forEach_map_same PlainText.coreSection); [reflexivity|].
    intros s. unfold PlainText.coreSection, remarkSection. simpl.
    rewrite (forEach_map_same PlainText.questionLines) by reflexivity. reflexivity.
  - unfold Qualtrics.generateQualtricsTxt, Qualtrics.generatedLines,
      Qualtrics.generateBody, Qualtrics.block, Qualtrics.processQuestions, remark.
    simpl. rewrite !length_map.
    rewrite !(forEach_map_same Qualtrics.processQuestion) by reflexivity.
    rewrite (forEach_map_same Qualtrics.coreBlock); [reflexivity|].
    intros s. unfold Qualtrics.coreBlock, Qualtrics.block, Qualtrics.processQuestions,
      remarkSection. simpl. rewrite length_map.
    rewrite (forEach_map_same Qualtrics.processQuestion) by reflexivity. reflexivity.
  - unfold Pdf.handleExportPDF, Pdf.exportBody, Pdf.addSection, Pdf.addTitle,
      Pdf.documentTitle, remark. simpl. rewrite !length_map.
    rewrite !(forEach_map_same (Pdf.addQuestion pageWidth pageHeight splitTextToSize))
      by reflexivity.
    rewrite (forEach_map_same
               (fun section =>
                  Pdf.addSection pageWidth pageHeight splitTextToSize
                    (Pdf.coreTitle section) (questions section))); [reflexivity|].
    intros s. unfold Pdf.addSection, remarkSection, Pdf.coreTitle. simpl.
    rewrite length_map.
    rewrite (forEach_map_same (Pdf.addQuestion pageWidth pageHeight splitTextToSize))
      by reflexivity.
    reflexivity.
Qed.

End RelabelFacts.

(** ** The layout in reading order *)

Module PdfOrderFacts.
Import Pdf PdfOrder.

Lemma settled_pending (st : LayoutState) : settled st -> pending st.
Proof.
  intros (Hp & Ho & Hb & Ht). repeat split; try assumption.
  intros p Hrange. left. apply Ht. exact Hrange.
Qed.

Lemma inReadingOrder_snoc (ops : list TextOp) (x : TextOp) :
  inReadingOrder ops ->
  Forall (fun a => notAfter (opPage a) (opY a) (opPage x) (opY x)) ops ->
  inReadingOrder (ops ++ [x]).
Proof.
  intros Hord Hall i j a b Hij Ha Hb.
  assert (j < length (ops ++ [x]))%nat as Hj by (eapply lookup_lt_Some; exact Hb).
  rewrite length_app in Hj. simpl in Hj.
  rewrite lookup_app_l in Ha by lia.
  destruct (decide (j < length ops)%nat) as [Hlt|Hge].
  - rewrite lookup_app_l in Hb by exact Hlt. exact (Hord i j a b Hij Ha Hb).
  - rewrite lookup_app_r in Hb by lia.
    replace (j - length ops)%nat with 0%nat in Hb by lia.
    simpl in Hb. injection Hb as <-.
    rewrite Forall_forall in Hall. apply Hall.
    eapply list_elem_of_lookup_2. exact Ha.
Qed.

Lemma startsAtTop_snoc (ops : list TextOp) (x : TextOp) (p : nat) :
  startsAtTop ops p -> startsAtTop (ops ++ [x]) p.
Proof.
  intros (op & Hin & Hpage & Hy). exists op. split; [|split; assumption].
  apply in_or_app. left. exact Hin.
Qed.

Section Order.

Variables pageWidth pageHeight : Q.
Variable splitTextToSize : Z -> FontStyle -> string -> Q -> list string.

Local Abbreviation checkPageBreak := (checkPageBreak pageHeight).
Local Abbreviation addOption := (addOption pageWidth pageHeight splitTextToSize).
Local Abbreviation addQuestion := (addQuestion pageWidth pageHeight splitTextToSize).
Local Abbreviation addSection := (addSection pageWidth pageHeight splitTextToSize).
Local Abbreviation addTitle := (addTitle pageWidth pageHeight splitTextToSize).
Local Abbreviation exportBody := (exportBody pageWidth pageHeight splitTextToSize).

(** The check either leaves the state as it is or opens a page with the
    cursor at its top margin. *)
Lemma checkPageBreak_pending (h : Q) (st : LayoutState) :
  settled st -> pending (exec (checkPageBreak h) st).
Proof.
  intros Hst.
  destruct (PdfFacts.exec_checkPageBreak pageHeight h st) as [[_ ->]|[_ ->]].
  - apply settled_pending. exact Hst.
  - destruct Hst as (Hp & Ho & Hb & Ht). unfold pending. cbn [pageCount drawn y].
    split; [lia|]. split; [exact Ho|]. split.
    + unfold behindCursor in *. cbn [pageCount drawn y].
      eapply Forall_impl; [exact Hb|]. intros op [H1 Hna]. split; [exact H1|].
      left. destruct Hna as [Hlt|[Heq _]]; lia.
    + intros p Hrange. destruct (decide (p = S (pageCount st))) as [->|Hne].
      * right. split; reflexivity.
      * left. apply Ht. lia.
Qed.

(** The block drawn after the check settles the page. *)
Lemma drawText_settled (ls : list string) (x : Q) (al : Align) (st : LayoutState) :
  pending st -> settled (exec (drawText ls x al) st).
Proof.
  intros (Hp & Ho & Hb & Ht). unfold drawText. rewrite exec_modify. unfold settled.
  cbn [pageCount drawn y]. split; [exact Hp|]. split; [|split].
  - apply inReadingOrder_snoc; [exact Ho|]. cbn [opPage opY].
    eapply Forall_impl; [exact Hb|]. intros op [_ Hna]. exact Hna.
  - unfold behindCursor in *. cbn [pageCount drawn y]. apply Forall_app. split.
    + exact Hb.
    + constructor; [|constructor]. cbn [opPage opY]. split; [exact Hp|].
      right. split; [reflexivity|apply Qle_refl].
  - intros p Hrange. destruct (Ht p Hrange) as [Htop|[-> Hy]].
    + apply startsAtTop_snoc. exact Htop.
    + eexists. split; [apply in_or_app; right; left; reflexivity|].
      cbn [opPage opY]. split; [reflexivity|exact Hy].
Qed.

Lemma advance_settled (h : Q) (st : LayoutState) :
  (0 <= h)%Q -> settled st -> settled (exec (advance h) st).
Proof.
  intros Hh (Hp & Ho & Hb & Ht). unfold advance. rewrite exec_modify. unfold settled.
  cbn [pageCount drawn y]. repeat split; try assumption.
  unfold behindCursor in *. cbn [pageCount drawn y].
  eapply Forall_impl; [exact Hb|]. intros op [H1 Hna]. split; [exact H1|].
  destruct Hna as [Hlt|[Heq Hle]]; [left; exact Hlt|right]. split; [exact Heq|lra].
Qed.

Lemma setFontSize_settled (n : Z) (st : LayoutState) :
  settled st -> settled (exec (setFontSize n) st).
Proof. intros H. exact H. Qed.

Lemma setFont_settled (s : FontStyle) (st : LayoutState) :
  settled st -> settled (exec (setFont s) st).
Proof. intros H. exact H. Qed.

Lemma forEach_settled {A} (f : A -> State LayoutState unit) (l : list A) (st : LayoutState) :
  (forall x st', settled st' -> settled (exec (f x) st')) ->
  settled st -> settled (exec (forEach f l) st).
Proof.
  intros Hf. revert st. induction l as [|x l IH]; intros st Hst.
  - exact Hst.
  - rewrite exec_forEach_cons. apply IH, Hf, Hst.
Qed.

Lemma addOption_settled (opt : string) (st : LayoutState) :
  settled st -> settled (exec (addOption opt) st).
Proof.
  intros Hst. unfold Pdf.addOption, splitText. rewrite exec_gets, !exec_seq.
  apply advance_settled; [pose proof (PdfFacts.len_nonneg
    (splitTextToSize (fontSize st) (fontStyle st) ("    â€¢ " +:+ opt)
       (maxLineWidth pageWidth - 10))); lra|].
  apply drawText_settled, checkPageBreak_pending, Hst.
Qed.

Lemma addQuestion_settled (q : Question) (st : LayoutState) :
  settled st -> settled (exec (addQuestion q) st).
Proof.
  intros Hst. unfold Pdf.addQuestion, splitText.
  rewrite !exec_seq, exec_gets, !exec_seq.
  set (st0 := exec (setFont Normal) (exec (setFontSize 11) st)).
  set (ls := splitTextToSize (fontSize st0) (fontStyle st0) _ _).
  assert (settled (exec (advance (len ls * 5 + 2))
                     (exec (drawText ls (margin + 2) AlignLeft)
                        (exec (checkPageBreak (len ls * 5 + 2)) st0)))) as Hq.
  { apply advance_settled; [pose proof (PdfFacts.len_nonneg ls); lra|].
    apply drawText_settled, checkPageBreak_pending. exact Hst. }
  destruct (options q) as [opts|]; [|exact Hq].
  rewrite exec_when. destruct (Nat.ltb 0 (length opts)); [|exact Hq].
  rewrite !exec_seq. apply advance_settled; [lra|].
  apply forEach_settled; [intros; apply addOption_settled; assumption|].
  exact Hq.
Qed.

Lemma addSection_settled (title : string) (qs : list Question) (st : LayoutState) :
  settled st -> settled (exec (addSection title qs) st).
Proof.
  intros Hst. unfold Pdf.addSection, splitText.
  destruct (Nat.eqb (length qs) 0); [exact Hst|].
  rewrite !exec_seq, exec_gets, !exec_seq.
  set (st0 := exec (setFont Bold) (exec (setFontSize 14) st)).
  set (ls := splitTextToSize (fontSize st0) (fontStyle st0) _ _).
  apply advance_settled; [lra|].
  apply forEach_settled; [intros; apply addQuestion_settled; assumption|].
  apply advance_settled; [pose proof (PdfFacts.len_nonneg ls); lra|].
  apply drawText_settled, checkPageBreak_pending. exact Hst.
Qed.

Lemma addTitle_settled (d : GeneratedContent) (st : LayoutState) :
  settled st -> settled (exec (addTitle d) st).
Proof.
  intros Hst. unfold Pdf.addTitle, splitText.
  rewrite !exec_seq, exec_gets, !exec_seq.
  set (st0 := exec (setFont Bold) (exec (setFontSize 18) st)).
  set (ls := splitTextToSize (fontSize st0) (fontStyle st0) _ _).
  apply advance_settled; [pose proof (PdfFacts.len_nonneg ls); lra|].
  apply drawText_settled, checkPageBreak_pending. exact Hst.
Qed.

Lemma newDocument_settled : settled newDocument.
Proof.
  unfold settled, newDocument. cbn [pageCount drawn y].
  split; [lia|]. split; [|split].
  - intros i j a b _ Ha. rewrite lookup_nil in Ha. discriminate Ha.
  - constructor.
  - intros p Hrange. lia.
Qed.

Lemma exportBody_settled (d : GeneratedContent) :
  settled (exec (exportBody d) newDocument).
Proof.
  unfold Pdf.exportBody. rewrite !exec_seq.
  repeat first
    [ apply addSection_settled
    | apply forEach_settled; [intros; apply addSection_settled; assumption|] ].
  apply addTitle_settled, newDocument_settled.
Qed.

End Order.

End PdfOrderFacts.

Section PdfOrderTheorems.

Import Pdf PdfOrder PdfOrderFacts.

Variables pageWidth pageHeight : Q.
Variable splitTextToSize : Z -> FontStyle -> string -> Q -> list string.

(** The blocks of the PDF are drawn in reading order: of two calls of
    [pdf.text] the earlier one is on an earlier page, or on the same page
    and not further down; and every block is on one of the pages of the
    document, which has at least one page. *)
Theorem pdf_blocks_in_reading_order :
  forall d : GeneratedContent,
    exists doc,
      handleExportPDF pageWidth pageHeight splitTextToSize (Some d) = Some doc
      /\ inReadingOrder (drawn doc)
      /\ Forall (fun op => (1 <= opPage op <= pageCount doc)%nat) (drawn doc).
Proof.
  intros d. eexists. split; [reflexivity|].
  destruct (exportBody_settled pageWidth pageHeight splitTextToSize d)
    as (Hp & Ho & Hb & _).
  split; [exact Ho|].
  eapply Forall_impl; [exact Hb|]. intros op [H1 [Hlt|[Heq _]]]; lia.
Qed.

(** A page is only ever added for a block that is drawn on it at once:
    every page of the PDF after the first has a block at its top margin. *)
Theorem pdf_later_pages_start_at_top_margin :
  forall (d : GeneratedContent) (p : nat),
    exists doc,
      handleExportPDF pageWidth pageHeight splitTextToSize (Some d) = Some doc
      /\ ((2 <= p <= pageCount doc)%nat -> startsAtTop (drawn doc) p).
Proof.
  intros d p. eexists. split; [reflexivity|].
  destruct (exportBody_settled pageWidth pageHeight splitTextToSize d)
    as (_ & _ & _ & Ht).
  apply Ht.
Qed.

End PdfOrderTheorems.

(** ** The generation service: what it throws and what it returns *)

Module GeminiFacts.
Import Gemini.

Section Facts.

Variable Num : Type.
Variable numberTruthy : Num -> bool.
Variable trim : string -> string.
Variable jsonParse : string -> string + Json Num.
Variable generateContent : Request -> Thrown + Response.
Variable undefinedTrimMessage : string.
Variable nullPropertyMessage : string.

Local Abbreviation readResponse :=
  (readResponse Num numberTruthy trim jsonParse undefinedTrimMessage nullPropertyMessage).
Local Abbreviation attempt :=
  (attempt Num numberTruthy trim jsonParse generateContent undefinedTrimMessage
     nullPropertyMessage).
Local Abbreviation truthy := (truthy Num numberTruthy).

Lemma rethrow_two_messages (failed : string) (error : Thrown) :
  rethrow failed error = ErrorObject apiKeyMessage
  \/ rethrow failed error = ErrorObject failed.
Proof.
  destruct error as [message|]; simpl; [|right; reflexivity].
  destruct (includes message "API_KEY"); [left|right]; reflexivity.
Qed.

Lemma ownProperty_setProperty (key : string) (v : Json Num)
    (fields : list (string * Json Num)) :
  ownProperty Num key (setProperty Num key v fields) = Some v.
Proof.
  induction fields as [|[k old] fields IH]; simpl.
  - rewrite String.eqb_refl. reflexivity.
  - destruct (String.eqb k key) eqn:Hk; simpl; rewrite Hk; [reflexivity|exact IH].
Qed.

Lemma ownProperty_setProperty_other (key other : string) (v : Json Num)
    (fields : list (string * Json Num)) :
  other <> key ->
  ownProperty Num other (setProperty Num key v fields) = ownProperty Num other fields.
Proof.
  intros Hne. induction fields as [|[k old] fields IH]; simpl.
  - destruct (String.eqb key other) eqn:Hk; [|reflexivity].
    apply String.eqb_eq in Hk. congruence.
  - destruct (String.eqb k key) eqn:Hk; simpl.
    + apply String.eqb_eq in Hk. subst k.
      destruct (String.eqb key other) eqn:Hko; [|reflexivity].
      apply String.eqb_eq in Hko. congruence.
    + destruct (String.eqb k other); [reflexivity|exact IH].
Qed.

(** What [readResponse] returns is the parsed object, with the flag set for
    a questionnaire, and it has the four groups. *)
Lemma readResponse_returns (malformed : string) (isQ : bool) (response : Response)
    (v : Json Num) :
  readResponse malformed isQ response = inr v ->
  exists t fields,
    responseText response = Some t
    /\ jsonParse (trim t) = inr (JObject fields)
    /\ truthy (ownProperty Num "opening" fields) = true
    /\ truthy (ownProperty Num "core" fields) = true
    /\ truthy (ownProperty Num "followUps" fields) = true
    /\ truthy (ownProperty Num "closing" fields) = true
    /\ v = if isQ then JObject (setProperty Num "isQuestionnaire" (JBool true) fields)
           else JObject fields.
Proof.
  unfold Gemini.readResponse. destruct (responseText response) as [t|]; [|discriminate].
  destruct (jsonParse (trim t)) as [msg|parsed] eqn:Hparse; [discriminate|].
  destruct parsed as [| | | | |fields]; try discriminate.
  destruct (truthy (ownProperty Num "opening" fields)) eqn:H1; [|discriminate].
  destruct (truthy (ownProperty Num "core" fields)) eqn:H2; [|discriminate].
  destruct (truthy (ownProperty Num "followUps" fields)) eqn:H3; [|discriminate].
  destruct (truthy (ownProperty Num "closing" fields)) eqn:H4; [|discriminate].
  simpl. intros Hv. exists t, fields.
  repeat split; try assumption; try reflexivity.
  destruct isQ; injection Hv as <-; reflexivity.
Qed.

Lemma attempt_throws (malformed failed : string) (isQ : bool) (req : Request)
    (e : Thrown) :
  attempt malformed failed isQ req = inl e ->
  e = ErrorObject apiKeyMessage \/ e = ErrorObject failed.
Proof.
  unfold Gemini.attempt.
  destruct (generateContent req) as [err|response].
  - intros [= <-]. apply rethrow_two_messages.
  - destruct (readResponse malformed isQ response) as [err|v]; [|discriminate].
    intros [= <-]. apply rethrow_two_messages.
Qed.

Lemma attempt_returns (malformed failed : string) (isQ : bool) (req : Request)
    (v : Json Num) :
  attempt malformed failed isQ req = inr v ->
  exists response,
    generateContent req = inr response
    /\ readResponse malformed isQ response = inr v.
Proof.
  unfold Gemini.attempt.
  destruct (generateContent req) as [err|response]; [discriminate|].
  destruct (readResponse malformed isQ response) as [err|v'] eqn:Hread; [discriminate|].
  intros [= <-]. exists response. split; [reflexivity|exact Hread].
Qed.

(** A parsed object that lacks one of the four groups is answered with the
    general failure message: the message of the error thrown for it does not
    mention the API key. *)
Lemma attempt_malformed (malformed failed : string) (isQ : bool) (req : Request)
    (t : string) (fields : list (string * Json Num)) :
  includes malformed "API_KEY" = false ->
  generateContent req = inr {| responseText := Some t |} ->
  jsonParse (trim t) = inr (JObject fields) ->
  truthy (ownProperty Num "opening" fields)
  && truthy (ownProperty Num "core" fields)
  && truthy (ownProperty Num "followUps" fields)
  && truthy (ownProperty Num "closing" fields) = false ->
  attempt malformed failed isQ req = inl (ErrorObject failed).
Proof.
  intros Hmsg Hreq Hparse Hmissing. unfold Gemini.attempt, Gemini.readResponse.
  rewrite Hreq. simpl responseText. cbv iota. rewrite Hparse.
  destruct (truthy (ownProperty Num "opening" fields));
    destruct (truthy (ownProperty Num "core" fields));
    destruct (truthy (ownProperty Num "followUps" fields));
    destruct (truthy (ownProperty Num "closing" fields));
    try discriminate Hmissing; simpl; rewrite Hmsg; reflexivity.
Qed.

End Facts.

(** The contents of a request: the prompt as a plain string without images,
    and with images the prompt as the first part, followed by one
    inline-data part for each image of the form, in the order of the form. *)
Lemma requestContents_images :
  forall (promptText : string) (formData : Form.FormData),
    requestContents promptText formData
    = match Form.productImages formData with
      | [] => Prompt promptText
      | images =>
          Parts (TextPart promptText
                 :: map (fun image => InlineData (Form.mimeType image) (Form.data image))
                        images)
      end.
Proof.
  intros promptText formData. unfold requestContents, buildParts.
  assert (forall images parts,
            exec (forEach (fun image =>
                             pushPart (InlineData (Form.mimeType image) (Form.data image)))
                          images) parts
            = parts ++ map (fun image => InlineData (Form.mimeType image) (Form.data image))
                           images) as Hloop.
  { induction images as [|image images IH]; intros parts.
    - simpl. rewrite exec_ret, app_nil_r. reflexivity.
    - rewrite exec_forEach_cons, IH. unfold pushPart. rewrite exec_modify.
      rewrite <- app_assoc. reflexivity. }
  destruct (Form.productImages formData) as [|image images].
  - reflexivity.
  - cbv zeta. rewrite !exec_when.
    change (Nat.ltb 0 (length (image :: images))) with true. cbv iota.
    rewrite !Hloop. reflexivity.
Qed.

End GeminiFacts.

Section GeminiTheorems.

Import Gemini GeminiFacts.

Variable Num : Type.
Variable numberTruthy : Num -> bool.
Variable trim : string -> string.
Variable toLowerCase : string -> string.
Variable jsonParse : string -> string + Json Num.
Variable stringify : GeneratedContent -> string.
Variable generateContent : Request -> Thrown + Response.
Variable undefinedTrimMessage : string.
Variable nullPropertyMessage : string.

Local Abbreviation generateQuestionnaire :=
  (generateQuestionnaire Num numberTruthy trim toLowerCase jsonParse generateContent
     undefinedTrimMessage nullPropertyMessage).
Local Abbreviation refineQuestionnaire :=
  (refineQuestionnaire Num numberTruthy trim toLowerCase jsonParse stringify
     generateContent undefinedTrimMessage nullPropertyMessage).
Local Abbreviation truthy := (truthy Num numberTruthy).

(** Whatever goes wrong in a generation or a refinement (the request, the
    text of the response, the parsing, a missing group), the caller gets an
    [Error] with one of two fixed messages: the one about the API key, or
    the general one of the operation.  The message thrown for a malformed
    response is never the one the caller gets. *)
Theorem service_throws_one_of_two_messages :
  forall (formData : Form.FormData) (currentContent : GeneratedContent)
         (refinementPrompt : string) (e : Thrown),
    (generateQuestionnaire formData = inl e ->
       (e = ErrorObject apiKeyMessage \/ e = ErrorObject generationFailedMessage)
       /\ e <> ErrorObject malformedMessage)
    /\ (refineQuestionnaire formData currentContent refinementPrompt = inl e ->
          (e = ErrorObject apiKeyMessage \/ e = ErrorObject refinementFailedMessage)
          /\ e <> ErrorObject malformedRefinementMessage).
Proof.
  intros formData currentContent refinementPrompt e. split.
  - unfold Gemini.generateQuestionnaire. cbv zeta. intros H.
    apply attempt_throws in H. split; [exact H|].
    destruct H as [-> | ->]; discriminate.
  - unfold Gemini.refineQuestionnaire. cbv zeta. intros H.
    apply attempt_throws in H. split; [exact H|].
    destruct H as [-> | ->]; discriminate.
Qed.

(** When the model answers with a JSON object that lacks one of the four
    groups (or has it null, false, zero or the empty string), the generation
    and the refinement fail with the general message of the operation, the
    same as for an unreachable model. *)
Theorem service_reports_malformed_as_general_failure :
  forall (formData : Form.FormData) (currentContent : GeneratedContent)
         (refinementPrompt t : string) (fields : list (string * Json Num)),
    (forall req, generateContent req = inr {| responseText := Some t |}) ->
    jsonParse (trim t) = inr (JObject fields) ->
    truthy (ownProperty Num "opening" fields)
    && truthy (ownProperty Num "core" fields)
    && truthy (ownProperty Num "followUps" fields)
    && truthy (ownProperty Num "closing" fields) = false ->
    generateQuestionnaire formData = inl (ErrorObject generationFailedMessage)
    /\ refineQuestionnaire formData currentContent refinementPrompt
       = inl (ErrorObject refinementFailedMessage).
Proof.
  intros formData currentContent refinementPrompt t fields Hreq Hparse Hmissing. split.
  - unfold Gemini.generateQuestionnaire. cbv zeta.
    eapply attempt_malformed; [reflexivity|apply Hreq|exact Hparse|exact Hmissing].
  - unfold Gemini.refineQuestionnaire. cbv zeta.
    eapply attempt_malformed; [reflexivity|apply Hreq|exact Hparse|exact Hmissing].
Qed.

(** What a generation returns is a JSON object in which the four groups are
    present and truthy; and when the research type of the form contains
    "questionnaire" (in any letter case) its [isQuestionnaire] is [true],
    whatever the model sent. *)
Theorem generation_returns_four_groups :
  forall (formData : Form.FormData) (v : Json Num),
    generateQuestionnaire formData = inr v ->
    exists fields,
      v = JObject fields
      /\ truthy (ownProperty Num "opening" fields) = true
      /\ truthy (ownProperty Num "core" fields) = true
      /\ truthy (ownProperty Num "followUps" fields) = true
      /\ truthy (ownProperty Num "closing" fields) = true
      /\ (asksForQuestionnaire toLowerCase formData = true ->
            ownProperty Num "isQuestionnaire" fields = Some (JBool true)).
Proof.
  intros formData v. unfold Gemini.generateQuestionnaire. cbv zeta. intros H.
  apply attempt_returns in H. destruct H as (response & _ & Hread).
  apply readResponse_returns in Hread.
  destruct Hread as (t & fields & _ & _ & H1 & H2 & H3 & H4 & ->).
  destruct (asksForQuestionnaire toLowerCase formData).
  - eexists. split; [reflexivity|].
    rewrite !ownProperty_setProperty_other by discriminate.
    rewrite ownProperty_setProperty. repeat split; assumption.
  - exists fields. repeat split; try assumption. discriminate.
Qed.

(** A questionnaire stays one through refinement: when the current document
    is flagged, the refined one is flagged too, whatever the research type
    of the form has become and whatever the model sent. *)
Theorem refinement_keeps_questionnaire_flag :
  forall (formData : Form.FormData) (currentContent : GeneratedContent)
         (refinementPrompt : string) (v : Json Num),
    isQuestionnaire currentContent = Some true ->
    refineQuestionnaire formData currentContent refinementPrompt = inr v ->
    exists fields,
      v = JObject fields
      /\ ownProperty Num "isQuestionnaire" fields = Some (JBool true).
Proof.
  intros formData currentContent refinementPrompt v Hflag.
  unfold Gemini.refineQuestionnaire, refinesQuestionnaire. rewrite Hflag. cbv zeta.
  intros H. apply attempt_returns in H. destruct H as (response & _ & Hread).
  apply readResponse_returns in Hread.
  destruct Hread as (t & fields & _ & _ & _ & _ & _ & _ & ->).
  eexists. split; [reflexivity|]. apply ownProperty_setProperty.
Qed.

End GeminiTheorems.

(** ** The generation service: what it sends *)

Section RequestTheorems.

Import Gemini GeminiFacts.

Variable Num : Type.
Variable numberTruthy : Num -> bool.
Variable trim : string -> string.
Variable toLowerCase : string -> string.
Variable jsonParse : string -> string + Json Num.
Variable stringify : GeneratedContent -> string.
Variable undefinedTrimMessage : string.
Variable nullPropertyMessage : string.

(** A generation and a refinement each put one request to the model, and
    what they return or throw is decided by the answer to that request.
    The request names the model [gemini-2.5-flash] and asks for JSON;
    without images its contents are the prompt as a plain string, and with
    images they are the prompt as the first part followed by one
    inline-data part (mime type and data) for each image of the form, in
    the order of the form. *)
Theorem request_carries_every_image_in_order :
  forall (formData : Form.FormData) (currentContent : GeneratedContent)
         (refinementPrompt : string),
    (exists (req : Request) (promptText : string)
            (rest : Thrown + Response -> Thrown + Json Num),
        (forall generateContent : Request -> Thrown + Response,
            generateQuestionnaire Num numberTruthy trim toLowerCase jsonParse
              generateContent undefinedTrimMessage nullPropertyMessage formData
            = rest (generateContent req))
        /\ model req = "gemini-2.5-flash"
        /\ responseMimeType req = "application/json"
        /\ contents req
           = match Form.productImages formData with
             | [] => Prompt promptText
             | images =>
                 Parts (TextPart promptText
                        :: map (fun image =>
                                  InlineData (Form.mimeType image) (Form.data image))
                               images)
             end)
    /\ (exists (req : Request) (promptText : string)
               (rest : Thrown + Response -> Thrown + Json Num),
          (forall generateContent : Request -> Thrown + Response,
              refineQuestionnaire Num numberTruthy trim toLowerCase jsonParse stringify
                generateContent undefinedTrimMessage nullPropertyMessage formData
                currentContent refinementPrompt
              = rest (generateContent req))
          /\ model req = "gemini-2.5-flash"
          /\ responseMimeType req = "application/json"
          /\ contents req
             = match Form.productImages formData with
               | [] => Prompt promptText
               | images =>
                   Parts (TextPart promptText
                          :: map (fun image =>
                                    InlineData (Form.mimeType image) (Form.data image))
                                 images)
               end).
Proof.
  intros formData currentContent refinementPrompt. split.
  - unfold generateQuestionnaire. cbv zeta.
    match goal with
    | |- context [request ?promptText ?schema ?temp formData] =>
        exists (request promptText schema temp formData), promptText
    end.
    eexists (fun answer =>
               match match answer with
                     | inl error => inl error
                     | inr response =>
                         readResponse Num numberTruthy trim jsonParse undefinedTrimMessage
                           nullPropertyMessage malformedMessage
                           (asksForQuestionnaire toLowerCase formData) response
                     end
               with
               | inl error => inl (rethrow generationFailedMessage error)
               | inr parsedContent => inr parsedContent
               end).
    split; [intros generateContent; reflexivity|].
    split; [reflexivity|]. split; [reflexivity|]. apply requestContents_images.
  - unfold refineQuestionnaire. cbv zeta.
    match goal with
    | |- context [request ?promptText ?schema ?temp formData] =>
        exists (request promptText schema temp formData), promptText
    end.
    eexists (fun answer =>
               match match answer with
                     | inl error => inl error
                     | inr response =>
                         readResponse Num numberTruthy trim jsonParse undefinedTrimMessage
                           nullPropertyMessage malformedRefinementMessage
                           (refinesQuestionnaire toLowerCase formData currentContent)
                           response
                     end
               with
               | inl error => inl (rethrow refinementFailedMessage error)
               | inr parsedContent => inr parsedContent
               end).
    split; [intros generateContent; reflexivity|].
    split; [reflexivity|]. split; [reflexivity|]. apply requestContents_images.
Qed.

End RequestTheorems.

(** ** The application while calls of the service are in flight *)

Module InFlightFacts.
Import Gemini GeminiFacts InFlight.

Section Facts.

Variable Num : Type.
Variable numberTruthy : Num -> bool.
Variable trim : string -> string.
Variable toLowerCase : string -> string.
Variable jsonParse : string -> string + Json Num.
Variable undefinedTrimMessage : string.
Variable nullPropertyMessage : string.

Local Abbreviation AppState := (AppState Num).
Local Abbreviation Event := (Event Num).
Local Abbreviation enabled := (enabled Num numberTruthy trim).
Local Abbreviation step :=
  (step Num numberTruthy trim toLowerCase jsonParse undefinedTrimMessage
     nullPropertyMessage).
Local Abbreviation run :=
  (run Num numberTruthy trim toLowerCase jsonParse undefinedTrimMessage
     nullPropertyMessage).

Lemma scriptShown_idle (st : AppState) :
  scriptShown Num numberTruthy st = true -> isLoading Num st = false.
Proof.
  unfold scriptShown, panel. destruct (isLoading Num st); [discriminate|reflexivity].
Qed.

Lemma generationFlags_idle (st : AppState) :
  generationFlags Num st -> isLoading Num st = false ->
  generating Num st = [] /\ isToneAdjusting Num st = "".
Proof.
  unfold generationFlags. intros Hflags Hidle.
  destruct (generating Num st) as [|g [|g' gs]].
  - split; [reflexivity|apply Hflags].
  - destruct Hflags as [Hloading _]. congruence.
  - contradiction.
Qed.

Lemma refinementFlags_idle (st : AppState) :
  refinementFlags Num st -> isRefining Num st = false -> refining Num st = [].
Proof.
  unfold refinementFlags. intros Hflags Hidle.
  destruct (refining Num st) as [|r [|r' rs]]; [reflexivity|congruence|contradiction].
Qed.

Lemma toneButtons_named (tone : string) :
  existsb (String.eqb tone) toneButtons = true -> tone <> "".
Proof.
  unfold toneButtons. simpl. intros H ->. discriminate H.
Qed.

(** Every event the application can take keeps the invariant. *)
Lemma step_invariant (e : Event) (st : AppState) :
  enabled e st = true -> invariant Num st -> invariant Num (step e st).
Proof.
  intros He (Hgen & Href & Herr). destruct e as
    [update|update|value| |tone| |k answer|k answer stringify current]; simpl in He.
  - split; [exact Hgen|]. split; [exact Href|exact Herr].
  - split; [exact Hgen|]. split; [exact Href|exact Herr].
  - split; [exact Hgen|]. split; [exact Href|exact Herr].
  - apply negb_true_iff in He.
    destruct (generationFlags_idle st Hgen He) as [Hnone Htone].
    split; [|split; [exact Href|left; reflexivity]].
    unfold generationFlags. simpl. rewrite Hnone. simpl. split; [reflexivity|exact Htone].
  - apply andb_prop in He. destruct He as [He _].
    apply andb_prop in He. destruct He as [He _].
    apply andb_prop in He. destruct He as [Hshown Hbutton].
    destruct (generationFlags_idle st Hgen (scriptShown_idle st Hshown)) as [Hnone _].
    split; [|split; [exact Href|left; reflexivity]].
    unfold generationFlags. simpl. rewrite Hnone. simpl.
    split; [reflexivity|apply toneButtons_named; exact Hbutton].
  - unfold step, handleSendRefinement.
    apply andb_prop in He. destruct He as [He Htone].
    apply andb_prop in He. destruct He as [He Hidle].
    apply andb_prop in He. destruct He as [_ Hinput].
    apply negb_true_iff in Hidle. apply negb_true_iff in Hinput.
    rewrite Hinput, Hidle, Htone. cbn [orb negb].
    destruct (generatedContent Num st) as [content|].
    + destruct (truthy Num numberTruthy (Some content)).
      * split; [exact Hgen|]. split; [|left; reflexivity].
        unfold refinementFlags. simpl.
        rewrite (refinementFlags_idle st Href Hidle). reflexivity.
      * split; [exact Hgen|]. split; [|exact Herr].
        unfold refinementFlags. simpl.
        rewrite (refinementFlags_idle st Href Hidle). reflexivity.
    + split; [exact Hgen|]. split; [|exact Herr].
      unfold refinementFlags. simpl.
      rewrite (refinementFlags_idle st Href Hidle). reflexivity.
  - apply bool_decide_eq_true in He. unfold step.
    destruct (generating Num st !! k) as [g|] eqn:Hk;
      [|split; [exact Hgen|split; [exact Href|exact Herr]]].
    unfold generationFlags in Hgen.
    destruct (generating Num st) as [|g0 [|g1 gs]] eqn:Hpending;
      [discriminate Hk| |contradiction].
    destruct k as [|k]; [|discriminate Hk]. injection Hk as ->.
    destruct Hgen as [_ Htone].
    split; [|split; [exact Href|]].
    + unfold generationFlags, generationSettled. simpl. rewrite Hpending. simpl.
      split; [reflexivity|]. destruct (forTone g); [reflexivity|exact Htone].
    + unfold serviceError, generationSettled. simpl.
      destruct (generateQuestionnaire _ _ _ _ _ _ _ _ _) as [err|content] eqn:Hcall;
        [|exact Herr].
      unfold generateQuestionnaire in Hcall. cbv zeta in Hcall.
      apply attempt_throws in Hcall. destruct Hcall as [-> | ->]; simpl; tauto.
  - apply bool_decide_eq_true in He. unfold step.
    destruct (refining Num st !! k) as [r|] eqn:Hk;
      [|split; [exact Hgen|split; [exact Href|exact Herr]]].
    unfold refinementFlags in Href.
    destruct (refining Num st) as [|r0 [|r1 rs]] eqn:Hpending;
      [discriminate Hk| |contradiction].
    destruct k as [|k]; [|discriminate Hk]. injection Hk as ->.
    split; [exact Hgen|]. split.
    + unfold refinementFlags, refinementSettled. simpl. rewrite Hpending. reflexivity.
    + unfold serviceError, refinementSettled. simpl.
      destruct (refineQuestionnaire _ _ _ _ _ _ _ _ _ _ _ _) as [err|content] eqn:Hcall;
        [|exact Herr].
      unfold refineQuestionnaire in Hcall. cbv zeta in Hcall.
      apply attempt_throws in Hcall. destruct Hcall as [-> | ->]; simpl; tauto.
Qed.

Lemma run_invariant (events : list Event) (st st' : AppState) :
  run events st = Some st' -> invariant Num st -> invariant Num st'.
Proof.
  revert st. induction events as [|e events IH]; intros st Hrun Hst.
  - injection Hrun as <-. exact Hst.
  - simpl in Hrun. destruct (enabled e st) eqn:He; [|discriminate Hrun].
    apply (IH _ Hrun). apply step_invariant; assumption.
Qed.

Lemma initialState_invariant : invariant Num (initialState Num).
Proof.
  split; [split; reflexivity|]. split; [reflexivity|left; reflexivity].
Qed.

End Facts.

End InFlightFacts.

Section InFlightTheorems.

Import Gemini InFlight InFlightFacts.

Variable Num : Type.
Variable numberTruthy : Num -> bool.
Variable trim : string -> string.
Variable toLowerCase : string -> string.
Variable jsonParse : string -> string + Json Num.
Variable undefinedTrimMessage : string.
Variable nullPropertyMessage : string.

Local Abbreviation run :=
  (run Num numberTruthy trim toLowerCase jsonParse undefinedTrimMessage
     nullPropertyMessage).


(** At any moment at most one generation and at most one refinement are in
    flight.  [isLoading] is true exactly while a generation is in flight and
    [isRefining] exactly while a refinement is; a tone is marked as being
    adjusted exactly while the generation in flight is one a tone button
    started.  So once every call has settled, no spinner and no disabled
    control is left behind. *)
Theorem flags_follow_the_calls_in_flight :
  forall (events : list (Event Num)) (st : AppState Num),
    run events (initialState Num) = Some st ->
    (length (generating Num st) <= 1)%nat
    /\ (length (refining Num st) <= 1)%nat
    /\ (isLoading Num st = true <-> generating Num st <> [])
    /\ (isRefining Num st = true <-> refining Num st <> [])
    /\ (isToneAdjusting Num st <> ""
        <-> exists g, generating Num st = [g] /\ forTone g = true).
Proof.
  intros events st Hrun.
  destruct (run_invariant Num numberTruthy trim toLowerCase jsonParse
              undefinedTrimMessage nullPropertyMessage events _ _ Hrun
              (initialState_invariant Num)) as (Hgen & Href & _).
  unfold generationFlags in Hgen. unfold refinementFlags in Href.
  destruct (generating Num st) as [|g [|g' gs]]; [| |contradiction];
    destruct (refining Num st) as [|r [|r' rs]]; try contradiction;
    simpl; (split; [lia|]); (split; [lia|]).
  - destruct Hgen as [Hl Ht]. rewrite Hl, Href, Ht.
    repeat split; try discriminate; try congruence.
    intros (g & Hg & _). discriminate Hg.
  - destruct Hgen as [Hl Ht]. rewrite Hl, Href, Ht.
    repeat split; try discriminate; try congruence.
    intros (g & Hg & _). discriminate Hg.
  - destruct Hgen as [Hl Ht]. rewrite Hl, Href.
    repeat split; try discriminate; try congruence.
    + intros Hn. exists g. split; [reflexivity|].
      destruct (forTone g); [reflexivity|contradiction].
    + intros (g0 & Hg & Hf). injection Hg as <-. rewrite Hf in Ht. exact Ht.
  - destruct Hgen as [Hl Ht]. rewrite Hl, Href.
    repeat split; try discriminate; try congruence.
    + intros Hn. exists g. split; [reflexivity|].
      destruct (forTone g); [reflexivity|contradiction].
    + intros (g0 & Hg & Hf). injection Hg as <-. rewrite Hf in Ht. exact Ht.
Qed.

End InFlightTheorems.

(** ** The images of the form *)

Section ImageTheorems.

Import App.

Lemma existsb_snoc {A} (p : A -> bool) (l : list A) (x : A) :
  p x = true -> existsb p (l ++ [x]) = true.
Proof.
  intros Hx. rewrite existsb_app. simpl. rewrite Hx.
  destruct (existsb p l); reflexivity.
Qed.

Lemma prefix_append_r (s t u : string) :
  String.prefix s t = true -> String.prefix s (t +:+ u) = true.
Proof.
  revert t. induction s as [|c s IH]; intros t H; [destruct (t +:+ u); reflexivity|].
  destruct t as [|c' t]; [discriminate H|].
  change (String c' t +:+ u) with (String c' (t +:+ u)). simpl in *.
  destruct (ascii_dec c c'); [apply IH; exact H|discriminate H].
Qed.

(** A file that was read and added is not read again: once its image is in
    the form, a later drop of a file whose name is the name of the first, or
    a beginning of that name, starts no reader for it, whenever the first
    one was read. *)
Theorem added_file_is_not_read_again :
  forall (file again : File) (result : option string) (now : N)
         (st st' : AppState),
    onloadend file result now st = Edit.Returned st' ->
    String.prefix (fileName again) (fileName file) = true ->
    handleImageAdd (Form.productImages (formData st')) (Some [again]) = []
    /\ exists image,
         Form.productImages (formData st') = Form.productImages (formData st) ++ [image]
         /\ Form.name image = fileName file +:+ "-" +:+ pretty now.
Proof.
  intros file again result now st st' Hload Hname. unfold onloadend in Hload.
  destruct result as [dataUrl|]; [|discriminate Hload].
  injection Hload as <-. unfold setFormData. rewrite exec_modify. simpl.
  split.
  - unfold alreadyAdded. rewrite existsb_snoc; [reflexivity|].
    simpl. apply prefix_append_r. exact Hname.
  - eexists. split; reflexivity.
Qed.

(** Adding an image and removing it by the name it got gives back the state
    of before, when no image had that name yet. *)
Theorem image_added_then_removed :
  forall (file : File) (result : option string) (now : N) (st st' : AppState),
    Forall (fun img => Form.name img <> fileName file +:+ "-" +:+ pretty now)
           (Form.productImages (formData st)) ->
    onloadend file result now st = Edit.Returned st' ->
    exec (handleImageRemove (fileName file +:+ "-" +:+ pretty now)) st' = st.
Proof.
  intros file result now st st' Hfresh Hload. unfold onloadend in Hload.
  destruct result as [dataUrl|]; [|discriminate Hload].
  injection Hload as <-. unfold handleImageRemove, setFormData.
  rewrite !exec_modify. simpl.
  rewrite List.filter_app. simpl. rewrite String.eqb_refl. simpl.
  rewrite app_nil_r.
  assert (List.filter
            (fun img => negb (String.eqb (Form.name img)
                                (fileName file +:+ "-" +:+ pretty now)))
            (Form.productImages (formData st))
          = Form.productImages (formData st)) as ->.
  { induction Hfresh as [|img imgs Himg _ IH]; simpl; [reflexivity|].
    apply String.eqb_neq in Himg. rewrite Himg. simpl. rewrite IH. reflexivity. }
  destruct st as [[] ? ? ? ?]. reflexivity.
Qed.

End ImageTheorems.

(** ** The chat window *)

Module ChatbotFacts.
Import Chatbot.

Section Facts.

Variable Session : Type.
Variable trim : string -> string.

Local Abbreviation ChatState := (ChatState Session).
Local Abbreviation step := (step Session trim).



End Facts.

End ChatbotFacts.

Section ChatbotTheorems.

Import Chatbot ChatbotFacts.

Variable Session : Type.
Variable trim : string -> string.


(** Once the chat session exists no message is lost: every further event
    leaves the messages as they are or adds to their end, and the session
    stays.  While there is no session, each opening of the window starts
    the messages over with a single one. *)
Theorem chat_messages_kept_once_connected :
  forall (e : Event Session) (st : ChatState Session),
    (chatRef Session st <> None ->
       chatRef Session (step Session trim e st) = chatRef Session st
       /\ exists more,
            messages Session (step Session trim e st) = messages Session st ++ more)
    /\ (forall created,
          chatRef Session st = None -> isOpen Session st = false ->
          exists m, messages Session (toggle Session created st) = [m]).
Proof.
  intros e st. split.
  - intros Hconnected. destruct e as [created|value|reply]; simpl.
    + unfold toggle. simpl.
      destruct (chatRef Session st) as [session|] eqn:Hc; [|congruence].
      destruct (negb (isOpen Session st)); simpl;
        (split; [reflexivity|exists []; rewrite app_nil_r; reflexivity]).
    + destruct (isOpen Session st && negb (isLoading Session st)); simpl;
        (split; [reflexivity|exists []; rewrite app_nil_r; reflexivity]).
    + destruct (isOpen Session st);
        [|split; [reflexivity|exists []; rewrite app_nil_r; reflexivity]].
      unfold handleSend.
      destruct (String.eqb (trim (input Session st)) "" || isLoading Session st);
        [split; [reflexivity|exists []; rewrite app_nil_r; reflexivity]|].
      simpl. split; [reflexivity|]. eexists. rewrite <- app_assoc. reflexivity.
  - intros created Hc Ho. unfold toggle. simpl. rewrite Ho, Hc. simpl.
    destruct created; simpl; eexists; reflexivity.
Qed.

End ChatbotTheorems.

(** ** The further properties at sample inputs *)

Lemma updateQuestionText_nothing_to_change_witness :
  Edit.updateQuestionText Edit.KeyCore "q2" "Describe your experience" (Some 0%nat)
    (Some Samples.survey)
  = Edit.Returned (Some Samples.survey).
Proof.
  apply (updateQuestionText_nothing_to_change Edit.KeyCore "q2"
           "Describe your experience" (Some 0%nat) Samples.survey
           [Samples.question "q1" "Rate ease of use" (Some LikertScale)
              (Some Samples.likert5);
            Samples.question "q2" "Describe your experience" (Some FreeText) None]).
  - reflexivity.
  - intros q Hq. vm_compute in Hq. injection Hq as <-. reflexivity.
Defined.

Lemma updateQuestionText_distinct_ids_commute_witness :
  EditLaws.andThen
    (Edit.updateQuestionText Edit.KeyCore "q1" "How easy is it?" (Some 0%nat)
       (Some Samples.survey))
    (Edit.updateQuestionText Edit.KeyClosing "q3" "Pick any" None)
  = EditLaws.andThen
      (Edit.updateQuestionText Edit.KeyClosing "q3" "Pick any" None (Some Samples.survey))
      (Edit.updateQuestionText Edit.KeyCore "q1" "How easy is it?" (Some 0%nat)).
Proof.
  apply (updateQuestionText_distinct_ids_commute Edit.KeyCore Edit.KeyClosing
           "q1" "q3" "How easy is it?" "Pick any" (Some 0%nat) None
           (Some Samples.survey)).
  discriminate.
Defined.


Lemma pdf_later_pages_start_at_top_margin_witness :
  exists doc,
    Pdf.handleExportPDF 210 297 Samples.noWrap (Some Samples.longScript) = Some doc
    /\ PdfOrder.startsAtTop (Pdf.drawn doc) 2.
Proof.
  destruct (pdf_later_pages_start_at_top_margin 210 297 Samples.noWrap
              Samples.longScript 2) as (doc & Hdoc & Htop).
  exists doc. split; [exact Hdoc|]. apply Htop.
  assert (Some (Pdf.pageCount doc) = Some 2%nat) as Hpages.
  { change (option_map Pdf.pageCount (Some doc) = Some 2%nat).
    rewrite <- Hdoc. vm_compute. reflexivity. }
  injection Hpages as ->. lia.
Defined.

Lemma service_throws_one_of_two_messages_witness :
  (ErrorObject Gemini.generationFailedMessage = ErrorObject Gemini.apiKeyMessage
   \/ ErrorObject Gemini.generationFailedMessage
      = ErrorObject Gemini.generationFailedMessage)
  /\ ErrorObject Gemini.generationFailedMessage <> ErrorObject Gemini.malformedMessage.
Proof.
  apply (proj1 (service_throws_one_of_two_messages Z ServiceSamples.numberTruthy
                  ServiceSamples.sameString ServiceSamples.sameString
                  (ServiceSamples.parsingTo ServiceSamples.fourGroups)
                  (fun _ => "") ServiceSamples.unreachable "" ""
                  ServiceSamples.form Samples.survey ""
                  (ErrorObject Gemini.generationFailedMessage))).
  vm_compute. reflexivity.
Defined.

Lemma service_reports_malformed_as_general_failure_witness :
  Gemini.generateQuestionnaire Z ServiceSamples.numberTruthy ServiceSamples.sameString
    ServiceSamples.sameString (ServiceSamples.parsingTo ServiceSamples.openingOnly)
    (ServiceSamples.answering "{}") "" "" ServiceSamples.form
  = inl (ErrorObject Gemini.generationFailedMessage)
  /\ Gemini.refineQuestionnaire Z ServiceSamples.numberTruthy ServiceSamples.sameString
       ServiceSamples.sameString (ServiceSamples.parsingTo ServiceSamples.openingOnly)
       (fun _ => "") (ServiceSamples.answering "{}") "" "" ServiceSamples.form
       Samples.survey "Shorter, please"
     = inl (ErrorObject Gemini.refinementFailedMessage).
Proof.
  apply (service_reports_malformed_as_general_failure Z ServiceSamples.numberTruthy
           ServiceSamples.sameString ServiceSamples.sameString
           (ServiceSamples.parsingTo ServiceSamples.openingOnly) (fun _ => "")
           (ServiceSamples.answering "{}") "" "" ServiceSamples.form Samples.survey
           "Shorter, please" "{}" [("opening", Gemini.JArray [])]).
  - intros req. reflexivity.
  - reflexivity.
  - reflexivity.
Defined.

Lemma generation_returns_four_groups_witness :
  exists fields,
    ServiceSamples.flaggedFourGroups = Gemini.JObject fields
    /\ Gemini.truthy Z ServiceSamples.numberTruthy (Gemini.ownProperty Z "opening" fields)
       = true
    /\ Gemini.truthy Z ServiceSamples.numberTruthy (Gemini.ownProperty Z "core" fields)
       = true
    /\ Gemini.truthy Z ServiceSamples.numberTruthy (Gemini.ownProperty Z "followUps" fields)
       = true
    /\ Gemini.truthy Z ServiceSamples.numberTruthy (Gemini.ownProperty Z "closing" fields)
       = true
    /\ (Gemini.asksForQuestionnaire ServiceSamples.sameString ServiceSamples.form = true ->
          Gemini.ownProperty Z "isQuestionnaire" fields = Some (Gemini.JBool true)).
Proof.
  apply (generation_returns_four_groups Z ServiceSamples.numberTruthy
           ServiceSamples.sameString ServiceSamples.sameString
           (ServiceSamples.parsingTo ServiceSamples.fourGroups)
           (ServiceSamples.answering "{}") "" "" ServiceSamples.form
           ServiceSamples.flaggedFourGroups).
  vm_compute. reflexivity.
Defined.

Lemma refinement_keeps_questionnaire_flag_witness :
  exists fields,
    ServiceSamples.flaggedFourGroups = Gemini.JObject fields
    /\ Gemini.ownProperty Z "isQuestionnaire" fields = Some (Gemini.JBool true).
Proof.
  apply (refinement_keeps_questionnaire_flag Z ServiceSamples.numberTruthy
           ServiceSamples.sameString ServiceSamples.sameString
           (ServiceSamples.parsingTo ServiceSamples.fourGroups) (fun _ => "")
           (ServiceSamples.answering "{}") "" ""
           {| Form.researchType := "Generative Interview";
              Form.targetAudience := "End Users";
              Form.goalFocus := "Identify Pain Points";
              Form.productStage := "Idea";
              Form.tone := "Formal";
              Form.productInfo := "";
              Form.productImages := [] |}
           Samples.survey "Shorter, please" ServiceSamples.flaggedFourGroups).
  - reflexivity.
  - vm_compute. reflexivity.
Defined.


Lemma flags_follow_the_calls_in_flight_witness :
  (length (InFlight.generating Z ServiceSamples.afterLateFailure) <= 1)%nat
  /\ (length (InFlight.refining Z ServiceSamples.afterLateFailure) <= 1)%nat
  /\ (InFlight.isLoading Z ServiceSamples.afterLateFailure = true
      <-> InFlight.generating Z ServiceSamples.afterLateFailure <> [])
  /\ (InFlight.isRefining Z ServiceSamples.afterLateFailure = true
      <-> InFlight.refining Z ServiceSamples.afterLateFailure <> [])
  /\ (InFlight.isToneAdjusting Z ServiceSamples.afterLateFailure <> ""
      <-> exists g,
            InFlight.generating Z ServiceSamples.afterLateFailure = [g]
            /\ InFlight.forTone g = true).
Proof.
  apply (flags_follow_the_calls_in_flight Z ServiceSamples.numberTruthy
           ServiceSamples.sameString ServiceSamples.sameString
           (ServiceSamples.parsingTo ServiceSamples.fourGroups) "" ""
           ServiceSamples.lateFailure).
  vm_compute. reflexivity.
Defined.

(** The late failure, run: the new script is in the state and nothing is in
    flight any more, but what the panel shows is the error of the
    refinement that was sent for the script of before. *)
Example late_failure_hides_the_new_script :
  InFlight.generatedContent Z ServiceSamples.afterLateFailure
  = Some ServiceSamples.fourGroups
  /\ InFlight.generating Z ServiceSamples.afterLateFailure = []
  /\ InFlight.refining Z ServiceSamples.afterLateFailure = []
  /\ InFlight.panel Z ServiceSamples.numberTruthy ServiceSamples.afterLateFailure
     = InFlight.ErrorDisplay Gemini.refinementFailedMessage.
Proof. vm_compute. repeat split. Qed.

Lemma added_file_is_not_read_again_witness :
  App.handleImageAdd (Form.productImages (App.formData ServiceSamples.withScreenshot))
    (Some [ServiceSamples.screenshot]) = []
  /\ exists image,
       Form.productImages (App.formData ServiceSamples.withScreenshot)
       = Form.productImages (App.formData (ServiceSamples.showing None)) ++ [image]
       /\ Form.name image = "screen.png" +:+ "-" +:+ pretty 1700000000000%N.
Proof.
  apply (added_file_is_not_read_again ServiceSamples.screenshot ServiceSamples.screenshot
           (Some "data:image/png;base64,AAAA") 1700000000000%N
           (ServiceSamples.showing None) ServiceSamples.withScreenshot).
  - vm_compute. reflexivity.
  - reflexivity.
Defined.

Lemma image_added_then_removed_witness :
  exec (App.handleImageRemove ("screen.png" +:+ "-" +:+ pretty 1700000000000%N))
       ServiceSamples.withScreenshot
  = ServiceSamples.showing None.
Proof.
  apply (image_added_then_removed ServiceSamples.screenshot
           (Some "data:image/png;base64,AAAA") 1700000000000%N
           (ServiceSamples.showing None) ServiceSamples.withScreenshot).
  - constructor.
  - vm_compute. reflexivity.
Defined.

Lemma chat_messages_kept_once_connected_witness :
  Chatbot.chatRef unit
    (Chatbot.step unit ServiceSamples.sameString
       (Chatbot.Send unit (ServiceSamples.replying "A five-point agreement scale."))
       ServiceSamples.chatting)
  = Chatbot.chatRef unit ServiceSamples.chatting
  /\ exists more,
       Chatbot.messages unit
         (Chatbot.step unit ServiceSamples.sameString
            (Chatbot.Send unit (ServiceSamples.replying "A five-point agreement scale."))
            ServiceSamples.chatting)
       = Chatbot.messages unit ServiceSamples.chatting ++ more.
Proof.
  apply (proj1 (chat_messages_kept_once_connected unit ServiceSamples.sameString
                  (Chatbot.Send unit
                     (ServiceSamples.replying "A five-point agreement scale."))
                  ServiceSamples.chatting)).
  discriminate.
Defined.

(** The exchange of the witness, run. *)
Example chat_exchange :
  Chatbot.messages unit
    (Chatbot.step unit ServiceSamples.sameString
       (Chatbot.Send unit (ServiceSamples.replying "A five-point agreement scale."))
       ServiceSamples.chatting)
  = [Chatbot.greeting;
     {| Chatbot.role := Chatbot.RoleUser;
        Chatbot.text := Some "What is a Likert scale?" |};
     {| Chatbot.role := Chatbot.RoleModel;
        Chatbot.text := Some "A five-point agreement scale." |}].
Proof. reflexivity. Qed.

(** ** Reading a text back after an edit *)

Section EditLookup.

Import Edit EditSpec EditLaws EditFacts EditLawsFacts.

Lemma firstWithId_none (target : string) (qs : list Question) :
  Forall (fun p => String.eqb (id p) target = false) qs ->
  firstWithId target qs = None.
Proof.
  unfold firstWithId. induction 1 as [|p qs Hp _ IH]; simpl; [reflexivity|].
  rewrite Hp. exact IH.
Qed.

(** In the patched list the first question with the id is the one of before
    with the new text. *)
Lemma firstWithId_patchQuestions (target newText : string) (qs : list Question) :
  firstWithId target (patchQuestions target newText qs)
  = option_map (setText newText) (firstWithId target qs).
Proof.
  unfold patchQuestions, findIndex.
  destruct (findIndexFrom_spec (fun q => String.eqb (id q) target) qs 0)
    as [[-> Hnone]|(pre & q & post & -> & Hpre & Hq & ->)].
  - simpl. rewrite (firstWithId_none target qs Hnone). reflexivity.
  - assert ((-1 <? 0 + Z.of_nat (length pre))%Z = true) as -> by (apply Z.ltb_lt; lia).
    replace (Z.to_nat (0 + Z.of_nat (length pre))) with (length pre + 0)%nat by lia.
    rewrite alter_app_r. simpl.
    rewrite (firstWithId_app target pre post q Hpre Hq).
    rewrite (firstWithId_app target pre post (setText newText q) Hpre Hq).
    reflexivity.
Qed.

(** For any other id the first question with it is the same as before. *)
Lemma firstWithId_patchQuestions_other (target other newText : string)
    (qs : list Question) :
  other <> target ->
  firstWithId other (patchQuestions target newText qs) = firstWithId other qs.
Proof.
  intros Hne. unfold patchQuestions, findIndex.
  destruct (findIndexFrom_spec (fun q => String.eqb (id q) target) qs 0)
    as [[-> _]|(pre & q & post & -> & _ & Hq & ->)].
  - reflexivity.
  - assert ((-1 <? 0 + Z.of_nat (length pre))%Z = true) as -> by (apply Z.ltb_lt; lia).
    replace (Z.to_nat (0 + Z.of_nat (length pre))) with (length pre + 0)%nat by lia.
    rewrite alter_app_r. simpl. apply String.eqb_eq in Hq.
    assert (String.eqb (id q) other = false) as Hother
      by (apply String.eqb_neq; congruence).
    unfold firstWithId. induction pre as [|p pre IH]; simpl.
    + rewrite Hother. reflexivity.
    + destruct (String.eqb (id p) other); [reflexivity|exact IH].
Qed.

(** After an edit the list it addressed reads the new text back: the first
    question with the id is the one of before with [newText] as its text,
    and for every other id the first question is the one of before,
    unchanged. *)
Theorem updateQuestionText_then_lookup :
  forall (section : ContentKey) (target newText : string) (coreIndex : option nat)
         (d : GeneratedContent) (qs : list Question),
    addressed section coreIndex d = Some qs ->
    exists d' qs',
      updateQuestionText section target newText coreIndex (Some d) = Returned (Some d')
      /\ addressed section coreIndex d' = Some qs'
      /\ firstWithId target qs'
         = option_map (fun q => {| id := id q; text := newText;
                                   type := type q; options := options q |})
                      (firstWithId target qs)
      /\ (forall other, other <> target -> firstWithId other qs' = firstWithId other qs).
Proof.
  intros section target newText coreIndex d qs Haddr.
  rewrite updateQuestionText_Some.
  destruct section, coreIndex as [i|]; simpl in Haddr; try discriminate Haddr;
    try (injection Haddr as <-; eexists; eexists; split; [reflexivity|];
         split; [reflexivity|]; split;
         [apply firstWithId_patchQuestions
         |intros other Hne; apply firstWithId_patchQuestions_other; exact Hne]).
  destruct (core d !! i) as [sec|] eqn:Hsec; [|discriminate Haddr].
  simpl in Haddr. injection Haddr as <-.
  eexists. eexists. split; [reflexivity|]. split.
  - simpl. rewrite list_lookup_insert_eq by (eapply lookup_lt_Some; exact Hsec).
    reflexivity.
  - split.
    + apply firstWithId_patchQuestions.
    + intros other Hne. apply firstWithId_patchQuestions_other. exact Hne.
Qed.

End EditLookup.

Lemma updateQuestionText_then_lookup_witness :
  exists d' qs',
    Edit.updateQuestionText Edit.KeyClosing "q3" "Pick any" None (Some Samples.survey)
    = Edit.Returned (Some d')
    /\ EditLaws.addressed Edit.KeyClosing None d' = Some qs'
    /\ EditLaws.firstWithId "q3" qs'
       = Some (Samples.question "q3" "Pick any" (Some MultipleChoice)
                 (Some ["A"; "B"; "C"]))
    /\ (forall other, other <> "q3" ->
          EditLaws.firstWithId other qs'
          = EditLaws.firstWithId other (closing Samples.survey)).
Proof.
  apply (updateQuestionText_then_lookup Edit.KeyClosing "q3" "Pick any" None
           Samples.survey (closing Samples.survey)).
  reflexivity.
Defined.

(** ** The delimited export after a text edit *)

Module EditedExportFacts.
Import Qualtrics QualtricsSpec QualtricsFacts Edit EditSpec EditFacts EditedExport.

(** The text of a question does not count. *)
Lemma countIn_setText (c : Category) (t : string) (pre post : list Question)
    (q : Question) :
  countIn c (pre ++ setText t q :: post) = countIn c (pre ++ q :: post).
Proof. rewrite !countIn_app. reflexivity. Qed.

(** The lines of a question with another text: the header line alone is
    another one, and a question without a type has no line either way. *)
Lemma numberedQuestion_setText (b : list Question) (t : string) (q : Question) :
  (numberedQuestion b q = [] /\ numberedQuestion b (setText t q) = [])
  \/ exists old new rest,
       numberedQuestion b q = old :: rest
       /\ numberedQuestion b (setText t q) = new :: rest
       /\ headerRewritten t old new.
Proof.
  unfold numberedQuestion. destruct q as [i t0 [ty|] os]; simpl; [|left; split; reflexivity].
  right. destruct ty; simpl; eexists; eexists; eexists;
    (split; [reflexivity|]; split; [reflexivity|]);
    eexists; eexists; (left + right); split; reflexivity.
Qed.

Lemma numberedQuestions_patched (target newText : string) (qs qs' b : list Question) :
  textPatched target newText qs qs' ->
  numberedQuestions b qs' = numberedQuestions b qs
  \/ oneHeaderRewritten newText (numberedQuestions b qs) (numberedQuestions b qs').
Proof.
  intros [[_ ->]|(pre & q & post & -> & _ & _ & ->)]; [left; reflexivity|].
  rewrite !numberedQuestions_app. simpl.
  rewrite (numberedQuestions_counts post ((b ++ pre) ++ [setText newText q])
             ((b ++ pre) ++ [q]))
    by (intros c; rewrite !countIn_app; reflexivity).
  destruct (numberedQuestion_setText (b ++ pre) newText q)
    as [[-> ->]|(old & new & rest & -> & -> & Hh)]; [left; reflexivity|].
  right. exists (numberedQuestions b pre), (rest ++ numberedQuestions ((b ++ pre) ++ [q]) post),
    old, new.
  split; [reflexivity|]. split; [reflexivity|exact Hh].
Qed.

Lemma textPatched_counts (target newText : string) (qs qs' : list Question)
    (c : Category) :
  textPatched target newText qs qs' -> countIn c qs' = countIn c qs.
Proof.
  intros [[_ ->]|(pre & q & post & -> & _ & _ & ->)]; [reflexivity|].
  apply countIn_setText.
Qed.

Lemma textPatched_nil (target newText : string) (qs' : list Question) :
  textPatched target newText [] qs' -> qs' = [].
Proof.
  intros [[_ ->]|(pre & q & post & H & _)]; [reflexivity|].
  destruct pre; discriminate H.
Qed.

Lemma oneHeaderRewritten_between (newText : string) (before after ls ls' : list string) :
  oneHeaderRewritten newText ls ls' ->
  oneHeaderRewritten newText (before ++ ls ++ after) (before ++ ls' ++ after).
Proof.
  intros (above & below & old & new & -> & -> & Hh).
  exists (before ++ above), (below ++ after), old, new.
  rewrite <- !app_assoc. simpl. split; [reflexivity|]. split; [reflexivity|exact Hh].
Qed.

(** Two lists of groups that differ in the questions of one group, patched
    in one text. *)
Lemma numberedGroups_patched (target newText title : string)
    (g1 g2 : list (string * list Question)) (qs qs' : list Question) :
  textPatched target newText qs qs' ->
  let ls := numberedGroups [] (List.filter nonEmpty (g1 ++ (title, qs) :: g2)) in
  let ls' := numberedGroups [] (List.filter nonEmpty (g1 ++ (title, qs') :: g2)) in
  ls' = ls \/ oneHeaderRewritten newText ls ls'.
Proof.
  intros Hp. cbv zeta. rewrite !List.filter_app. simpl List.filter.
  destruct qs as [|q0 qs0].
  - apply textPatched_nil in Hp. subst qs'. left. reflexivity.
  - assert (nonEmpty (title, qs') = true) as Hne.
    { destruct Hp as [[_ ->]|(pre & q & post & _ & _ & _ & ->)]; [reflexivity|].
      destruct pre; reflexivity. }
    rewrite Hne. change (nonEmpty (title, q0 :: qs0)) with true. cbv iota.
    rewrite !numberedGroups_app. simpl app at 1 3.
    change ([] ++ flat_map snd (List.filter nonEmpty g1))
      with (flat_map snd (List.filter nonEmpty g1)).
    set (b := flat_map snd (List.filter nonEmpty g1)).
    cbn [numberedGroups].
    rewrite (numberedGroups_counts (List.filter nonEmpty g2) (b ++ qs') (b ++ q0 :: qs0))
      by (intros c; rewrite !countIn_app, (textPatched_counts _ _ _ _ c Hp); reflexivity).
    destruct (numberedQuestions_patched target newText (q0 :: qs0) qs' b Hp) as [->|Hone].
    + left. reflexivity.
    + right.
      apply (oneHeaderRewritten_between newText
               (numberedGroups [] (List.filter nonEmpty g1) ++ [blockMarker title; ""])
               (numberedGroups (b ++ q0 :: qs0) (List.filter nonEmpty g2))) in Hone.
      rewrite <- !app_assoc in Hone. exact Hone.
Qed.

End EditedExportFacts.

Section EditedExportTheorems.

Import Qualtrics QualtricsSpec QualtricsFacts Edit EditSpec EditFacts EditLawsFacts.
Import EditedExport EditedExportFacts.

(** A text edit is local in the delimited export: the lines of the edited
    document are the lines of before, or they are the lines of before but
    for one header line, which keeps its number and has the new text.  No
    line is added or dropped and no question gets another number. *)
Theorem text_edit_rewrites_one_header_line :
  forall (section : ContentKey) (target newText : string) (coreIndex : option nat)
         (d d' : GeneratedContent),
    updateQuestionText section target newText coreIndex (Some d) = Returned (Some d') ->
    generatedLines d' = generatedLines d
    \/ oneHeaderRewritten newText (generatedLines d) (generatedLines d').
Proof.
  intros section target newText coreIndex d d' Hedit.
  rewrite updateQuestionText_Some in Hedit.
  destruct (generateBody_numbered d) as [_ ->].
  destruct (generateBody_numbered d') as [_ ->].
  unfold numberedLines, groups.
  destruct section, coreIndex as [i|]; try discriminate Hedit;
    try (injection Hedit as <-; simpl opening; simpl core; simpl followUps; simpl closing).
  - apply (numberedGroups_patched target newText _ [] _ _ _
             (patchQuestions_spec target newText (opening d))).
  - apply (numberedGroups_patched target newText _ [] _ _ _
             (patchQuestions_spec target newText (opening d))).
  - destruct (core d !! i) as [sec|] eqn:Hsec; [|discriminate Hedit].
    injection Hedit as <-. simpl opening; simpl core; simpl followUps; simpl closing.
    rewrite insert_take_drop by (eapply lookup_lt_Some; exact Hsec).
    assert (Hcore := take_drop_middle (core d) i sec Hsec).
    set (pre := take i (core d)) in *. set (post := drop (S i) (core d)) in *.
    clearbody pre post. rewrite <- Hcore.
    rewrite !map_app, !map_cons, <- !app_assoc. simpl app.
    apply (numberedGroups_patched target newText ("Core Questions: " +:+ topic sec)
             (("Opening / Warm-up Questions", opening d) :: map coreGroup pre)
             _ _ _ (patchQuestions_spec target newText (questions sec))).
  - left. reflexivity.
  - rewrite !app_comm_cons.
    replace (map coreGroup (core d)
             ++ [("Follow-ups / Probes", patchQuestions target newText (followUps d));
                 ("Closing / Wrap-up", closing d)])
      with ((map coreGroup (core d))
             ++ ("Follow-ups / Probes", patchQuestions target newText (followUps d))
                :: [("Closing / Wrap-up", closing d)]) by reflexivity.
    apply (numberedGroups_patched target newText "Follow-ups / Probes"
             (("Opening / Warm-up Questions", opening d) :: map coreGroup (core d))
             [("Closing / Wrap-up", closing d)] _ _
             (patchQuestions_spec target newText (followUps d))).
  - apply (numberedGroups_patched target newText "Follow-ups / Probes"
             (("Opening / Warm-up Questions", opening d) :: map coreGroup (core d))
             [("Closing / Wrap-up", closing d)] _ _
             (patchQuestions_spec target newText (followUps d))).
  - assert (forall g : string * list Question,
              map coreGroup (core d) ++ [("Follow-ups / Probes", followUps d); g]
              = (map coreGroup (core d) ++ [("Follow-ups / Probes", followUps d)]) ++ [g])
      as Hlast by (intros g; rewrite <- app_assoc; reflexivity).
    rewrite !Hlast.
    apply (numberedGroups_patched target newText "Closing / Wrap-up"
             (("Opening / Warm-up Questions", opening d) :: map coreGroup (core d)
              ++ [("Follow-ups / Probes", followUps d)])
             [] _ _
             (patchQuestions_spec target newText (closing d))).
  - assert (forall g : string * list Question,
              map coreGroup (core d) ++ [("Follow-ups / Probes", followUps d); g]
              = (map coreGroup (core d) ++ [("Follow-ups / Probes", followUps d)]) ++ [g])
      as Hlast by (intros g; rewrite <- app_assoc; reflexivity).
    rewrite !Hlast.
    apply (numberedGroups_patched target newText "Closing / Wrap-up"
             (("Opening / Warm-up Questions", opening d) :: map coreGroup (core d)
              ++ [("Follow-ups / Probes", followUps d)])
             [] _ _
             (patchQuestions_spec target newText (closing d))).
Qed.

End EditedExportTheorems.

Lemma text_edit_rewrites_one_header_line_witness :
  Qualtrics.generatedLines
    {| opening := opening Samples.survey; core := core Samples.survey;
       followUps := followUps Samples.survey;
       closing := Edit.patchQuestions "q3" "Pick any" (closing Samples.survey);
       isQuestionnaire := isQuestionnaire Samples.survey |}
  = Qualtrics.generatedLines Samples.survey
  \/ EditedExport.oneHeaderRewritten "Pick any"
       (Qualtrics.generatedLines Samples.survey)
       (Qualtrics.generatedLines
          {| opening := opening Samples.survey; core := core Samples.survey;
             followUps := followUps Samples.survey;
             closing := Edit.patchQuestions "q3" "Pick any" (closing Samples.survey);
             isQuestionnaire := isQuestionnaire Samples.survey |}).
Proof.
  apply (text_edit_rewrites_one_header_line Edit.KeyClosing "q3" "Pick any" None
           Samples.survey).
  reflexivity.
Defined.
